(** * Tecnologia-ECCOS: reservation form, conflict engine, admin status
      workflow and admin chat controls.

    The development embeds
    - the "Nova Reserva" page (form schema [formSchema] and the submission
      handler [onSubmit]),
    - the availability engine the page calls through its reservation
      service ([findConflicts], [overlaps]),
    - the purchase administration page ([handleStatusChange]),
    - the admin chat ([canEditOrDelete]),
    and proves the properties stated about them.  It then goes on to the
    time fields and check boxes of the form ([autoCompleteTime],
    [onCheckedChange]), the list, search and unread badges of the purchase
    page ([filteredRequests], [checkUnreadMessages], [handleOpenChat]),
    the handlers of the chat ([handleFileSelect], [handleSendMessage],
    [handleEditMessage]) and the redirection after login
    ([handlePostLogin]). *)

From Stdlib Require Import ZArith Ascii String List Bool Lia DecimalString DecimalPos DecimalZ.
From stdpp Require Import base gmap sets list strings.
Import ListNotations.

Local Open Scope Z_scope.

(** ** JavaScript values used by the pages *)

Module JS.

(** *** Strings

    A JS string is modelled by a Rocq [string], one character per code
    unit; the fields studied here hold Latin-1 text, whose code units fit
    a character.  (The message literals of the pages are payloads only and
    are written as they appear in the source.)  The relational operators
    [<=] and [>=] on two strings compare code units lexicographically, a
    proper prefix being smaller: this is [String.compare]. *)

Definition str_le (a b : string) : bool := String.leb a b.
Definition str_ge (a b : string) : bool := String.leb b a.

Definition code (c : ascii) : Z := Z.of_N (N_of_ascii c).

Definition in_range (lo hi c : ascii) : bool :=
  (code lo <=? code c) && (code c <=? code hi).

Definition isDigit (c : ascii) : bool := in_range "0" "9" c.

Definition digitVal (c : ascii) : Z := code c - 48.

(** [s.split(sep)] for a one-character separator. *)
Fixpoint split_go (sep : ascii) (cur : string) (s : string) : list string :=
  match s with
  | EmptyString => [cur]
  | String c r =>
      if Ascii.eqb c sep then cur :: split_go sep EmptyString r
      else split_go sep (cur ++ String c EmptyString)%string r
  end.

Definition split (sep : ascii) (s : string) : list string :=
  split_go sep EmptyString s.

(** *** Numbers

    [num] is a JS number restricted to what the pages compute with: an
    integer, or [NaN].  Arithmetic propagates [NaN]; every comparison with
    [NaN] is false. *)

Inductive num := NaN | Int (z : Z).

Definition num_add (a b : num) : num :=
  match a, b with Int x, Int y => Int (x + y) | _, _ => NaN end.
Definition num_mul (a b : num) : num :=
  match a, b with Int x, Int y => Int (x * y) | _, _ => NaN end.
Definition num_lt (a b : num) : bool :=
  match a, b with Int x, Int y => x <? y | _, _ => false end.
Definition num_le (a b : num) : bool :=
  match a, b with Int x, Int y => x <=? y | _, _ => false end.
Definition num_gt (a b : num) : bool := num_lt b a.
Definition num_ge (a b : num) : bool := num_le b a.

Fixpoint digits (acc : Z) (s : string) : num :=
  match s with
  | EmptyString => Int acc
  | String c r => if isDigit c then digits (10 * acc + digitVal c) r else NaN
  end.

(** [Number(s)] on a string: the empty string gives 0 and a run of decimal
    digits its value.  The other literal forms of the language (sign,
    fraction, exponent, radix prefix, surrounding blanks) never reach the
    arithmetic of the pages, whose inputs have passed a digit pattern
    first; they are mapped to [NaN] here. *)
Definition Number (s : string) : num := digits 0 s.

(** Array destructuring [[a, b] = xs]: a missing element is [undefined],
    which arithmetic turns into [NaN]. *)
Definition elem (xs : list num) (i : nat) : num := nth i xs NaN.

(** *** Regular expressions

    The fragment used by the form: literal characters, character ranges,
    concatenation and alternation.  [test] is the anchored match
    [/^r$/.test(s)], computed with derivatives. *)

Inductive regex :=
| Void
| Eps
| Chr (c : ascii)
| Rng (lo hi : ascii)
| Cat (r1 r2 : regex)
| Alt (r1 r2 : regex).

Fixpoint nullable (r : regex) : bool :=
  match r with
  | Void => false
  | Eps => true
  | Chr _ => false
  | Rng _ _ => false
  | Cat a b => nullable a && nullable b
  | Alt a b => nullable a || nullable b
  end.

Fixpoint deriv (c : ascii) (r : regex) : regex :=
  match r with
  | Void => Void
  | Eps => Void
  | Chr d => if Ascii.eqb c d then Eps else Void
  | Rng lo hi => if in_range lo hi c then Eps else Void
  | Cat a b =>
      if nullable a then Alt (Cat (deriv c a) b) (deriv c b)
      else Cat (deriv c a) b
  | Alt a b => Alt (deriv c a) (deriv c b)
  end.

Fixpoint test (r : regex) (s : string) : bool :=
  match s with
  | EmptyString => nullable r
  | String c s' => test (deriv c r) s'
  end.

(** The words of a regular expression, used to reason about [test]. *)
Fixpoint lang (r : regex) (s : string) : Prop :=
  match r with
  | Void => False
  | Eps => s = EmptyString
  | Chr c => s = String c EmptyString
  | Rng lo hi => exists c, s = String c EmptyString /\ in_range lo hi c = true
  | Cat a b => exists s1 s2, s = (s1 ++ s2)%string /\ lang a s1 /\ lang b s2
  | Alt a b => lang a s \/ lang b s
  end.

(** [\d] *)
Definition digit : regex := Rng "0" "9".

End JS.

(** ** Effects

    Handlers are [async] functions that read and write remote collections
    and component state and may reject.  They are run over an explicit
    world [W]; a computation returns either an exception or a value, and
    the world it leaves. *)

Module Eff.

Inductive Service := SvcReservations | SvcEmail | SvcFirestore | SvcNotifications.

(** What a rejected promise or a [throw] carries. *)
Inductive Exn :=
| InvalidWindow
| Unavailable (s : Service)
| NotFound.

Definition M (W A : Type) : Type := W -> (Exn + A) * W.

Definition ret {W A} (a : A) : M W A := fun w => (inr a, w).

Definition bind {W A B} (m : M W A) (k : A -> M W B) : M W B :=
  fun w => match m w with
           | (inl e, w1) => (inl e, w1)
           | (inr a, w1) => k a w1
           end.

Definition throw {W A} (e : Exn) : M W A := fun w => (inl e, w).

Definition get {W} : M W W := fun w => (inr w, w).
Definition modify {W} (f : W -> W) : M W unit := fun w => (inr tt, f w).

(** [try { body } catch (error) { handler } finally { fin }] *)
Definition try_catch_finally {W A}
    (body : M W A) (handler : Exn -> M W A) (fin : M W unit) : M W A :=
  fun w =>
    let '(r1, w1) := body w in
    let '(r2, w2) := match r1 with
                     | inl e => handler e w1
                     | inr a => (inr a, w1)
                     end in
    match fin w2 with
    | (inl e, w3) => (inl e, w3)
    | (inr _, w3) => (r2, w3)
    end.

(** [try { body } catch (error) { handler }] *)
Definition try_catch {W A} (body : M W A) (handler : Exn -> M W A) : M W A :=
  try_catch_finally body handler (ret tt).

End Eff.

Import Eff.

Notation "'let*' x ':=' m 'in' k" := (bind m (fun x => k))
  (at level 10, x name, m at level 100, k at level 200, only parsing).
Notation "m ;; k" := (bind m (fun _ => k))
  (at level 100, k at level 200, right associativity, only parsing).

(** ** Types shared by the services ([@/services/types]) *)

Module Types.

Inductive RequestStatus :=
| pending | approved | rejected | in_progress | completed | canceled.

Definition RequestStatus_eqb (a b : RequestStatus) : bool :=
  match a, b with
  | pending, pending | approved, approved | rejected, rejected
  | in_progress, in_progress | completed, completed | canceled, canceled => true
  | _, _ => false
  end.

(** The text stored in the [status] field. *)
Definition status_text (s : RequestStatus) : string :=
  match s with
  | pending => "pending"
  | approved => "approved"
  | rejected => "rejected"
  | in_progress => "in-progress"
  | completed => "completed"
  | canceled => "canceled"
  end.

(** A [Date].  [toDateString] prints the local calendar day and drops the
    time of day; the day is kept as a day number, which determines the
    printed text. *)
Record Date := mkDate { day : Z; timeOfDay : Z }.

Definition toDateString (d : Date) : Z := day d.

(** The signed-in account of [useAuth]. *)
Record User := mkUser {
  displayName : option string;
  email : option string;
  uid : string
}.

(** [x || fallback] on an optional string: [null], [undefined] and the
    empty string are falsy. *)
Definition or_else (x : option string) (fallback : string) : string :=
  match x with
  | Some s => if String.eqb s EmptyString then fallback else s
  | None => fallback
  end.

End Types.

Import Types.

(** ** The reservation service and the availability engine *)

Module Reservations.

(** The document handed to [addReservation] by the form. *)
Record Reservation := mkReservation {
  r_date : Date;
  r_startTime : string;
  r_endTime : string;
  r_location : string;
  r_purpose : string;
  r_equipmentIds : list string;
  r_equipmentQuantities : gmap string Z;
  r_userName : string;
  r_userEmail : string;
  r_userId : string;
  r_status : RequestStatus
}.

(** The argument of [checkConflicts]. *)
Record CheckArgs := mkCheckArgs {
  c_date : Date;
  c_startTime : string;
  c_endTime : string;
  c_equipmentIds : list string
}.

(** One resource booking for a single day, as the engine sees it. *)
Record ReservationWindow := mkWindow {
  date : Z;
  startMinute : Z;
  endMinute : Z;
  resourceIds : gset string;
  status : RequestStatus
}.

(** A detected overlap: the resource, the time range of the conflicting
    window and the label of the resource. *)
Record Conflict := mkConflict {
  resourceId : string;
  conflictStart : Z;
  conflictEnd : Z;
  equipmentName : string
}.

Inductive Toast :=
| ToastError (message : string)
| ToastConflicts (conflicts : list Conflict)
| ToastSuccess (message : string).

(** Calls that reach a collaborator of the page. *)
Inductive Call :=
| CallCheckConflicts (a : CheckArgs)
| CallAddReservation (r : Reservation)
| CallSendAdminNotification (kind who : string).

(** What the page and its collaborators act on: the reservation
    collection, the mail sent to administrators, which calls are rejected
    by their collaborator ([faults n] for the call issued after [n]
    others), the calls issued so far (oldest first), the toasts shown, the
    [isSubmitting] flag and the number of [form.reset()]s. *)
Record World := mkWorld {
  store : list Reservation;
  outbox : list (string * string);
  faults : nat -> bool;
  calls : list Call;
  toasts : list Toast;
  isSubmitting : bool;
  formResets : nat
}.

Definition set_store (f : list Reservation -> list Reservation) (w : World) : World :=
  mkWorld (f (store w)) (outbox w) (faults w) (calls w) (toasts w) (isSubmitting w) (formResets w).
Definition set_outbox (f : list (string * string) -> list (string * string)) (w : World) : World :=
  mkWorld (store w) (f (outbox w)) (faults w) (calls w) (toasts w) (isSubmitting w) (formResets w).
Definition set_calls (f : list Call -> list Call) (w : World) : World :=
  mkWorld (store w) (outbox w) (faults w) (f (calls w)) (toasts w) (isSubmitting w) (formResets w).
Definition set_toasts (f : list Toast -> list Toast) (w : World) : World :=
  mkWorld (store w) (outbox w) (faults w) (calls w) (f (toasts w)) (isSubmitting w) (formResets w).
Definition set_isSubmitting (b : bool) (w : World) : World :=
  mkWorld (store w) (outbox w) (faults w) (calls w) (toasts w) b (formResets w).
Definition set_formResets (f : nat -> nat) (w : World) : World :=
  mkWorld (store w) (outbox w) (faults w) (calls w) (toasts w) (isSubmitting w) (f (formResets w)).

(** A call is recorded, then rejected when its collaborator fails it. *)
Definition call (s : Service) (c : Call) : M World unit :=
  let* w := get in
  modify (set_calls (fun cs => cs ++ [c])) ;;
  if faults w (List.length (calls w)) then throw (Unavailable s) else ret tt.

(** Modelled from the spec: minutes since midnight of an "HH:mm" text (the
    conversion belongs to the missing reservation service), computed as
    the form does: [h * 60 + m] over the two parts around the colon. *)
Definition toMinutes (t : string) : JS.num :=
  let parts := map JS.Number (JS.split ":" t) in
  JS.num_add (JS.num_mul (JS.elem parts 0) (JS.Int 60)) (JS.elem parts 1).

(** Modelled from the spec: the [startMinute] and [endMinute] of a window,
    integers; a text that is not a time counts as minute 0. *)
Definition minutes (t : string) : Z :=
  match toMinutes t with JS.Int z => z | JS.NaN => 0 end.

(** Modelled from the spec: the window of a stored reservation, as the
    missing reservation service hands it to the engine. *)
Definition windowOfReservation (r : Reservation) : ReservationWindow :=
  mkWindow (toDateString (r_date r)) (minutes (r_startTime r)) (minutes (r_endTime r))
           (list_to_set (r_equipmentIds r)) (r_status r).

(** Modelled from the spec: the candidate window of a check.  It is not
    persisted yet; its status plays no part in the engine and is set to
    [pending]. *)
Definition windowOfArgs (a : CheckArgs) : ReservationWindow :=
  mkWindow (toDateString (c_date a)) (minutes (c_startTime a)) (minutes (c_endTime a))
           (list_to_set (c_equipmentIds a)) pending.

Section Engine.

(** The caller's resource lookup, from identifier to label. *)
Variable label : string -> string.

(** Modelled from the spec: the blocking statuses of the availability
    engine (module [@/services/reservationService] is not among the
    sources): only [pending] and [approved] windows block. *)
Definition blocking (s : RequestStatus) : bool :=
  match s with
  | pending | approved => true
  | rejected | in_progress | completed | canceled => false
  end.

(** Modelled from the spec: the minute-range overlap test of the engine,
    half-open: [candidate.startMinute < other.endMinute AND
    other.startMinute < candidate.endMinute]. *)
Definition overlaps (candidate other : ReservationWindow) : bool :=
  (startMinute candidate <? endMinute other) && (startMinute other <? endMinute candidate).

(** Modelled from the spec: [resourceIds ∩ candidate.resourceIds]. *)
Definition shared (candidate other : ReservationWindow) : gset string :=
  resourceIds other ∩ resourceIds candidate.

(** Modelled from the spec: step 1 of [findConflicts], the windows of the
    candidate's date with a blocking status and a resource in common. *)
Definition relevant (candidate other : ReservationWindow) : bool :=
  (date other =? date candidate) && blocking (status other)
  && negb (bool_decide (shared candidate other = ∅)).

(** Modelled from the spec: the conflict rule of the data model, two
    windows conflict when they share the date and a resource, their minute
    ranges overlap, and the existing one has a blocking status. *)
Definition conflicting (candidate other : ReservationWindow) : Prop :=
  date other = date candidate
  /\ (status other = pending \/ status other = approved)
  /\ (exists r, r ∈ resourceIds other /\ r ∈ resourceIds candidate)
  /\ startMinute candidate < endMinute other
  /\ startMinute other < endMinute candidate.

(** Modelled from the spec: step 3, one [Conflict] per shared resource. *)
Definition emit (candidate other : ReservationWindow) : list Conflict :=
  map (fun r => mkConflict r (startMinute other) (endMinute other) (label r))
      (elements (shared candidate other)).

(** Modelled from the spec: [findConflicts(candidate, existing)] of the
    availability engine, whose module [@/services/reservationService] is
    not among the sources.  It fails with [InvalidWindow] on a candidate
    of non-positive duration or without resources, filters [existing]
    (step 1), keeps the overlapping windows (step 2) and emits the
    conflicts (step 3). *)
Definition findConflicts (candidate : ReservationWindow)
    (existing : list ReservationWindow) : M World (list Conflict) :=
  if startMinute candidate >=? endMinute candidate then throw InvalidWindow
  else if bool_decide (resourceIds candidate = ∅) then throw InvalidWindow
  else
    let surviving := List.filter (relevant candidate) existing in
    let overlapping := List.filter (overlaps candidate) surviving in
    ret (flat_map (emit candidate) overlapping).

(** The conflicts [findConflicts] reports between the candidate and one
    window of [existing]: the run on that window alone. *)
Definition reported (candidate other : ReservationWindow) (w : World) : list Conflict :=
  match fst (findConflicts candidate [other] w) with
  | inr cs => cs
  | inl _ => []
  end.

(** Modelled from the spec: [listWindowsForDate(date)] of the reservation
    store, the stored windows of that calendar day. *)
Definition listWindowsForDate (d : Z) : M World (list ReservationWindow) :=
  let* w := get in
  ret (List.filter (fun o => date o =? d) (map windowOfReservation (store w))).

(** Modelled from the spec: [checkConflicts] of the reservation service
    (not among the sources): the caller of the engine, which fetches the
    existing windows of the candidate's date and runs [findConflicts]. *)
Definition checkConflicts (a : CheckArgs) : M World (list Conflict) :=
  call SvcReservations (CallCheckConflicts a) ;;
  let* existing := listWindowsForDate (toDateString (c_date a)) in
  findConflicts (windowOfArgs a) existing.

(** Modelled from the spec: [addReservation] of the reservation service
    (not among the sources), the store's [persist]: the document is added
    to the collection as given. *)
Definition addReservation (r : Reservation) : M World unit :=
  call SvcReservations (CallAddReservation r) ;;
  modify (set_store (fun rs => rs ++ [r])).

(** Modelled from the spec: [sendAdminNotification] of [@/lib/email] (not
    among the sources): a message to the administrators. *)
Definition sendAdminNotification (kind who : string) : M World unit :=
  call SvcEmail (CallSendAdminNotification kind who) ;;
  modify (set_outbox (fun ms => ms ++ [(kind, who)])).

End Engine.

End Reservations.

(** ** The "Nova Reserva" page *)

Module NovaReserva.

Import Reservations.

(** What the form holds before validation; a missing or invalid date is
    [None]. *)
Record FormInput := mkFormInput {
  i_date : option Date;
  i_startTime : string;
  i_endTime : string;
  i_selectedEquipment : list string;
  i_location : string;
  i_purpose : string
}.

(** [FormValues], the parsed data of the schema. *)
Record FormValues := mkFormValues {
  v_date : Date;
  v_startTime : string;
  v_endTime : string;
  v_selectedEquipment : list string;
  v_location : string;
  v_purpose : string
}.

(** [/^(0[7-9]|1[0-9]):[0-5]\d$/] *)
Definition timePattern : JS.regex :=
  JS.Cat (JS.Alt (JS.Cat (JS.Chr "0") (JS.Rng "7" "9"))
                 (JS.Cat (JS.Chr "1") (JS.Rng "0" "9")))
         (JS.Cat (JS.Chr ":")
                 (JS.Cat (JS.Rng "0" "5") JS.digit)).

(** The text [h1 h2 : m1 m2]. *)
Definition timeText (h1 h2 m1 m2 : ascii) : string :=
  String h1 (String h2 (String ":" (String m1 (String m2 EmptyString)))).

Definition hm (t : string) : JS.num * JS.num :=
  let parts := map JS.Number (JS.split ":" t) in
  (JS.elem parts 0, JS.elem parts 1).

(** First refinement: the end is after the start. *)
Definition refine_order (startTime endTime : string) : bool :=
  let '(startH, startM) := hm startTime in
  let '(endH, endM) := hm endTime in
  JS.num_lt (JS.num_add (JS.num_mul startH (JS.Int 60)) startM)
            (JS.num_add (JS.num_mul endH (JS.Int 60)) endM).

(** Second refinement: the hours lie in the opening hours. *)
Definition refine_hours (startTime endTime : string) : bool :=
  let '(startH, startM) := hm startTime in
  let '(endH, endM) := hm endTime in
  (JS.num_ge startH (JS.Int 7) && JS.num_lt startH (JS.Int 19))
  && (JS.num_gt endH (JS.Int 7) && JS.num_le endH (JS.Int 19)).

(** [formSchema]: the parsed values when every check of the object and
    both refinements pass, [None] when an issue is reported. *)
Definition formSchema (i : FormInput) : option FormValues :=
  match i_date i with
  | None => None
  | Some d =>
      if JS.test timePattern (i_startTime i)
         && JS.test timePattern (i_endTime i)
         && (1 <=? Z.of_nat (List.length (i_selectedEquipment i)))
         && (1 <=? Z.of_nat (String.length (i_location i)))
         && (10 <=? Z.of_nat (String.length (i_purpose i)))
         && refine_order (i_startTime i) (i_endTime i)
         && refine_hours (i_startTime i) (i_endTime i)
      then Some (mkFormValues d (i_startTime i) (i_endTime i)
                   (i_selectedEquipment i) (i_location i) (i_purpose i))
      else None
  end.

Record Equipment := mkEquipment {
  e_id : string;
  e_name : string;
  e_type : string
}.

(** The state and context of the component. *)
Record Page := mkPage {
  currentUser : option User;
  availableDates : list Date;
  equipment : list Equipment
}.

Definition isDateAvailable (p : Page) (d : Date) : bool :=
  existsb (fun availableDate => toDateString availableDate =? toDateString d)
          (availableDates p).

(** The [reduce] that counts the selected equipment by type. *)
Definition equipmentQuantities (p : Page) (selected : list string) : gmap string Z :=
  fold_left
    (fun acc equipId =>
       match List.find (fun e => String.eqb (e_id e) equipId) (equipment p) with
       | Some equip => <[e_type equip := default 0 (acc !! e_type equip) + 1]> acc
       | None => acc
       end)
    selected ∅.

Definition autoApproved (p : Page) (values : FormValues) : bool :=
  isDateAvailable p (v_date values)
  && JS.str_ge (v_startTime values) "07:00"
  && JS.str_le (v_endTime values) "19:00".

Definition userName (p : Page) (fallback : string) : string :=
  or_else (match currentUser p with Some u => displayName u | None => None end) fallback.

Definition newReservation (p : Page) (values : FormValues) : Reservation :=
  mkReservation
    (v_date values) (v_startTime values) (v_endTime values)
    (v_location values) (v_purpose values) (v_selectedEquipment values)
    (equipmentQuantities p (v_selectedEquipment values))
    (userName p "Usuário")
    (or_else (match currentUser p with Some u => email u | None => None end)
             "email@exemplo.com")
    (match currentUser p with Some u => uid u | None => EmptyString end)
    (if autoApproved p values then approved else pending).

(** The object passed to [checkConflicts]. *)
Definition argsOf (values : FormValues) : CheckArgs :=
  mkCheckArgs (v_date values) (v_startTime values) (v_endTime values)
              (v_selectedEquipment values).

Definition toast (t : Toast) : M World unit :=
  modify (set_toasts (fun ts => ts ++ [t])).

Section Handler.

Variable label : string -> string.

(** [onSubmit]: the early [return] of the conflict branch ends the [try]
    block; [finally] runs on every path. *)
Definition onSubmit (p : Page) (values : FormValues) : M World unit :=
  modify (set_isSubmitting true) ;;
  try_catch_finally
    (let* conflicts := checkConflicts label (argsOf values) in
     if (0 <? Z.of_nat (List.length conflicts)) then
       toast (ToastConflicts conflicts)
     else
       addReservation (newReservation p values) ;;
       toast (ToastSuccess (if autoApproved p values
                            then "Reserva aprovada automaticamente!"
                            else "Solicitação enviada para aprovação")) ;;
       modify (set_formResets S) ;;
       sendAdminNotification "Reserva" (userName p "Usuário"))
    (fun _ => toast (ToastError "Erro ao processar reserva"))
    (modify (set_isSubmitting false)).

(** [form.handleSubmit(onSubmit)]: the handler runs on the parsed values,
    and only when the schema accepts the input. *)
Definition handleSubmit (p : Page) (i : FormInput) : M World unit :=
  match formSchema i with
  | Some values => onSubmit p values
  | None => ret tt
  end.

End Handler.

(** The auto-approval decision taken for a submission. *)
Inductive Decision := Approved | PendingReview.

Definition isAddReservation (c : Call) : bool :=
  match c with CallAddReservation _ => true | _ => false end.

(** The calls issued while [m] runs from [w]. *)
Definition callsDuring (m : M World unit) (w : World) : list Call :=
  skipn (List.length (calls w)) (calls (snd (m w))).

(** The decision read off the calls of a run of the handler: the status of
    the document it hands to [addReservation], if it does. *)
Definition decisionOf (cs : list Call) : option Decision :=
  match List.find isAddReservation cs with
  | Some (CallAddReservation r) =>
      Some (if RequestStatus_eqb (r_status r) approved then Approved else PendingReview)
  | _ => None
  end.

End NovaReserva.

(** ** The purchase administration page *)

Module ComprasFinanceiro.

(** The fields of a request the status workflow touches. *)
Record RequestData := mkRequest {
  id : string;
  collectionName : string;
  userEmail : string;
  status : RequestStatus
}.

Definition with_status (r : RequestData) (s : RequestStatus) : RequestData :=
  mkRequest (id r) (collectionName r) (userEmail r) s.

Record Notification := mkNotification {
  title : string;
  message : string;
  link : string;
  recipients : list string;
  isBatch : bool
}.

(** The remote collections (documents keyed by collection and id, the
    notifications created), the collaborators that reject their calls, and
    the state of the component. *)
Record World := mkWorld {
  docs : gmap (string * string) RequestData;
  notifications : list Notification;
  down : Service -> bool;
  toasts : list (bool * string);
  invalidations : nat;
  selectedRequest : option RequestData;
  isDetailsOpen : bool;
  newStatus : RequestStatus
}.

Definition set_docs (f : gmap (string * string) RequestData -> gmap (string * string) RequestData)
    (w : World) : World :=
  mkWorld (f (docs w)) (notifications w) (down w) (toasts w) (invalidations w)
          (selectedRequest w) (isDetailsOpen w) (newStatus w).
Definition set_notifications (f : list Notification -> list Notification) (w : World) : World :=
  mkWorld (docs w) (f (notifications w)) (down w) (toasts w) (invalidations w)
          (selectedRequest w) (isDetailsOpen w) (newStatus w).
Definition set_toasts (f : list (bool * string) -> list (bool * string)) (w : World) : World :=
  mkWorld (docs w) (notifications w) (down w) (f (toasts w)) (invalidations w)
          (selectedRequest w) (isDetailsOpen w) (newStatus w).
Definition set_invalidations (f : nat -> nat) (w : World) : World :=
  mkWorld (docs w) (notifications w) (down w) (toasts w) (f (invalidations w))
          (selectedRequest w) (isDetailsOpen w) (newStatus w).
Definition setSelectedRequest (r : option RequestData) (w : World) : World :=
  mkWorld (docs w) (notifications w) (down w) (toasts w) (invalidations w)
          r (isDetailsOpen w) (newStatus w).
Definition setIsDetailsOpen (b : bool) (w : World) : World :=
  mkWorld (docs w) (notifications w) (down w) (toasts w) (invalidations w)
          (selectedRequest w) b (newStatus w).
Definition setNewStatus (s : RequestStatus) (w : World) : World :=
  mkWorld (docs w) (notifications w) (down w) (toasts w) (invalidations w)
          (selectedRequest w) (isDetailsOpen w) s.

Definition available (s : Service) : M World unit :=
  let* w := get in
  if down w s then throw (Unavailable s) else ret tt.

(** [updateDoc(doc(db, collection, id), { status })]: the write is rejected
    when the document does not exist. *)
Definition updateDoc (collection ident : string) (s : RequestStatus) : M World unit :=
  available SvcFirestore ;;
  let* w := get in
  match docs w !! (collection, ident) with
  | None => throw NotFound
  | Some d => modify (set_docs (fun ds => <[(collection, ident) := with_status d s]> ds))
  end.

Definition createNotification (n : Notification) : M World unit :=
  available SvcNotifications ;;
  modify (set_notifications (fun ns => ns ++ [n])).

(** [handleStatusChange].  [newStatus] always holds one of the six status
    texts, none of which is falsy, so the guard only tests
    [selectedRequest]. *)
Definition handleStatusChange : M World unit :=
  let* w := get in
  match selectedRequest w with
  | None => ret tt
  | Some selected =>
      try_catch
        (updateDoc (collectionName selected) (id selected) (newStatus w) ;;
         createNotification
           (mkNotification "Alteração de Status"
              ("Status da sua solicitação de compra foi alterado para: "
                 ++ status_text (newStatus w))%string
              "minhas-solicitacoes" [userEmail selected] false) ;;
         modify (set_toasts (fun ts => ts ++ [(true, "Status atualizado")])) ;;
         modify (set_invalidations S) ;;
         modify (setSelectedRequest (Some (with_status selected (newStatus w)))))
        (fun _ => modify (set_toasts (fun ts => ts ++ [(false, "Erro ao atualizar")])))
  end.

(** What an administrator does on the page to change a status: open the
    details of a listed request, pick an item of the status select, press
    "Atualizar". *)
Inductive Action :=
| OpenDetails (request : RequestData)
| SelectStatus (value : RequestStatus)
| PressUpdate.

Definition act (a : Action) : M World unit :=
  match a with
  | OpenDetails request =>
      modify (setSelectedRequest (Some request)) ;; modify (setIsDetailsOpen true)
  | SelectStatus value => modify (setNewStatus value)
  | PressUpdate => handleStatusChange
  end.

Fixpoint perform (actions : list Action) : M World unit :=
  match actions with
  | [] => ret tt
  | a :: rest => act a ;; perform rest
  end.

(** The stored status of a request. *)
Definition storedStatus (w : World) (collection ident : string) : option RequestStatus :=
  status <$> docs w !! (collection, ident).

End ComprasFinanceiro.

(** ** The admin chat *)

Module ChatAdmin.

(** The fields of a message the controls depend on; [userId] and
    [isDeleted] may be absent from a stored message. *)
Record MessageData := mkMessage {
  m_id : string;
  m_userId : option string;
  m_isDeleted : option bool
}.

(** The values [canEditOrDelete] can return. *)
Inductive value := VNull | VBool (b : bool).

Definition truthy (v : value) : bool :=
  match v with VNull => false | VBool b => b end.

(** [a && b]: [a] when it is falsy, [b] otherwise. *)
Definition js_and (a b : value) : value := if truthy a then b else a.

(** [!x] on an optional boolean field: [undefined] is falsy. *)
Definition js_not (x : option bool) : bool :=
  match x with Some true => false | _ => true end.

(** [x === s] for an optional string field and a string. *)
Definition strict_eq (x : option string) (s : string) : bool :=
  match x with Some t => String.eqb t s | None => false end.

(** [currentUser && message.userId === currentUser.uid && !message.isDeleted]:
    a [null] user is returned as it is, and its [uid] is not read. *)
Definition canEditOrDelete (currentUser : option User) (message : MessageData) : value :=
  match currentUser with
  | None => VNull
  | Some u =>
      js_and (VBool (strict_eq (m_userId message) (uid u)))
             (VBool (js_not (m_isDeleted message)))
  end.

(** [{canEditOrDelete(msg) && ( <menu with Editar and Apagar> )}]: the menu
    is rendered when the guard is truthy. *)
Definition controlsOffered (currentUser : option User) (message : MessageData) : bool :=
  truthy (canEditOrDelete currentUser message).

End ChatAdmin.

(** ** A booking scenario *)

Module Scenario.

Import Reservations NovaReserva.

(** 10 March 2025 as a day number, and the day after. *)
Definition march10 : Date := mkDate 20157 0.
Definition march11 : Date := mkDate 20158 0.

Definition ana : User := mkUser (Some "Ana") (Some "ana@eccos.example") "u-ana".

(** An approved booking of the projector, 09:00 to 10:00. *)
Definition booked : Reservation :=
  mkReservation march10 "09:00" "10:00" "Biblioteca (Superior)" "Aula de ciencias"
    ["projector1"] {["Projetor" := 1]} "Bia" "bia@eccos.example" "u-bia" approved.

Definition page : Page :=
  mkPage (Some ana) [march10] [mkEquipment "projector1" "Projetor 1" "Projetor"].

Definition world : World :=
  mkWorld [booked] [] (fun _ => false) [] [] false 0.

(** A request for the same projector, 09:30 to 10:30. *)
Definition overlapping : FormInput :=
  mkFormInput (Some march10) "09:30" "10:30" ["projector1"] "Sala de artes"
    "Apresentacao de trabalhos".

(** A request for the same projector, 10:00 to 11:00. *)
Definition touching : FormInput :=
  mkFormInput (Some march10) "10:00" "11:00" ["projector1"] "Sala de artes"
    "Apresentacao de trabalhos".

Definition valuesOf (i : FormInput) : FormValues :=
  mkFormValues (default march10 (i_date i)) (i_startTime i) (i_endTime i)
    (i_selectedEquipment i) (i_location i) (i_purpose i).

Definition names (r : string) : string :=
  if String.eqb r "projector1" then "Projetor 1" else r.

End Scenario.

(** ** More of the JavaScript string library *)

Module JSString.

(** [s.replace(/\D/g, '')]: every character that is not a decimal digit
    is removed. *)
Fixpoint replaceNonDigits (s : string) : string :=
  match s with
  | EmptyString => EmptyString
  | String c r =>
      if JS.isDigit c then String c (replaceNonDigits r) else replaceNonDigits r
  end.

(** [s.substring(a, b)] for [a <= b], the only use the pages make of it:
    the characters from index [a] up to, not including, index [b], both
    clamped to the length. *)
Definition substring (a b : nat) (s : string) : string :=
  String.substring a (b - a) s.

(** White space and line terminators among the Latin-1 code units: tab,
    line feed, vertical tab, form feed, carriage return, space and
    no-break space. *)
Definition isSpace (c : ascii) : bool :=
  let n := JS.code c in
  ((9 <=? n) && (n <=? 13)) || (n =? 32) || (n =? 160).

Fixpoint trimStart (s : string) : string :=
  match s with
  | EmptyString => EmptyString
  | String c r => if isSpace c then trimStart r else s
  end.

(** The text without its trailing white space: a character is dropped
    when it is white space and nothing but white space follows. *)
Fixpoint trimEnd (s : string) : string :=
  match s with
  | EmptyString => EmptyString
  | String c r =>
      match trimEnd r with
      | EmptyString => if isSpace c then EmptyString else String c EmptyString
      | r' => String c r'
      end
  end.

(** [s.trim()] *)
Definition trim (s : string) : string := trimEnd (trimStart s).

(** A string as a condition: the empty string is falsy. *)
Definition truthy (s : string) : bool := negb (String.eqb s EmptyString).

(** [a || b] on strings. *)
Definition or (a b : string) : string := if truthy a then a else b.

(** [s.toLowerCase()] on Latin-1 text: the letters A-Z and the accented
    capitals U+00C0-U+00DE (the multiplication sign U+00D7 apart) move to
    their small forms, 32 code units up. *)
Definition lowerChar (c : ascii) : ascii :=
  let n := JS.code c in
  if ((65 <=? n) && (n <=? 90))
     || ((192 <=? n) && (n <=? 222) && negb (n =? 215))
  then ascii_of_N (Z.to_N (n + 32)) else c.

Fixpoint toLowerCase (s : string) : string :=
  match s with
  | EmptyString => EmptyString
  | String c r => String (lowerChar c) (toLowerCase r)
  end.

Fixpoint startsWith (s sub : string) : bool :=
  match sub, s with
  | EmptyString, _ => true
  | String _ _, EmptyString => false
  | String d sub', String c s' => Ascii.eqb c d && startsWith s' sub'
  end.

(** [s.includes(sub)] *)
Fixpoint includes (s sub : string) : bool :=
  startsWith s sub
  || match s with
     | EmptyString => false
     | String _ s' => includes s' sub
     end.

(** Every character of [s] passes [p]. *)
Fixpoint allChars (p : ascii -> bool) (s : string) : bool :=
  match s with
  | EmptyString => true
  | String c r => p c && allChars p r
  end.

(** An integer in a template literal: its decimal digits, after a minus
    sign when it is negative. *)
Definition numberToString (z : Z) : string :=
  NilZero.string_of_int (Z.to_int z).

End JSString.

(** ** The fields of the "Nova Reserva" form *)

Module NovaReservaFields.

Import Reservations NovaReserva.

(** [autoCompleteTime], applied to what is typed in the two time fields. *)
Definition autoCompleteTime (value : string) : string :=
  let digits := JSString.replaceNonDigits value in
  let formatted := EmptyString in
  let formatted :=
    if (1 <=? String.length digits)%nat
    then (formatted ++ JSString.substring 0 2 digits)%string else formatted in
  let formatted :=
    if (3 <=? String.length digits)%nat
    then (formatted ++ ":" ++ JSString.substring 2 4 digits)%string else formatted in
  let formatted :=
    if (String.length digits =? 2)%nat && (String.length value =? 2)%nat
    then (formatted ++ ":")%string else formatted in
  JSString.substring 0 5 formatted.

(** The beginnings of a time text: nothing, one or two digits, two digits
    and a colon, and then one or two digits more. *)
Definition timePrefix : JS.regex :=
  JS.Alt JS.Eps
    (JS.Cat JS.digit
       (JS.Alt JS.Eps
          (JS.Cat JS.digit
             (JS.Alt JS.Eps
                (JS.Cat (JS.Chr ":")
                   (JS.Alt JS.Eps
                      (JS.Cat JS.digit (JS.Alt JS.Eps JS.digit)))))))).

(** [field.value.includes(item.id)], the state of a check box. *)
Definition isChecked (value : list string) (itemId : string) : bool :=
  existsb (String.eqb itemId) value.

(** [onCheckedChange] of an equipment check box: the identifier is added
    at the end, or every occurrence of it is removed. *)
Definition onCheckedChange (value : list string) (itemId : string) (checked : bool)
    : list string :=
  if checked then value ++ [itemId]
  else List.filter (fun x => negb (String.eqb x itemId)) value.




(** [disabled] of the calendar: a day cannot be picked when it is past or
    not among the available dates.  [isDateInPast] comes from the
    availability service and is a parameter here. *)
Definition disabled (isDateInPast : Date -> bool) (p : Page) (d : Date) : bool :=
  isDateInPast d || negb (isDateAvailable p d).

End NovaReservaFields.

(** ** The purchase page: notices and list *)

Module ComprasFinanceiroList.

Import ComprasFinanceiro.

(** The notification [handleStatusChange] creates for the new status. *)
Definition statusNotice (selected : RequestData) (s : RequestStatus) : Notification :=
  mkNotification "Alteração de Status"
    ("Status da sua solicitação de compra foi alterado para: " ++ status_text s)%string
    "minhas-solicitacoes" [userEmail selected] false.

(** The toast of the [catch] block of [handleStatusChange]. *)
Definition errorShown (w : World) : World :=
  set_toasts (fun ts => ts ++ [(false, "Erro ao atualizar"%string)]) w.

(** [value={selectedRequest.status}]: what the status select displays. *)
Definition selectShows (w : World) : option RequestStatus :=
  status <$> selectedRequest w.

(** A message of a request, as the list page reads it. *)
Record Message := mkMessage {
  isAdmin : bool;
  millis : Z
}.

(** A row of [allRequests], with the fields the list page reads; a field
    absent from the document is [None]. *)
Record Row := mkRow {
  row_id : string;
  row_type : string;
  row_tipo : option string;
  row_userName : option string;
  row_userEmail : option string;
  row_itemName : option string;
  row_status : RequestStatus;
  row_messages : option (list Message)
}.

(** [req.messages || []] *)
Definition messagesOf (req : Row) : list Message := default [] (row_messages req).

(** [`${req.id}-${msg.timestamp.toMillis()}`] *)
Definition viewedKey (reqId : string) (msg : Message) : string :=
  (reqId ++ "-" ++ JSString.numberToString (millis msg))%string.

(** The unread messages of a request: those not sent by an administrator
    whose key is not among the viewed ones. *)
Definition unreadCount (viewedRequests : gset string) (req : Row) : Z :=
  Z.of_nat (List.length
              (List.filter
                 (fun msg => negb (isAdmin msg)
                             && negb (bool_decide (viewedKey (row_id req) msg ∈ viewedRequests)))
                 (messagesOf req))).

(** [checkUnreadMessages]: the map from request id to unread count, with
    an entry only where the count is positive. *)
Definition checkUnreadMessages (allRequests : list Row) (viewedRequests : gset string)
    : gmap string Z :=
  fold_left
    (fun newUnread req =>
       let unread := unreadCount viewedRequests req in
       if 0 <? unread then <[row_id req := unread]> newUnread else newUnread)
    allRequests ∅.

(** The state [handleOpenChat] acts on. *)
Record ChatState := mkChatState {
  chatRequest : option Row;
  viewedRequests : gset string;
  unreadMessages : gmap string Z;
  isChatOpen : bool;
  chatToasts : list string
}.

(** The update of [viewedRequests] in [handleOpenChat]: the keys of the
    messages of the fetched request that no administrator sent are added. *)
Definition markViewed (prev : gset string) (fullRequest : Row) : gset string :=
  fold_left
    (fun newSet msg =>
       if negb (isAdmin msg) then newSet ∪ {[viewedKey (row_id fullRequest) msg]} else newSet)
    (messagesOf fullRequest) prev.

(** [handleOpenChat], given what [getRequestById] answers ([None] when it
    rejects). *)
Definition handleOpenChat (fetched : option Row) (s : ChatState) : ChatState :=
  match fetched with
  | Some fullRequest =>
      mkChatState (Some fullRequest)
        (markViewed (viewedRequests s) fullRequest)
        (delete (row_id fullRequest) (unreadMessages s))
        true (chatToasts s)
  | None =>
      mkChatState (chatRequest s) (viewedRequests s) (unreadMessages s) (isChatOpen s)
        (chatToasts s ++ ["Erro ao abrir chat"%string])
  end.

(** [field?.toLowerCase().includes(search)]: [undefined] when the field is
    absent. *)
Definition fieldIncludes (field : option string) (search : string) : option bool :=
  (fun f => JSString.includes (JSString.toLowerCase f) search) <$> field.

(** [a || b] on such values, and their use as a condition. *)
Definition orValue (a b : option bool) : option bool :=
  match a with Some true => a | _ => b end.

Definition holds (a : option bool) : bool :=
  match a with Some true => true | _ => false end.

(** [selectedTypes.includes(req.tipo)] *)
Definition typeSelected (selectedTypes : list string) (tipo : option string) : bool :=
  match tipo with
  | Some t => existsb (String.eqb t) selectedTypes
  | None => false
  end.

(** The second predicate of [filteredRequests]. *)
Definition matchesSearch (searchTerm : string) (selectedTypes : list string) (req : Row)
    : bool :=
  let search := JSString.toLowerCase searchTerm in
  if holds (orValue (orValue (fieldIncludes (row_userName req) search)
                             (fieldIncludes (row_userEmail req) search))
                    (fieldIncludes (row_itemName req) search))
  then typeSelected selectedTypes (row_tipo req)
  else false.

Definition filteredRequests (allRequests : list Row) (searchTerm : string)
    (selectedTypes : list string) : list Row :=
  List.filter (matchesSearch searchTerm selectedTypes)
    (List.filter (fun req => String.eqb (row_type req) "purchase") allRequests).

Definition totalRequests (filtered : list Row) : nat := List.length filtered.

Definition pendingRequests (filtered : list Row) : nat :=
  List.length (List.filter (fun req => RequestStatus_eqb (row_status req) pending) filtered).

Definition approvedRequests (filtered : list Row) : nat :=
  List.length (List.filter (fun req => RequestStatus_eqb (row_status req) approved) filtered).

Definition purchaseTypes : list string :=
  ["Compra Pedagógica"; "Compra Administrativa"; "Compra Infraestrutura"]%string.

(** [onCheckedChange] of the item of [type] in the type filter. *)
Definition onTypeCheckedChange (selectedTypes : list string) (type : string) (checked : bool)
    : list string :=
  if checked then selectedTypes ++ [type]
  else List.filter (fun t => negb (String.eqb t type)) selectedTypes.

(** Ticking and unticking items of the type filter, one after the other,
    from the initial selection (all the purchase types). *)
Definition selectedAfter (events : list (string * bool)) : list string :=
  fold_left (fun sel ev => onTypeCheckedChange sel (fst ev) (snd ev)) events purchaseTypes.

End ComprasFinanceiroList.

(** ** The handlers of the admin chat *)

Module ChatAdminHandlers.

(** A file picked in the file input. *)
Record File := mkFile {
  f_name : string;
  f_type : string;
  f_size : Z
}.

Record FileAttachment := mkAttachment {
  a_name : string;
  a_url : string;
  a_type : string;
  a_size : Z
}.

(** A message of the thread, with the fields the component reads; the
    flags may be absent from a stored message. *)
Record Message := mkMessage {
  id : string;
  userId : option string;
  message : string;
  isAdmin : bool;
  isDeleted : option bool;
  isEdited : option bool;
  attachment : option FileAttachment
}.

(** The part of a message [canEditOrDelete] looks at. *)
Definition guarded (m : Message) : ChatAdmin.MessageData :=
  ChatAdmin.mkMessage (id m) (userId m) (isDeleted m).

Record Request := mkRequest {
  requestId : string;
  collectionName : string
}.

(** Calls to the shared service. *)
Inductive Call :=
| CallUploadFile (file : File) (request : string)
| CallAddMessage (request text : string) (asAdmin : bool) (collection userName user : string)
                 (attached : option FileAttachment)
| CallEditMessage (request collection messageId text user : string)
| CallDeleteMessage (request collection messageId user : string).

(** The props, context and state of the component, the calls it has
    issued (oldest first) and which calls are rejected ([faults n] for the
    call issued after [n] others). *)
Record State := mkState {
  request : option Request;
  currentUser : option User;
  newMessage : string;
  selectedFile : option File;
  uploadProgress : Z;
  isLoading : bool;
  editingMessageId : option string;
  editingText : string;
  messages : list Message;
  calls : list Call;
  faults : nat -> bool;
  toasts : list (bool * string);
  messagesSent : nat
}.

Definition setNewMessage (x : string) (s : State) : State :=
  mkState (request s) (currentUser s) x (selectedFile s) (uploadProgress s) (isLoading s)
    (editingMessageId s) (editingText s) (messages s) (calls s) (faults s) (toasts s)
    (messagesSent s).
Definition setSelectedFile (x : option File) (s : State) : State :=
  mkState (request s) (currentUser s) (newMessage s) x (uploadProgress s) (isLoading s)
    (editingMessageId s) (editingText s) (messages s) (calls s) (faults s) (toasts s)
    (messagesSent s).
Definition setUploadProgress (x : Z) (s : State) : State :=
  mkState (request s) (currentUser s) (newMessage s) (selectedFile s) x (isLoading s)
    (editingMessageId s) (editingText s) (messages s) (calls s) (faults s) (toasts s)
    (messagesSent s).
Definition setIsLoading (x : bool) (s : State) : State :=
  mkState (request s) (currentUser s) (newMessage s) (selectedFile s) (uploadProgress s) x
    (editingMessageId s) (editingText s) (messages s) (calls s) (faults s) (toasts s)
    (messagesSent s).
Definition setEditingMessageId (x : option string) (s : State) : State :=
  mkState (request s) (currentUser s) (newMessage s) (selectedFile s) (uploadProgress s)
    (isLoading s) x (editingText s) (messages s) (calls s) (faults s) (toasts s)
    (messagesSent s).
Definition setEditingText (x : string) (s : State) : State :=
  mkState (request s) (currentUser s) (newMessage s) (selectedFile s) (uploadProgress s)
    (isLoading s) (editingMessageId s) x (messages s) (calls s) (faults s) (toasts s)
    (messagesSent s).
Definition setMessages (x : list Message) (s : State) : State :=
  mkState (request s) (currentUser s) (newMessage s) (selectedFile s) (uploadProgress s)
    (isLoading s) (editingMessageId s) (editingText s) x (calls s) (faults s) (toasts s)
    (messagesSent s).
Definition set_calls (f : list Call -> list Call) (s : State) : State :=
  mkState (request s) (currentUser s) (newMessage s) (selectedFile s) (uploadProgress s)
    (isLoading s) (editingMessageId s) (editingText s) (messages s) (f (calls s)) (faults s)
    (toasts s) (messagesSent s).
Definition toast (ok : bool) (text : string) (s : State) : State :=
  mkState (request s) (currentUser s) (newMessage s) (selectedFile s) (uploadProgress s)
    (isLoading s) (editingMessageId s) (editingText s) (messages s) (calls s) (faults s)
    (toasts s ++ [(ok, text)]) (messagesSent s).
Definition onMessageSent (s : State) : State :=
  mkState (request s) (currentUser s) (newMessage s) (selectedFile s) (uploadProgress s)
    (isLoading s) (editingMessageId s) (editingText s) (messages s) (calls s) (faults s)
    (toasts s) (S (messagesSent s)).

(** A call to the shared service is recorded, then rejected when the
    service fails it. *)
Definition call (c : Call) : M State unit :=
  let* s := get in
  modify (set_calls (fun cs => cs ++ [c])) ;;
  if faults s (List.length (calls s)) then throw (Unavailable SvcFirestore) else ret tt.

(** [10 * 1024 * 1024] *)
Definition maxFileSize : Z := 10 * 1024 * 1024.

(** [handleFileSelect], on the first file of the input, if any. *)
Definition handleFileSelect (file : option File) : M State unit :=
  match file with
  | Some f =>
      if maxFileSize <? f_size f
      then modify (toast false "Arquivo muito grande. Máximo 10MB permitido.")
      else modify (setSelectedFile (Some f))
  | None => ret tt
  end.

Definition handleRemoveFile : M State unit :=
  modify (setSelectedFile None).

(** [!s.trim()] *)
Definition blank (s : string) : bool := negb (JSString.truthy (JSString.trim s)).

Section Handlers.

(** What [uploadFile] answers when it accepts a file for a request. *)
Variable uploaded : File -> string -> FileAttachment.

Definition uploadFile (f : File) (req : string) : M State FileAttachment :=
  call (CallUploadFile f req) ;; ret (uploaded f req).

(** The text [handleSendMessage] sends: the draft, or the name of the
    file when the draft is empty. *)
Definition textToSend (draft : string) (file : option File) : string :=
  JSString.or draft
    (match file with
     | Some f => ("Arquivo enviado: " ++ f_name f)%string
     | None => EmptyString
     end).

Definition handleSendMessage : M State unit :=
  let* s := get in
  match request s, currentUser s with
  | Some req, Some user =>
      if blank (newMessage s) && negb (bool_decide (is_Some (selectedFile s)))
      then ret tt
      else
        try_catch_finally
          (modify (setIsLoading true) ;;
           let* attachment :=
             match selectedFile s with
             | Some f =>
                 modify (setUploadProgress 0) ;;
                 let* a := uploadFile f (requestId req) in
                 modify (setUploadProgress 100) ;;
                 ret (Some a)
             | None => ret None
             end in
           call (CallAddMessage (requestId req) (textToSend (newMessage s) (selectedFile s))
                   true (collectionName req) (or_else (displayName user) "Administrador")
                   (uid user) attachment) ;;
           modify (setNewMessage EmptyString) ;;
           modify (setSelectedFile None) ;;
           modify (setUploadProgress 0) ;;
           modify (toast true "Mensagem enviada") ;;
           modify onMessageSent)
          (fun _ => modify (toast false "Erro ao enviar mensagem"))
          (modify (setIsLoading false))
  | _, _ => ret tt
  end.

(** [currentUser?.uid || ""] *)
Definition uidOrEmpty (s : State) : string :=
  match currentUser s with Some u => uid u | None => EmptyString end.

Definition handleEditMessage (messageId : string) : M State unit :=
  let* s := get in
  match request s with
  | Some req =>
      if blank (editingText s) then ret tt
      else
        try_catch
          (call (CallEditMessage (requestId req) (collectionName req) messageId
                   (editingText s) (uidOrEmpty s)) ;;
           modify (setEditingMessageId None) ;;
           modify (setEditingText EmptyString) ;;
           modify (toast true "Mensagem editada"))
          (fun _ => modify (toast false "Erro ao editar mensagem"))
  | None => ret tt
  end.

Definition handleDeleteMessage (messageId : string) : M State unit :=
  let* s := get in
  match request s with
  | Some req =>
      try_catch
        (call (CallDeleteMessage (requestId req) (collectionName req) messageId
                 (uidOrEmpty s)) ;;
         modify (toast true "Mensagem apagada"))
        (fun _ => modify (toast false "Erro ao apagar mensagem"))
  | None => ret tt
  end.

Definition startEditing (m : Message) : M State unit :=
  modify (setEditingMessageId (Some (id m))) ;; modify (setEditingText (message m)).

Definition cancelEditing : M State unit :=
  modify (setEditingMessageId None) ;; modify (setEditingText EmptyString).

(** The snapshot listener: [setMessages(data.messages || [])] and the end
    of loading. *)
Definition onSnapshot (received : list Message) : M State unit :=
  modify (setMessages received) ;; modify (setIsLoading false).

(** What the user can do in the dialog. *)
Inductive Action :=
| PickFile (file : option File)
| RemoveFile
| TypeMessage (text : string)
| Send
| StartEditing (m : Message)
| TypeEdit (text : string)
| CancelEditing
| SaveEdit (messageId : string)
| Delete (messageId : string)
| Snapshot (received : list Message).

Definition act (a : Action) : M State unit :=
  match a with
  | PickFile file => handleFileSelect file
  | RemoveFile => handleRemoveFile
  | TypeMessage text => modify (setNewMessage text)
  | Send => handleSendMessage
  | StartEditing m => startEditing m
  | TypeEdit text => modify (setEditingText text)
  | CancelEditing => cancelEditing
  | SaveEdit messageId => handleEditMessage messageId
  | Delete messageId => handleDeleteMessage messageId
  | Snapshot received => onSnapshot received
  end.

Fixpoint perform (actions : list Action) : M State unit :=
  match actions with
  | [] => ret tt
  | a :: rest => act a ;; perform rest
  end.

End Handlers.

(** The guards of what is rendered for a message. *)
Definition menuShown (s : State) (m : Message) : bool :=
  ChatAdmin.controlsOffered (currentUser s) (guarded m).

Definition flag (x : option bool) : bool := default false x.

(** [msg.isEdited && !msg.isDeleted] *)
Definition editedTagShown (m : Message) : bool :=
  flag (isEdited m) && ChatAdmin.js_not (isDeleted m).

(** [msg.attachment && !msg.isDeleted] *)
Definition attachmentShown (m : Message) : bool :=
  bool_decide (is_Some (attachment m)) && ChatAdmin.js_not (isDeleted m).

(** [editingMessageId === msg.id] *)
Definition editorShown (s : State) (m : Message) : bool :=
  match editingMessageId s with
  | Some e => String.eqb e (id m)
  | None => false
  end.

(** The call [handleSendMessage] makes to [addMessageToRequest]. *)
Definition sendCall (req : Request) (user : User) (s : State)
    (attached : option FileAttachment) : Call :=
  CallAddMessage (requestId req) (textToSend (newMessage s) (selectedFile s)) true
    (collectionName req) (or_else (displayName user) "Administrador") (uid user) attached.

(** The selected file and the uploads requested so far are within the
    size limit. *)
Definition fileWithinLimit (s : State) : Prop :=
  match selectedFile s with
  | Some f => f_size f <= maxFileSize
  | None => True
  end.

Definition uploadsWithinLimit (cs : list Call) : Prop :=
  forall f r, In (CallUploadFile f r) cs -> f_size f <= maxFileSize.

(** The calls issued while [m] runs from [s]. *)
Definition callsDuring (m : M State unit) (s : State) : list Call :=
  skipn (List.length (calls s)) (calls (snd (m s))).

End ChatAdminHandlers.

(** ** A chat scenario *)

Module ChatScenario.

Import ChatAdminHandlers.

(** An upload answers with the file's own name, type and size. *)
Definition upload (f : File) (req : string) : FileAttachment :=
  mkAttachment (f_name f) ("files/" ++ req ++ "/" ++ f_name f)%string (f_type f) (f_size f).

Definition note : Message :=
  mkMessage "m1" (Some "u-ana"%string) "Pedido aprovado" true None None None.

(** The dialog of Ana, open on a purchase request, nothing typed yet. *)
Definition dialog : State :=
  mkState (Some (mkRequest "req-1" "purchases")) (Some Scenario.ana)
    "" None 0 false None "" [note] [] (fun _ => false) [] 0.

(** The same message as a snapshot delivers it once it is deleted. *)
Definition erased : Message :=
  mkMessage "m1" (Some "u-ana"%string) "Esta mensagem foi apagada" true (Some true) None None.

End ChatScenario.

(** ** The login page *)

Module Login.

(** The context and state the post-login effect acts on: the signed-in
    user, the [isRedirecting] flag, the session storage, the path the
    router remembers in [location.state.from], the ids of the documents of
    the [users] collection, whether the database rejects writes, the
    writes of [lastActive] made, the navigations requested (path and
    [replace]) and the toasts shown (title, description). *)
Record State := mkState {
  currentUser : option User;
  isRedirecting : bool;
  sessionStorage : gmap string string;
  fromPathname : option string;
  users : gset string;
  offline : bool;
  lastActiveWrites : list string;
  navigations : list (string * bool);
  toasts : list (string * string)
}.

Definition setIsRedirecting (b : bool) (s : State) : State :=
  mkState (currentUser s) b (sessionStorage s) (fromPathname s) (users s) (offline s)
    (lastActiveWrites s) (navigations s) (toasts s).
Definition set_sessionStorage (f : gmap string string -> gmap string string) (s : State)
    : State :=
  mkState (currentUser s) (isRedirecting s) (f (sessionStorage s)) (fromPathname s) (users s)
    (offline s) (lastActiveWrites s) (navigations s) (toasts s).
Definition navigate (path : string) (replace : bool) (s : State) : State :=
  mkState (currentUser s) (isRedirecting s) (sessionStorage s) (fromPathname s) (users s)
    (offline s) (lastActiveWrites s) (navigations s ++ [(path, replace)]) (toasts s).
Definition toast (title description : string) (s : State) : State :=
  mkState (currentUser s) (isRedirecting s) (sessionStorage s) (fromPathname s) (users s)
    (offline s) (lastActiveWrites s) (navigations s) (toasts s ++ [(title, description)]).
Definition wrote (ident : string) (s : State) : State :=
  mkState (currentUser s) (isRedirecting s) (sessionStorage s) (fromPathname s) (users s)
    (offline s) (lastActiveWrites s ++ [ident]) (navigations s) (toasts s).

(** [updateDoc(doc(db, "users", uid), { lastActive })]: rejected when the
    database is unreachable or the user has no document. *)
Definition touchUser (ident : string) : M State unit :=
  let* s := get in
  if offline s then throw (Unavailable SvcFirestore)
  else if bool_decide (ident ∈ users s) then modify (wrote ident)
  else throw NotFound.

(** [sessionStorage.getItem("redirectPath") ||
     location.state?.from?.pathname || "/"] *)
Definition redirectPath (s : State) : string :=
  or_else (sessionStorage s !! "redirectPath"%string) (or_else (fromPathname s) "/").

(** [handlePostLogin] *)
Definition handlePostLogin : M State unit :=
  let* s := get in
  match currentUser s with
  | Some user =>
      if isRedirecting s then ret tt
      else
        try_catch_finally
          (touchUser (uid user) ;;
           let* s1 := get in
           let path := redirectPath s1 in
           modify (set_sessionStorage (delete "redirectPath"%string)) ;;
           modify (navigate path true) ;;
           modify (toast "Login bem-sucedido"
                     ("Bem-vindo, " ++ or_else (displayName user) "usuário" ++ "!")%string))
          (fun _ =>
             modify (toast "Erro" "Ocorreu um problema durante o login") ;;
             modify (navigate "/" true))
          (modify (setIsRedirecting false))
  | None => ret tt
  end.

End Login.

(** * Properties *)

(** ** The embedding on sample inputs *)

Example split_time : JS.split ":" "07:30" = ["07"; "30"]%string.
Proof. reflexivity. Qed.

Example split_without_colon : JS.split ":" "0730" = ["0730"]%string.
Proof. reflexivity. Qed.

Example Number_leading_zero : JS.Number "07" = JS.Int 7.
Proof. reflexivity. Qed.

Example Number_not_digits : JS.Number "7h" = JS.NaN.
Proof. reflexivity. Qed.

Example timePattern_samples :
  map (JS.test NovaReserva.timePattern)
      ["07:00"; "19:59"; "06:59"; "20:00"; "7:30"; "07:60"; "07:300"; ""]%string
  = [true; true; false; false; false; false; false; false].
Proof. vm_compute. reflexivity. Qed.

(** Text order is not minute order outside the pattern. *)
Example str_ge_unpadded : JS.str_ge "1:00" "07:00" = true.
Proof. reflexivity. Qed.

(** The schema lets an end time in the hour of 19 through (its second
    refinement only looks at the hour), and refuses an end in the hour of
    07. *)
Example formSchema_end_after_close :
  NovaReserva.formSchema
    (NovaReserva.mkFormInput (Some Scenario.march10) "18:30" "19:30" ["projector1"%string]
       "TI" "Reuniao de pais")
  = Some (NovaReserva.mkFormValues Scenario.march10 "18:30" "19:30" ["projector1"%string]
            "TI" "Reuniao de pais").
Proof. vm_compute. reflexivity. Qed.

Example formSchema_end_in_first_hour :
  NovaReserva.formSchema
    (NovaReserva.mkFormInput (Some Scenario.march10) "07:00" "07:30" ["projector1"%string]
       "TI" "Reuniao de pais")
  = None.
Proof. vm_compute. reflexivity. Qed.

Example formSchema_no_equipment :
  NovaReserva.formSchema
    (NovaReserva.mkFormInput (Some Scenario.march10) "08:00" "09:00" [] "TI" "Reuniao de pais")
  = None.
Proof. vm_compute. reflexivity. Qed.

(** The scenarios of the engine: an approved booking 540-600 of the
    projector; a candidate 570-630 conflicts on it, a candidate 600-660
    does not. *)
Example findConflicts_overlapping :
  fst (Reservations.findConflicts Scenario.names
         (Reservations.mkWindow 20157 570 630 {["projector1"%string]} pending)
         [Reservations.windowOfReservation Scenario.booked] Scenario.world)
  = inr [Reservations.mkConflict "projector1" 540 600 "Projetor 1"].
Proof. vm_compute. reflexivity. Qed.

Example findConflicts_touching :
  fst (Reservations.findConflicts Scenario.names
         (Reservations.mkWindow 20157 600 660 {["projector1"%string]} pending)
         [Reservations.windowOfReservation Scenario.booked] Scenario.world)
  = inr [].
Proof. vm_compute. reflexivity. Qed.

(** An end after 19:00 on an open date waits for manual approval, and so
    does a request for a date that is not open. *)
Example decision_end_after_close :
  NovaReserva.decisionOf
    (NovaReserva.callsDuring
       (NovaReserva.onSubmit Scenario.names Scenario.page
          (NovaReserva.mkFormValues Scenario.march10 "18:30" "19:30" ["projector1"%string]
             "TI" "Reuniao de pais"))
       Scenario.world)
  = Some NovaReserva.PendingReview.
Proof. vm_compute. reflexivity. Qed.

Example decision_date_not_open :
  NovaReserva.decisionOf
    (NovaReserva.callsDuring
       (NovaReserva.onSubmit Scenario.names Scenario.page
          (NovaReserva.mkFormValues Scenario.march11 "08:00" "09:00" ["projector1"%string]
             "TI" "Reuniao de pais"))
       Scenario.world)
  = Some NovaReserva.PendingReview.
Proof. vm_compute. reflexivity. Qed.

(** ** Regular expressions: [test] decides membership in [lang] *)

Section RegexFacts.

Import JS.

Lemma append_nil_l (b : string) : (EmptyString ++ b)%string = b.
Proof. reflexivity. Qed.

Lemma append_cons (c : ascii) (a b : string) :
  (String c a ++ b)%string = String c (a ++ b)%string.
Proof. reflexivity. Qed.

Lemma append_nil_inv (a b : string) :
  (a ++ b)%string = EmptyString -> a = EmptyString /\ b = EmptyString.
Proof.
  destruct a; [rewrite append_nil_l | rewrite append_cons]; intros H;
    [auto | discriminate].
Qed.

Lemma nullable_lang (r : regex) : nullable r = true <-> lang r EmptyString.
Proof.
  induction r as [| | c | lo hi | a IHa b IHb | a IHa b IHb]; simpl.
  - split; [discriminate | tauto].
  - split; auto.
  - split; discriminate.
  - split; [discriminate | intros (c & Hc & _); discriminate].
  - rewrite andb_true_iff, IHa, IHb. split.
    + intros [Ha Hb]. exists EmptyString, EmptyString. auto.
    + intros (s1 & s2 & Heq & Ha & Hb).
      symmetry in Heq. apply append_nil_inv in Heq as [-> ->]. auto.
  - rewrite orb_true_iff, IHa, IHb. tauto.
Qed.

Lemma deriv_lang (r : regex) : forall c s, lang (deriv c r) s <-> lang r (String c s).
Proof.
  induction r as [| | d | lo hi | a IHa b IHb | a IHa b IHb]; intros c s; simpl.
  - tauto.
  - split; [tauto | discriminate].
  - destruct (Ascii.eqb_spec c d) as [-> | Hne]; simpl.
    + split; [intros -> | intros [= ->]]; reflexivity.
    + split; [tauto | intros [= Hc _]; contradiction].
  - destruct (in_range lo hi c) eqn:Hr; simpl.
    + split.
      * intros ->. exists c. auto.
      * intros (c' & [= _ ->] & _). reflexivity.
    + split; [tauto |].
      intros (c' & [= <- _] & Hc'). congruence.
  - assert (Hcat : (exists s1 s2, s = (s1 ++ s2)%string /\ lang (deriv c a) s1 /\ lang b s2)
                   <-> exists t1 t2, String c s = (String c t1 ++ t2)%string
                                     /\ lang a (String c t1) /\ lang b t2).
    { split; intros (s1 & s2 & Heq & Ha & Hb); exists s1, s2.
      - rewrite IHa in Ha. rewrite append_cons. subst s. auto.
      - rewrite append_cons in Heq. injection Heq as Heq. rewrite IHa. auto. }
    destruct (nullable a) eqn:Hn; simpl.
    + split.
      * intros [H | H].
        -- apply Hcat in H as (t1 & t2 & Heq & Ha & Hb). eauto.
        -- apply IHb in H. exists EmptyString, (String c s).
           split; [reflexivity | split; [apply nullable_lang; exact Hn | exact H]].
      * intros (s1 & s2 & Heq & Ha & Hb). destruct s1 as [| c1 s1].
        -- right. rewrite append_nil_l in Heq. subst s2. apply IHb. exact Hb.
        -- left. apply Hcat. rewrite append_cons in Heq. injection Heq as -> ->.
           exists s1, s2. auto.
    + rewrite Hcat. split.
      * intros (t1 & t2 & Heq & Ha & Hb). eauto.
      * intros (s1 & s2 & Heq & Ha & Hb). destruct s1 as [| c1 s1].
        -- apply nullable_lang in Ha. congruence.
        -- rewrite append_cons in Heq. injection Heq as -> ->. exists s1, s2. auto.
  - rewrite IHa, IHb. tauto.
Qed.

Lemma test_lang (s : string) : forall r, test r s = true <-> lang r s.
Proof.
  induction s as [| c s IH]; intros r; simpl.
  - apply nullable_lang.
  - rewrite IH. apply deriv_lang.
Qed.

Lemma in_range_bounds (lo hi c : ascii) :
  in_range lo hi c = true <-> code lo <= code c <= code hi.
Proof. unfold in_range. rewrite andb_true_iff, !Z.leb_le. tauto. Qed.

Lemma code_inj (a b : ascii) : code a = code b -> a = b.
Proof.
  unfold code. intros H. apply N2Z.inj in H.
  rewrite <- (ascii_N_embedding a), <- (ascii_N_embedding b). congruence.
Qed.

End RegexFacts.

(** ** Texts accepted by the time pattern *)

Section TimeFacts.

Import JS Reservations NovaReserva.

(** The shape of an accepted text: two hour digits, a colon, two minute
    digits, with the hour between 07 and 19. *)
Lemma timePattern_inv (t : string) :
  test timePattern t = true ->
  exists h1 h2 m1 m2,
    t = timeText h1 h2 m1 m2
    /\ ((code h1 = 48 /\ 55 <= code h2 <= 57) \/ (code h1 = 49 /\ 48 <= code h2 <= 57))
    /\ 48 <= code m1 <= 53 /\ 48 <= code m2 <= 57.
Proof.
  intros H. apply test_lang in H.
  destruct H as (hh & rest & -> & Hh & (c & rest' & -> & -> & (mm1 & mm2 & -> & Hm1 & Hm2))).
  destruct Hm1 as (m1 & -> & Hm1). destruct Hm2 as (m2 & -> & Hm2).
  apply in_range_bounds in Hm1, Hm2.
  change (code "0") with 48 in *. change (code "5") with 53 in *.
  change (code "9") with 57 in *.
  destruct Hh as [(a & b & -> & -> & (h2 & -> & Hh2)) | (a & b & -> & -> & (h2 & -> & Hh2))];
    apply in_range_bounds in Hh2.
  - exists "0"%char, h2, m1, m2. split; [reflexivity |].
    change (code "7") with 55 in *. change (code "9") with 57 in *.
    split; [left; split; [reflexivity | lia] | lia].
  - exists "1"%char, h2, m1, m2. split; [reflexivity |].
    change (code "0") with 48 in *. change (code "9") with 57 in *.
    split; [right; split; [reflexivity | lia] | lia].
Qed.

Lemma not_colon (c : ascii) : code c <= 57 -> Ascii.eqb c ":" = false.
Proof.
  intros H. destruct (Ascii.eqb_spec c ":") as [-> | Hne]; [| reflexivity].
  change (code ":") with 58 in H. lia.
Qed.

Lemma isDigit_bounds (c : ascii) : 48 <= code c <= 57 -> isDigit c = true.
Proof. intros H. apply in_range_bounds. exact H. Qed.

Lemma hm_timeText (h1 h2 m1 m2 : ascii) :
  48 <= code h1 <= 57 -> 48 <= code h2 <= 57 ->
  48 <= code m1 <= 57 -> 48 <= code m2 <= 57 ->
  hm (timeText h1 h2 m1 m2)
  = (Int (10 * digitVal h1 + digitVal h2), Int (10 * digitVal m1 + digitVal m2)).
Proof.
  intros H1 H2 H3 H4.
  unfold hm, timeText, split. simpl split_go.
  rewrite !not_colon by lia. simpl split_go.
  cbv [String.append map elem nth Number digits].
  rewrite !isDigit_bounds by lia.
  f_equal; f_equal; lia.
Qed.

Lemma toMinutes_timeText (h1 h2 m1 m2 : ascii) :
  48 <= code h1 <= 57 -> 48 <= code h2 <= 57 ->
  48 <= code m1 <= 57 -> 48 <= code m2 <= 57 ->
  toMinutes (timeText h1 h2 m1 m2)
  = Int ((10 * digitVal h1 + digitVal h2) * 60 + (10 * digitVal m1 + digitVal m2)).
Proof.
  intros H1 H2 H3 H4.
  pose proof (hm_timeText h1 h2 m1 m2 H1 H2 H3 H4) as Hhm.
  unfold hm in Hhm. injection Hhm as Hh Hm.
  unfold toMinutes. rewrite Hh, Hm. reflexivity.
Qed.

Lemma ascii_compare_code (a b : ascii) : Ascii.compare a b = (code a ?= code b).
Proof. unfold Ascii.compare, code. rewrite N2Z.inj_compare. reflexivity. Qed.

End TimeFacts.

(** ** Text order against minute order *)

Section OrderFacts.

Import JS Reservations NovaReserva.

Lemma toMinutes_hm (t : string) :
  toMinutes t = num_add (num_mul (fst (hm t)) (Int 60)) (snd (hm t)).
Proof. reflexivity. Qed.

Ltac by_code_order :=
  repeat match goal with
         | |- context [(?a ?= ?b)] =>
             let H := fresh "Hcmp" in
             destruct (Z.compare_spec a b) as [H | H | H]
         end;
  try reflexivity; try lia.

(** Every accepted text starts at or after "07:00". *)
Lemma str_ge_open (h1 h2 m1 m2 : ascii) :
  (code h1 = 48 /\ 55 <= code h2 <= 57) \/ (code h1 = 49 /\ 48 <= code h2 <= 57) ->
  48 <= code m1 <= 53 -> 48 <= code m2 <= 57 ->
  str_ge (timeText h1 h2 m1 m2) "07:00" = true.
Proof.
  intros Hh Hm1 Hm2.
  unfold str_ge, String.leb, timeText. simpl String.compare.
  rewrite !ascii_compare_code.
  change (code "0") with 48. change (code "7") with 55. change (code ":") with 58.
  by_code_order.
Qed.

(** An accepted text is at most "19:00" exactly when it denotes at most
    1140 minutes. *)
Lemma str_le_close (h1 h2 m1 m2 : ascii) :
  (code h1 = 48 /\ 55 <= code h2 <= 57) \/ (code h1 = 49 /\ 48 <= code h2 <= 57) ->
  48 <= code m1 <= 53 -> 48 <= code m2 <= 57 ->
  str_le (timeText h1 h2 m1 m2) "19:00"
  = ((10 * digitVal h1 + digitVal h2) * 60 + (10 * digitVal m1 + digitVal m2) <=? 1140).
Proof.
  intros Hh Hm1 Hm2.
  unfold str_le, String.leb, timeText, digitVal. simpl String.compare.
  rewrite !ascii_compare_code.
  change (code "0") with 48. change (code "1") with 49.
  change (code "9") with 57. change (code ":") with 58.
  destruct (Z.leb_spec ((10 * (code h1 - 48) + (code h2 - 48)) * 60
                        + (10 * (code m1 - 48) + (code m2 - 48))) 1140);
    by_code_order.
Qed.

(** What the pattern guarantees about a time text. *)
Lemma time_facts (t : string) :
  test timePattern t = true ->
  exists H Mi,
    hm t = (Int H, Int Mi) /\ 7 <= H <= 19 /\ 0 <= Mi <= 59
    /\ str_ge t "07:00" = true
    /\ str_le t "19:00" = (H * 60 + Mi <=? 1140).
Proof.
  intros Ht. apply timePattern_inv in Ht as (h1 & h2 & m1 & m2 & -> & Hh & Hm1 & Hm2).
  exists (10 * digitVal h1 + digitVal h2), (10 * digitVal m1 + digitVal m2).
  split; [apply hm_timeText; lia |].
  split; [unfold digitVal; lia |].
  split; [unfold digitVal; lia |].
  split; [apply str_ge_open; assumption | apply str_le_close; assumption].
Qed.

Lemma minutes_of_hm (t : string) (H Mi : Z) :
  hm t = (Int H, Int Mi) -> toMinutes t = Int (H * 60 + Mi) /\ minutes t = H * 60 + Mi.
Proof.
  intros Hhm. unfold minutes. rewrite toMinutes_hm, Hhm. simpl. auto.
Qed.

End OrderFacts.

(** ** The availability engine *)

Section EngineFacts.

Import Reservations.

Variable label : string -> string.

Lemma blocking_iff (s : RequestStatus) :
  blocking s = true <-> s = pending \/ s = approved.
Proof.
  destruct s; simpl; split; intros H; auto; try discriminate;
    destruct H; discriminate.
Qed.

Lemma shared_nonempty (C W : ReservationWindow) :
  shared C W <> ∅ <-> exists r, r ∈ resourceIds W /\ r ∈ resourceIds C.
Proof.
  unfold shared. split.
  - intros Hne. apply set_choose_L in Hne as [r Hr]. exists r. set_solver.
  - intros (r & HW & HC). set_solver.
Qed.

Lemma relevant_overlaps_iff (C W : ReservationWindow) :
  relevant C W && overlaps C W = true <-> conflicting C W.
Proof.
  unfold relevant, overlaps, conflicting.
  rewrite !andb_true_iff, negb_true_iff, bool_decide_eq_false, Z.eqb_eq, !Z.ltb_lt.
  rewrite blocking_iff, shared_nonempty. tauto.
Qed.

Lemma emit_nil (C W : ReservationWindow) :
  emit label C W = [] <-> shared C W = ∅.
Proof.
  unfold emit. split.
  - intros H. apply map_eq_nil in H. apply elements_empty_inv in H.
    apply leibniz_equiv. exact H.
  - intros ->. rewrite elements_empty. reflexivity.
Qed.

(** On a well-formed candidate the engine returns the conflicts of the
    windows that pass both filters, and leaves the world alone. *)
Lemma findConflicts_valid (C : ReservationWindow) (E : list ReservationWindow) (w : World) :
  startMinute C < endMinute C -> resourceIds C <> ∅ ->
  findConflicts label C E w
  = (inr (flat_map (emit label C) (List.filter (overlaps C) (List.filter (relevant C) E))), w).
Proof.
  intros Hlt Hne. unfold findConflicts.
  destruct (Z.geb_spec (startMinute C) (endMinute C)) as [Hge | _]; [lia |].
  rewrite bool_decide_eq_false_2 by exact Hne. reflexivity.
Qed.

(** Whatever the candidate, the engine neither reads nor changes the
    world. *)
Lemma findConflicts_run (C : ReservationWindow) (E : list ReservationWindow) :
  exists result, forall w, findConflicts label C E w = (result, w).
Proof.
  unfold findConflicts.
  destruct (startMinute C >=? endMinute C); [eexists; reflexivity |].
  destruct (bool_decide (resourceIds C = ∅)); eexists; reflexivity.
Qed.

Lemma reported_valid (C W : ReservationWindow) (w : World) :
  startMinute C < endMinute C -> resourceIds C <> ∅ ->
  reported label C W w = if relevant C W && overlaps C W then emit label C W else [].
Proof.
  intros Hlt Hne. unfold reported. rewrite findConflicts_valid by assumption.
  simpl. destruct (relevant C W); simpl; [| reflexivity].
  destruct (overlaps C W); simpl; [apply app_nil_r | reflexivity].
Qed.

Lemma reported_iff (C W : ReservationWindow) (w : World) :
  startMinute C < endMinute C -> resourceIds C <> ∅ ->
  reported label C W w <> [] <-> conflicting C W.
Proof.
  intros Hlt Hne. rewrite reported_valid by assumption.
  rewrite <- relevant_overlaps_iff.
  destruct (relevant C W && overlaps C W) eqn:Hro.
  - split; [reflexivity |]. intros _.
    rewrite emit_nil. apply andb_true_iff in Hro as [Hrel _].
    unfold relevant in Hrel. rewrite !andb_true_iff, negb_true_iff in Hrel.
    destruct Hrel as [_ Hs]. apply bool_decide_eq_false in Hs. exact Hs.
  - split; [intros H; contradiction | discriminate].
Qed.

Lemma flat_map_filters (C : ReservationWindow) (E : list ReservationWindow) :
  flat_map (emit label C) (List.filter (overlaps C) (List.filter (relevant C) E))
  = flat_map (fun W => if relevant C W && overlaps C W then emit label C W else []) E.
Proof.
  induction E as [| W E IH]; simpl; [reflexivity |].
  destruct (relevant C W); simpl; [| exact IH].
  destruct (overlaps C W); simpl; rewrite IH; reflexivity.
Qed.

Lemma flat_map_all_nil {A B} (f : A -> list B) (l : list A) :
  (forall x, In x l -> f x = []) -> flat_map f l = [].
Proof.
  induction l as [| x l IH]; simpl; intros H; [reflexivity |].
  rewrite (H x) by auto. apply IH. intros y Hy. apply H. auto.
Qed.

Lemma flat_map_nil_inv {A B} (f : A -> list B) (l : list A) :
  flat_map f l = [] -> forall x, In x l -> f x = [].
Proof.
  induction l as [| y l IH]; simpl; intros H x Hx; [contradiction |].
  apply app_eq_nil in H as [Hy Hl]. destruct Hx as [<- | Hx]; auto.
Qed.

End EngineFacts.

Import Reservations.

(** ** The submission handler, case by case *)

Section HandlerFacts.

Import NovaReserva.

Variable label : string -> string.

Lemma skipn_length_app {A} (l k : list A) : skipn (List.length l) (l ++ k) = k.
Proof. induction l as [| x l IH]; simpl; auto. Qed.

Ltac run_monad :=
  unfold onSubmit, checkConflicts, addReservation, sendAdminNotification,
    listWindowsForDate, call, toast, try_catch_finally, bind, modify, get, ret, throw.

(** The check records its call and changes nothing else. *)
Lemma checkConflicts_run (a : CheckArgs) (w : World) :
  checkConflicts label a w
  = (fst (checkConflicts label a w),
     set_calls (fun cs => cs ++ [CallCheckConflicts a]) w).
Proof.
  run_monad. simpl.
  destruct (faults w (List.length (calls w))); [reflexivity |].
  destruct (findConflicts_run label (windowOfArgs a)
              (List.filter (fun o => date o =? toDateString (c_date a))
                 (map windowOfReservation (store w)))) as [r Hr].
  rewrite Hr. reflexivity.
Qed.

(** Its answer does not depend on the [isSubmitting] flag. *)
Lemma checkConflicts_isSubmitting (a : CheckArgs) (b : bool) (w : World) :
  fst (checkConflicts label a (set_isSubmitting b w)) = fst (checkConflicts label a w).
Proof.
  run_monad. simpl.
  destruct (faults w (List.length (calls w))); [reflexivity |].
  destruct (findConflicts_run label (windowOfArgs a)
              (List.filter (fun o => date o =? toDateString (c_date a))
                 (map windowOfReservation (store w)))) as [r Hr].
  rewrite !Hr. reflexivity.
Qed.

(** The check was rejected: an error toast, nothing else. *)
Lemma onSubmit_check_failed (p : Page) (v : FormValues) (w : World) (e : Exn) :
  fst (checkConflicts label (argsOf v) w) = inl e ->
  onSubmit label p v w
  = (inr tt,
     set_isSubmitting false
       (set_toasts (fun ts => ts ++ [ToastError "Erro ao processar reserva"])
          (set_calls (fun cs => cs ++ [CallCheckConflicts (argsOf v)])
             (set_isSubmitting true w)))).
Proof.
  intros Hc. rewrite <- (checkConflicts_isSubmitting (argsOf v) true w) in Hc.
  unfold onSubmit, try_catch_finally, bind at 1 2. unfold modify at 1.
  rewrite checkConflicts_run, Hc. reflexivity.
Qed.

(** The check found conflicts: they are shown and the handler returns. *)
Lemma onSubmit_conflicts (p : Page) (v : FormValues) (w : World) (cs : list Conflict) :
  fst (checkConflicts label (argsOf v) w) = inr cs -> cs <> [] ->
  onSubmit label p v w
  = (inr tt,
     set_isSubmitting false
       (set_toasts (fun ts => ts ++ [ToastConflicts cs])
          (set_calls (fun cs => cs ++ [CallCheckConflicts (argsOf v)])
             (set_isSubmitting true w)))).
Proof.
  intros Hc Hne. rewrite <- (checkConflicts_isSubmitting (argsOf v) true w) in Hc.
  unfold onSubmit, try_catch_finally, bind at 1 2. unfold modify at 1.
  rewrite checkConflicts_run, Hc.
  destruct cs as [| c cs]; [contradiction |]. reflexivity.
Qed.

(** No conflict: the document is handed to [addReservation]; it is stored
    unless that call is rejected, and the administrators are notified
    unless that call or the notification is rejected. *)
Lemma onSubmit_no_conflict (p : Page) (v : FormValues) (w : World) :
  fst (checkConflicts label (argsOf v) w) = inr [] ->
  let w' := snd (onSubmit label p v w) in
  let n := List.length (calls w) in
  fst (onSubmit label p v w) = inr tt
  /\ calls w' = calls w ++ CallCheckConflicts (argsOf v)
                 :: CallAddReservation (newReservation p v)
                 :: (if faults w (S n) then []
                     else [CallSendAdminNotification "Reserva" (userName p "Usuário")])
  /\ store w' = store w ++ (if faults w (S n) then [] else [newReservation p v])
  /\ outbox w' = outbox w ++ (if faults w (S n) || faults w (S (S n)) then []
                              else [("Reserva", userName p "Usuário")]).
Proof.
  intros Hc w' n. subst w' n.
  rewrite <- (checkConflicts_isSubmitting (argsOf v) true w) in Hc.
  unfold onSubmit, try_catch_finally, bind, modify. cbv beta.
  rewrite checkConflicts_run, Hc.
  unfold addReservation, sendAdminNotification, call, toast, bind, modify, get, ret, throw.
  simpl. rewrite !length_app. simpl. rewrite !Nat.add_1_r.
  destruct (faults w (S (List.length (calls w)))) eqn:Hf1; simpl.
  - rewrite ?app_nil_r, <- ?app_assoc. auto.
  - rewrite !length_app. simpl. rewrite !Nat.add_1_r.
    destruct (faults w (S (S (List.length (calls w))))) eqn:Hf2; simpl;
      rewrite ?app_nil_r, <- ?app_assoc; auto.
Qed.

End HandlerFacts.

(** ** What the schema guarantees *)

Section SchemaFacts.

Import JS NovaReserva.

Lemma formSchema_inv (i : FormInput) (v : FormValues) :
  formSchema i = Some v ->
  i_date i = Some (v_date v)
  /\ v_startTime v = i_startTime i /\ v_endTime v = i_endTime i
  /\ v_selectedEquipment v = i_selectedEquipment i
  /\ test timePattern (v_startTime v) = true
  /\ test timePattern (v_endTime v) = true
  /\ v_selectedEquipment v <> []
  /\ refine_order (v_startTime v) (v_endTime v) = true
  /\ refine_hours (v_startTime v) (v_endTime v) = true.
Proof.
  unfold formSchema. destruct (i_date i) as [d |]; [| discriminate].
  destruct (_ && _) eqn:Hchecks; [| discriminate].
  intros [= <-]. simpl.
  rewrite !andb_true_iff in Hchecks.
  destruct Hchecks as [[[[[[Hs He] Heq] _] _] Ho] Hh].
  repeat split; try assumption.
  intros Hnil. rewrite Hnil in Heq. discriminate.
Qed.

(** The two texts of an accepted form, as hours and minutes. *)
Lemma formSchema_times (i : FormInput) (v : FormValues) :
  formSchema i = Some v ->
  exists sh sm eh em,
    hm (v_startTime v) = (Int sh, Int sm) /\ hm (v_endTime v) = (Int eh, Int em)
    /\ 7 <= sh <= 19 /\ 0 <= sm <= 59 /\ 7 <= eh <= 19 /\ 0 <= em <= 59
    /\ sh * 60 + sm < eh * 60 + em
    /\ str_ge (v_startTime v) "07:00" = true
    /\ str_le (v_endTime v) "19:00" = (eh * 60 + em <=? 1140).
Proof.
  intros Hv. apply formSchema_inv in Hv as (_ & _ & _ & _ & Hs & He & _ & Ho & _).
  apply time_facts in Hs as (sh & sm & Hsh & Hs1 & Hs2 & Hs3 & _).
  apply time_facts in He as (eh & em & Heh & He1 & He2 & _ & He4).
  exists sh, sm, eh, em. unfold refine_order in Ho. rewrite Hsh, Heh in Ho.
  simpl in Ho. apply Z.ltb_lt in Ho.
  repeat split; try assumption; lia.
Qed.

End SchemaFacts.

Import NovaReserva.

(** ** The decision of the handler *)

Section DecisionFacts.

Variable label : string -> string.

(** On an accepted form the text comparisons of [autoApproved] are the
    minute comparisons. *)
Lemma autoApproved_minutes (p : Page) (i : FormInput) (v : FormValues) :
  formSchema i = Some v ->
  420 <= minutes (v_startTime v)
  /\ autoApproved p v
     = isDateAvailable p (v_date v) && (minutes (v_endTime v) <=? 1140).
Proof.
  intros Hv.
  destruct (formSchema_times i v Hv)
    as (sh & sm & eh & em & Hsh & Heh & Hs1 & Hs2 & He1 & He2 & _ & Hge & Hle).
  destruct (minutes_of_hm _ _ _ Hsh) as [_ Hms].
  destruct (minutes_of_hm _ _ _ Heh) as [_ Hme].
  split; [lia |].
  unfold autoApproved. rewrite Hge, Hle, Hme, andb_true_r. reflexivity.
Qed.

Lemma decision_no_conflict (p : Page) (v : FormValues) (w : World) :
  fst (checkConflicts label (argsOf v) w) = inr [] ->
  decisionOf (callsDuring (onSubmit label p v) w)
  = Some (if autoApproved p v then Approved else PendingReview).
Proof.
  intros Hc. destruct (onSubmit_no_conflict label p v w Hc) as (_ & Hcalls & _).
  unfold callsDuring. rewrite Hcalls, skipn_length_app.
  unfold decisionOf. simpl. destruct (autoApproved p v); reflexivity.
Qed.

Lemma callsDuring_conflicts (p : Page) (v : FormValues) (w : World) (cs : list Conflict) :
  fst (checkConflicts label (argsOf v) w) = inr cs -> cs <> [] ->
  callsDuring (onSubmit label p v) w = [CallCheckConflicts (argsOf v)].
Proof.
  intros Hc Hne. unfold callsDuring.
  rewrite (onSubmit_conflicts label p v w cs Hc Hne). simpl.
  apply skipn_length_app.
Qed.

Lemma callsDuring_check_failed (p : Page) (v : FormValues) (w : World) (e : Exn) :
  fst (checkConflicts label (argsOf v) w) = inl e ->
  callsDuring (onSubmit label p v) w = [CallCheckConflicts (argsOf v)].
Proof.
  intros Hc. unfold callsDuring.
  rewrite (onSubmit_check_failed label p v w e Hc). simpl.
  apply skipn_length_app.
Qed.

End DecisionFacts.

(** ** The status workflow of the purchase page *)

Section WorkflowFacts.

Import ComprasFinanceiro.

(** Pressing "Atualizar" with a request selected and the database
    reachable writes [newStatus] over whatever status is stored. *)
Lemma handleStatusChange_writes (w : World) (selected d : RequestData) :
  selectedRequest w = Some selected ->
  docs w !! (collectionName selected, id selected) = Some d ->
  down w SvcFirestore = false ->
  docs (snd (handleStatusChange w))
  = <[(collectionName selected, id selected) := with_status d (newStatus w)]> (docs w).
Proof.
  intros Hsel Hdoc Hup.
  unfold handleStatusChange, try_catch, try_catch_finally, updateDoc, createNotification,
    available, bind, modify, get, ret, throw.
  rewrite Hsel, Hup, Hdoc. simpl.
  destruct (down w SvcNotifications); reflexivity.
Qed.

(** The three actions of a status change end in [handleStatusChange], run
    with the request selected and the chosen status in [newStatus]. *)
Lemma perform_change_status (w : World) (request : RequestData) (to : RequestStatus) :
  snd (perform [OpenDetails request; SelectStatus to; PressUpdate] w)
  = snd (handleStatusChange
           (setNewStatus to (setIsDetailsOpen true (setSelectedRequest (Some request) w)))).
Proof.
  unfold perform, act, bind, modify, ret. simpl.
  destruct (handleStatusChange _) as [[e | []] w1]; reflexivity.
Qed.

End WorkflowFacts.

(** * The stated properties *)

(** C1 (as the handler implements it).  For a form accepted by the schema
    whose conflict check returned [conflicts]: the decision is [Approved]
    if and only if [conflicts] is empty, the date is in the calendar of
    open dates, the start is at or after minute 420 and the end at or
    before minute 1140; when [conflicts] is empty and one of the other
    three conditions fails the decision is [PendingReview]; when
    [conflicts] is not empty the handler takes no decision at all. *)
Theorem autoApproval_decision
    (label : string -> string) (p : Page) (i : FormInput) (v : FormValues)
    (w : World) (conflicts : list Conflict) :
  formSchema i = Some v ->
  fst (checkConflicts label (argsOf v) w) = inr conflicts ->
  let decision := decisionOf (callsDuring (onSubmit label p v) w) in
  (decision = Some Approved
   <-> conflicts = [] /\ isDateAvailable p (v_date v) = true
       /\ 420 <= minutes (v_startTime v) /\ minutes (v_endTime v) <= 1140)
  /\ (conflicts = [] ->
      isDateAvailable p (v_date v) = false \/ minutes (v_startTime v) < 420
      \/ 1140 < minutes (v_endTime v) ->
      decision = Some PendingReview)
  /\ (conflicts <> [] -> decision = None).
Proof.
  intros Hv Hc decision. subst decision.
  destruct (autoApproved_minutes p i v Hv) as [Hopen Hauto].
  destruct conflicts as [| c cs].
  - rewrite (decision_no_conflict label p v w Hc), Hauto.
    destruct (isDateAvailable p (v_date v)); simpl;
      destruct (Z.leb_spec (minutes (v_endTime v)) 1140); simpl.
    + split; [split; auto |]. split; [| congruence].
      intros _ [Hd | [Hs | He]]; [discriminate | lia | lia].
    + split; [split; [discriminate | intros (_ & _ & _ & He); lia] |].
      split; [auto | congruence].
    + split; [split; [discriminate | intros (_ & Hd & _); discriminate] |].
      split; [auto | congruence].
    + split; [split; [discriminate | intros (_ & Hd & _); discriminate] |].
      split; [auto | congruence].
  - assert (Hcalls := callsDuring_conflicts label p v w (c :: cs) Hc ltac:(discriminate)).
    rewrite Hcalls. simpl.
    split; [split; [discriminate | intros (Hnil & _); discriminate] |].
    split; [discriminate | reflexivity].
Qed.

Lemma autoApproval_decision_witness :
  decisionOf (callsDuring (onSubmit Scenario.names Scenario.page
                             (Scenario.valuesOf Scenario.touching)) Scenario.world)
  = Some Approved.
Proof.
  apply (autoApproval_decision Scenario.names Scenario.page Scenario.touching
           (Scenario.valuesOf Scenario.touching) Scenario.world [] eq_refl eq_refl).
  repeat split; vm_compute; congruence.
Defined.

(** Against the claim as first stated: the overlapping request of the
    scenario passes the schema and its conflict check returns one
    conflict, so a condition of approval fails, yet the decision is not
    [PendingReview]: nothing is handed to [addReservation]. *)
Lemma autoApproval_decision_counterexample :
  let v := Scenario.valuesOf Scenario.overlapping in
  formSchema Scenario.overlapping = Some v
  /\ fst (checkConflicts Scenario.names (argsOf v) Scenario.world)
     = inr [mkConflict "projector1" 540 600 "Projetor 1"]
  /\ decisionOf (callsDuring (onSubmit Scenario.names Scenario.page v) Scenario.world)
     <> Some PendingReview.
Proof. vm_compute. repeat split; discriminate. Qed.

(** C2.  On a well-formed candidate [C] (positive duration, at least one
    resource) [findConflicts] succeeds without touching the world, and its
    result is the concatenation, window by window, of the conflicts it
    reports between [C] and each window of [existing].  It reports a
    conflict between [C] and a window [W] if and only if [W] has the date
    of [C], a blocking status (pending or approved), a resource in common
    with [C], and a minute range that overlaps that of [C] under half-open
    semantics.  Windows that only touch ([W] ends when [C] starts, or [C]
    ends when [W] starts) are never reported, and the result is the empty
    sequence exactly when no window of [existing] meets the conditions. *)
Theorem findConflicts_reports_exactly_conflicting
    (label : string -> string) (C : ReservationWindow)
    (E : list ReservationWindow) (w : World) :
  startMinute C < endMinute C ->
  resourceIds C <> ∅ ->
  exists cs,
    findConflicts label C E w = (inr cs, w)
    /\ cs = flat_map (fun W => reported label C W w) E
    /\ (forall W, reported label C W w <> [] <-> conflicting C W)
    /\ (forall W, endMinute W = startMinute C \/ endMinute C = startMinute W ->
                  reported label C W w = [])
    /\ ((forall W, In W E -> ~ conflicting C W) <-> cs = []).
Proof.
  intros Hlt Hne.
  assert (Hrep : forall W, reported label C W w <> [] <-> conflicting C W)
    by (intros W; apply reported_iff; assumption).
  assert (Hnil : forall W, ~ conflicting C W -> reported label C W w = []).
  { intros W Hn. destruct (reported label C W w) eqn:Hr; [reflexivity |].
    exfalso. apply Hn, Hrep. rewrite Hr. discriminate. }
  eexists. split; [apply findConflicts_valid; assumption |].
  split.
  { rewrite flat_map_filters. apply flat_map_ext. intros W.
    symmetry. apply reported_valid; assumption. }
  split; [exact Hrep |].
  split.
  - intros W Htouch. apply Hnil. unfold conflicting. lia.
  - rewrite flat_map_filters. split.
    + intros Hall. apply flat_map_all_nil.
      intros W HW. rewrite <- (reported_valid label C W w) by assumption.
      apply Hnil, Hall, HW.
    + intros Hcs W HW Hconf. apply Hrep in Hconf. apply Hconf.
      rewrite reported_valid by assumption.
      apply (flat_map_nil_inv _ _ Hcs W HW).
Qed.

Lemma findConflicts_reports_exactly_conflicting_witness :
  let C := windowOfArgs (argsOf (Scenario.valuesOf Scenario.touching)) in
  let E := [windowOfReservation Scenario.booked] in
  findConflicts Scenario.names C E Scenario.world = (inr [], Scenario.world).
Proof.
  intros C E.
  destruct (findConflicts_reports_exactly_conflicting Scenario.names C E Scenario.world)
    as (cs & Hrun & Hcs & _ & Htouch & _).
  - vm_compute. reflexivity.
  - vm_compute. discriminate.
  - rewrite Hrun, Hcs. simpl.
    rewrite Htouch by (left; vm_compute; reflexivity). reflexivity.
Defined.

(** C3.  Whatever a submission adds to the reservation store carries the
    status [approved] when the auto-approval decision of that submission
    is [Approved] and [pending] otherwise; no other initial status
    occurs. *)
Theorem initial_status_follows_decision
    (label : string -> string) (p : Page) (v : FormValues) (w : World) :
  exists added,
    store (snd (onSubmit label p v w)) = store w ++ added
    /\ forall r, In r added ->
         (r_status r = approved \/ r_status r = pending)
         /\ (r_status r = approved
             <-> decisionOf (callsDuring (onSubmit label p v) w) = Some Approved)
         /\ (r_status r = pending
             <-> decisionOf (callsDuring (onSubmit label p v) w) <> Some Approved)
         /\ r_status r = (if autoApproved p v then approved else pending).
Proof.
  destruct (fst (checkConflicts label (argsOf v) w)) as [e | [| c cs]] eqn:Hc.
  - exists []. rewrite (onSubmit_check_failed label p v w e Hc). simpl.
    split; [symmetry; apply app_nil_r | intros r []].
  - destruct (onSubmit_no_conflict label p v w Hc) as (_ & _ & Hstore & _).
    eexists. split; [exact Hstore |].
    intros r Hr. rewrite (decision_no_conflict label p v w Hc).
    destruct (faults w (S (List.length (calls w)))); [destruct Hr |].
    destruct Hr as [<- | []]. simpl.
    destruct (autoApproved p v).
    + repeat split; auto; try congruence.
    + repeat split; auto; try congruence; discriminate.
  - exists []. rewrite (onSubmit_conflicts label p v w (c :: cs) Hc ltac:(discriminate)).
    simpl. split; [symmetry; apply app_nil_r | intros r []].
Qed.

(** C4.  [findConflicts] fails with [InvalidWindow] whenever the candidate
    has [startMinute >= endMinute] or an empty resource set; it raises no
    other error; in particular it fails on the zero-length candidate
    600-600 with resources {"r1"} and on every candidate without
    resources. *)
Theorem findConflicts_InvalidWindow
    (label : string -> string) (C : ReservationWindow)
    (E : list ReservationWindow) (w : World) :
  (startMinute C >= endMinute C \/ resourceIds C = ∅ ->
   findConflicts label C E w = (inl InvalidWindow, w))
  /\ (forall e w', findConflicts label C E w = (inl e, w') -> e = InvalidWindow)
  /\ (forall d s, findConflicts label (mkWindow d 600 600 {["r1"]} s) E w
                  = (inl InvalidWindow, w))
  /\ (forall d a b s, findConflicts label (mkWindow d a b ∅ s) E w
                      = (inl InvalidWindow, w)).
Proof.
  assert (Hbad : forall X, startMinute X >= endMinute X \/ resourceIds X = ∅ ->
                           findConflicts label X E w = (inl InvalidWindow, w)).
  { intros X Hx. unfold findConflicts.
    destruct (Z.geb_spec (startMinute X) (endMinute X)) as [_ | Hlt]; [reflexivity |].
    destruct Hx as [Hge | Hempty]; [lia |].
    rewrite bool_decide_eq_true_2 by exact Hempty. reflexivity. }
  split; [apply Hbad |].
  split.
  - intros e w'. unfold findConflicts.
    destruct (startMinute C >=? endMinute C); [intros [= <- _]; reflexivity |].
    destruct (bool_decide (resourceIds C = ∅)); [intros [= <- _]; reflexivity |].
    discriminate.
  - split.
    + intros d s. apply Hbad. left. simpl. lia.
    + intros d a b s. apply Hbad. right. reflexivity.
Qed.

Lemma findConflicts_InvalidWindow_witness :
  findConflicts Scenario.names (mkWindow 20157 600 600 {["r1"]} pending) []
    Scenario.world
  = (inl InvalidWindow, Scenario.world).
Proof.
  apply (proj1 (findConflicts_InvalidWindow Scenario.names
                  (mkWindow 20157 600 600 {["r1"]} pending) [] Scenario.world)).
  left. simpl. lia.
Defined.

(** C5.  [findConflicts] is a function of the candidate and of [existing]
    alone: its result is the same in every world, so two calls on the same
    inputs agree, and it leaves the world (reservation store, outbox,
    recorded calls) exactly as it found it. *)
Theorem findConflicts_pure
    (label : string -> string) (C : ReservationWindow) (E : list ReservationWindow) :
  exists result,
    forall w, findConflicts label C E w = (result, w).
Proof. apply findConflicts_run. Qed.

(** C6.  For every pair of statuses [from] and [to], an administrator can
    move a stored request from [from] to [to]: opening its details,
    picking [to] in the status select and pressing "Atualizar" leaves [to]
    stored, whatever [from] was (completed back to pending included),
    provided the document exists and the database accepts the write.  No
    guard on the pair is consulted. *)
Theorem any_status_transition_permitted
    (from to : RequestStatus) (w : ComprasFinanceiro.World)
    (request d : ComprasFinanceiro.RequestData) :
  ComprasFinanceiro.docs w
    !! (ComprasFinanceiro.collectionName request, ComprasFinanceiro.id request) = Some d ->
  ComprasFinanceiro.status d = from ->
  ComprasFinanceiro.down w SvcFirestore = false ->
  let w' := snd (ComprasFinanceiro.perform
                   [ComprasFinanceiro.OpenDetails request;
                    ComprasFinanceiro.SelectStatus to;
                    ComprasFinanceiro.PressUpdate] w) in
  ComprasFinanceiro.storedStatus w
    (ComprasFinanceiro.collectionName request) (ComprasFinanceiro.id request) = Some from
  /\ ComprasFinanceiro.storedStatus w'
       (ComprasFinanceiro.collectionName request) (ComprasFinanceiro.id request) = Some to.
Proof.
  intros Hdoc Hfrom Hup w'. subst w'.
  unfold ComprasFinanceiro.storedStatus. split; [rewrite Hdoc, <- Hfrom; reflexivity |].
  rewrite perform_change_status.
  rewrite (handleStatusChange_writes _ request d); try assumption; try reflexivity.
  simpl. rewrite lookup_insert_eq. reflexivity.
Qed.

Lemma any_status_transition_permitted_witness :
  let request := ComprasFinanceiro.mkRequest "req-1" "purchases" "ana@eccos.example" completed in
  let w := ComprasFinanceiro.mkWorld {[("purchases", "req-1") := request]} []
             (fun _ => false) [] 0 None false pending in
  ComprasFinanceiro.storedStatus
    (snd (ComprasFinanceiro.perform
            [ComprasFinanceiro.OpenDetails request;
             ComprasFinanceiro.SelectStatus pending;
             ComprasFinanceiro.PressUpdate] w))
    "purchases" "req-1"
  = Some pending.
Proof.
  intros request w.
  apply (any_status_transition_permitted completed pending w request request).
  - vm_compute. reflexivity.
  - reflexivity.
  - reflexivity.
Defined.

(** C7.  The minute-range overlap test is symmetric: the verdict with [A]
    as candidate and [B] as existing window is the verdict with the roles
    exchanged. *)
Theorem overlaps_symmetric (A B : ReservationWindow) :
  overlaps A B = overlaps B A.
Proof. unfold overlaps. apply andb_comm. Qed.

(** C8.  When the conflict check returns a non-empty sequence the handler
    returns normally having called neither [addReservation] nor
    [sendAdminNotification]: the check is its only call, the conflicts are
    shown, and the reservation store and the administrators' mail are
    left as they were. *)
Theorem conflicts_block_submission
    (label : string -> string) (p : Page) (v : FormValues) (w : World)
    (conflicts : list Conflict) :
  fst (checkConflicts label (argsOf v) w) = inr conflicts ->
  conflicts <> [] ->
  let w' := snd (onSubmit label p v w) in
  fst (onSubmit label p v w) = inr tt
  /\ callsDuring (onSubmit label p v) w = [CallCheckConflicts (argsOf v)]
  /\ (forall r, ~ In (CallAddReservation r) (callsDuring (onSubmit label p v) w))
  /\ (forall kind who,
        ~ In (CallSendAdminNotification kind who) (callsDuring (onSubmit label p v) w))
  /\ store w' = store w
  /\ outbox w' = outbox w
  /\ toasts w' = toasts w ++ [ToastConflicts conflicts]
  /\ isSubmitting w' = false.
Proof.
  intros Hc Hne w'. subst w'.
  rewrite (callsDuring_conflicts label p v w conflicts Hc Hne).
  rewrite (onSubmit_conflicts label p v w conflicts Hc Hne). simpl.
  repeat split; try reflexivity.
  - intros r [H | []]. discriminate.
  - intros kind who [H | []]. discriminate.
Qed.

Lemma conflicts_block_submission_witness :
  let v := Scenario.valuesOf Scenario.overlapping in
  store (snd (onSubmit Scenario.names Scenario.page v Scenario.world))
  = store Scenario.world.
Proof.
  intros v.
  apply (conflicts_block_submission Scenario.names Scenario.page v Scenario.world
           [mkConflict "projector1" 540 600 "Projetor 1"]).
  - vm_compute. reflexivity.
  - discriminate.
Defined.

(** C9.  Every form value accepted by the submission schema satisfies the
    preconditions of the engine: both times match the HH:mm pattern with
    an hour between 07 and 19, the start in minutes is strictly before the
    end in minutes, and the selected equipment is not empty; hence the
    candidate built from it has a positive duration and a resource, and
    neither [findConflicts] nor the conflict check of the page can fail
    with [InvalidWindow] on it. *)
Theorem formSchema_meets_engine_preconditions
    (label : string -> string) (i : FormInput) (v : FormValues) :
  formSchema i = Some v ->
  JS.test timePattern (v_startTime v) = true
  /\ JS.test timePattern (v_endTime v) = true
  /\ (exists sh sm eh em,
        hm (v_startTime v) = (JS.Int sh, JS.Int sm)
        /\ hm (v_endTime v) = (JS.Int eh, JS.Int em)
        /\ 7 <= sh <= 19 /\ 7 <= eh <= 19)
  /\ minutes (v_startTime v) < minutes (v_endTime v)
  /\ v_selectedEquipment v <> []
  /\ startMinute (windowOfArgs (argsOf v)) < endMinute (windowOfArgs (argsOf v))
  /\ resourceIds (windowOfArgs (argsOf v)) <> ∅
  /\ (forall E w, fst (findConflicts label (windowOfArgs (argsOf v)) E w)
                  <> inl InvalidWindow)
  /\ (forall w, fst (checkConflicts label (argsOf v) w) <> inl InvalidWindow).
Proof.
  intros Hv.
  pose proof (formSchema_inv i v Hv) as (_ & _ & _ & _ & Hs & He & Hsel & _ & _).
  pose proof (formSchema_times i v Hv)
    as (sh & sm & eh & em & Hsh & Heh & Hs1 & Hs2 & He1 & He2 & Hlt & _ & _).
  pose proof (minutes_of_hm _ _ _ Hsh) as [_ Hms].
  pose proof (minutes_of_hm _ _ _ Heh) as [_ Hme].
  assert (Hdur : startMinute (windowOfArgs (argsOf v)) < endMinute (windowOfArgs (argsOf v)))
    by (simpl; lia).
  assert (Hres : resourceIds (windowOfArgs (argsOf v)) <> ∅).
  { simpl. destruct (v_selectedEquipment v) as [| x l]; [contradiction |].
    simpl. intros Hempty.
    apply (not_elem_of_empty (C := gset string) x). rewrite <- Hempty.
    apply elem_of_union_l, elem_of_singleton. reflexivity. }
  assert (Hfc : forall E w, fst (findConflicts label (windowOfArgs (argsOf v)) E w)
                            <> inl InvalidWindow).
  { intros E w. rewrite (findConflicts_valid label _ E w Hdur Hres). discriminate. }
  split; [exact Hs |]. split; [exact He |].
  split; [exists sh, sm, eh, em; auto |].
  split; [lia |]. split; [exact Hsel |].
  split; [exact Hdur |]. split; [exact Hres |].
  split; [exact Hfc |].
  intros w. unfold checkConflicts, call, listWindowsForDate, bind, modify, get, ret, throw.
  simpl. destruct (faults w (List.length (calls w))); [discriminate |].
  apply Hfc.
Qed.

Lemma formSchema_meets_engine_preconditions_witness :
  minutes "10:00" < minutes "11:00"
  /\ fst (checkConflicts Scenario.names (argsOf (Scenario.valuesOf Scenario.touching))
            Scenario.world) <> inl InvalidWindow.
Proof.
  pose proof (formSchema_meets_engine_preconditions Scenario.names Scenario.touching
                (Scenario.valuesOf Scenario.touching) eq_refl)
    as (_ & _ & _ & Hlt & _ & _ & _ & _ & Hcheck).
  split; [exact Hlt | apply Hcheck].
Defined.

(** The menu holding "Editar" and "Apagar" is rendered for a message if
    and only if a user is signed in, the [userId] of the message is the
    [uid] of that user, and the message is not deleted. *)
Lemma menu_offered_iff
    (currentUser : option User) (message : ChatAdmin.MessageData) :
  (ChatAdmin.controlsOffered currentUser message = true
   <-> exists u, currentUser = Some u
                 /\ ChatAdmin.m_userId message = Some (uid u)
                 /\ ChatAdmin.m_isDeleted message <> Some true)
  /\ (forall u, currentUser = Some u ->
                ChatAdmin.m_userId message <> Some (uid u) ->
                ChatAdmin.controlsOffered currentUser message = false)
  /\ (ChatAdmin.m_isDeleted message = Some true ->
      ChatAdmin.controlsOffered currentUser message = false).
Proof.
  assert (Hiff : ChatAdmin.controlsOffered currentUser message = true
                 <-> exists u, currentUser = Some u
                               /\ ChatAdmin.m_userId message = Some (uid u)
                               /\ ChatAdmin.m_isDeleted message <> Some true).
  { unfold ChatAdmin.controlsOffered, ChatAdmin.canEditOrDelete.
    destruct currentUser as [u |]; simpl.
    - unfold ChatAdmin.js_and, ChatAdmin.strict_eq, ChatAdmin.js_not. simpl.
      destruct (ChatAdmin.m_userId message) as [t |]; simpl.
      + destruct (String.eqb_spec t (uid u)) as [-> | Hne]; simpl.
        * destruct (ChatAdmin.m_isDeleted message) as [[|] |]; simpl.
          -- split; [discriminate | intros (u' & [= <-] & _ & Hd); contradiction].
          -- split; [intros _; exists u; repeat split; discriminate | reflexivity].
          -- split; [intros _; exists u; repeat split; discriminate | reflexivity].
        * split; [discriminate | intros (u' & [= <-] & [= Ht] & _); contradiction].
      + split; [discriminate | intros (u' & _ & Hid & _); discriminate].
    - split; [discriminate | intros (u' & Hu & _); discriminate]. }
  split; [exact Hiff |]. split.
  - intros u Hu Hid. apply not_true_is_false. intros Hoff.
    apply Hiff in Hoff as (u' & Hu' & Hid' & _). congruence.
  - intros Hdel. apply not_true_is_false. intros Hoff.
    apply Hiff in Hoff as (u' & _ & _ & Hnd). contradiction.
Qed.

(** C10.  The menu with "Editar" and "Apagar" follows [canEditOrDelete],
    but the editor with "Salvar" does not: it is tied to the id of the
    message alone.  A signed-in user is offered the menu on an own message
    that is not deleted, presses "Editar" and then "Apagar"; once the
    snapshot delivers the message as deleted the guard is false on it and
    the menu is gone, yet the editor is still shown on the deleted
    message, and "Salvar" on any text that is not blank asks the service
    to edit the message that was just deleted. *)
Theorem edit_offered_on_deleted_message
    (uploaded : ChatAdminHandlers.File -> string -> ChatAdminHandlers.FileAttachment)
    (s : ChatAdminHandlers.State) (req : ChatAdminHandlers.Request) (u : User)
    (m deleted : ChatAdminHandlers.Message)
    (received : list ChatAdminHandlers.Message) (text : string) :
  ChatAdminHandlers.request s = Some req ->
  ChatAdminHandlers.currentUser s = Some u ->
  ChatAdminHandlers.userId m = Some (uid u) ->
  ChatAdminHandlers.isDeleted m <> Some true ->
  In deleted received ->
  ChatAdminHandlers.id deleted = ChatAdminHandlers.id m ->
  ChatAdminHandlers.isDeleted deleted = Some true ->
  ChatAdminHandlers.blank text = false ->
  ChatAdmin.truthy (ChatAdmin.canEditOrDelete (Some u) (ChatAdminHandlers.guarded m)) = true
  /\ ChatAdminHandlers.menuShown s m = true
  /\ ChatAdmin.truthy
       (ChatAdmin.canEditOrDelete
          (ChatAdminHandlers.currentUser
             (snd (ChatAdminHandlers.perform uploaded
                     [ChatAdminHandlers.StartEditing m;
                      ChatAdminHandlers.Delete (ChatAdminHandlers.id m);
                      ChatAdminHandlers.Snapshot received] s)))
          (ChatAdminHandlers.guarded deleted)) = false
  /\ In deleted
       (ChatAdminHandlers.messages
          (snd (ChatAdminHandlers.perform uploaded
                  [ChatAdminHandlers.StartEditing m;
                   ChatAdminHandlers.Delete (ChatAdminHandlers.id m);
                   ChatAdminHandlers.Snapshot received] s)))
  /\ ChatAdminHandlers.editorShown
       (snd (ChatAdminHandlers.perform uploaded
               [ChatAdminHandlers.StartEditing m;
                ChatAdminHandlers.Delete (ChatAdminHandlers.id m);
                ChatAdminHandlers.Snapshot received] s))
       deleted = true
  /\ ChatAdminHandlers.calls
       (snd (ChatAdminHandlers.perform uploaded
               [ChatAdminHandlers.StartEditing m;
                ChatAdminHandlers.Delete (ChatAdminHandlers.id m);
                ChatAdminHandlers.Snapshot received;
                ChatAdminHandlers.TypeEdit text;
                ChatAdminHandlers.SaveEdit (ChatAdminHandlers.id deleted)] s))
     = ChatAdminHandlers.calls s
       ++ [ChatAdminHandlers.CallDeleteMessage (ChatAdminHandlers.requestId req)
             (ChatAdminHandlers.collectionName req) (ChatAdminHandlers.id m) (uid u);
           ChatAdminHandlers.CallEditMessage (ChatAdminHandlers.requestId req)
             (ChatAdminHandlers.collectionName req) (ChatAdminHandlers.id deleted)
             text (uid u)].
Proof.
  intros Hreq Huser Hown Hlive Hin Hid Hdel Hblank.
  assert (Hmenu : ChatAdmin.truthy
                    (ChatAdmin.canEditOrDelete (Some u) (ChatAdminHandlers.guarded m))
                  = true).
  { apply (proj1 (menu_offered_iff (Some u) (ChatAdminHandlers.guarded m))).
    exists u. repeat split; assumption. }
  split; [exact Hmenu |].
  split; [unfold ChatAdminHandlers.menuShown, ChatAdmin.controlsOffered;
          rewrite Huser; exact Hmenu |].
  unfold ChatAdminHandlers.perform, ChatAdminHandlers.act, ChatAdminHandlers.startEditing,
    ChatAdminHandlers.handleDeleteMessage, ChatAdminHandlers.handleEditMessage,
    ChatAdminHandlers.onSnapshot, ChatAdminHandlers.call, ChatAdminHandlers.uidOrEmpty,
    ChatAdminHandlers.editorShown, try_catch, try_catch_finally, bind, modify, get, ret, throw.
  simpl. rewrite Hreq, Huser. simpl.
  destruct (ChatAdminHandlers.faults s (List.length (ChatAdminHandlers.calls s))); simpl;
    rewrite ?Hreq, ?Huser, ?Hblank; simpl.
  all: rewrite ?Hid, ?String.eqb_refl.
  all: (split;
        [apply (proj2 (proj2 (menu_offered_iff (Some u) (ChatAdminHandlers.guarded deleted))));
         exact Hdel |]).
  all: (split; [exact Hin |]).
  all: (split; [reflexivity |]).
  all: rewrite !length_app; simpl.
  all: destruct (ChatAdminHandlers.faults s _); simpl; rewrite <- app_assoc; reflexivity.
Qed.

Lemma edit_offered_on_deleted_message_witness :
  ChatAdminHandlers.menuShown ChatScenario.dialog ChatScenario.note = true
  /\ ChatAdmin.controlsOffered (Some Scenario.ana)
       (ChatAdminHandlers.guarded ChatScenario.erased) = false
  /\ ChatAdminHandlers.editorShown
       (snd (ChatAdminHandlers.perform ChatScenario.upload
               [ChatAdminHandlers.StartEditing ChatScenario.note;
                ChatAdminHandlers.Delete "m1";
                ChatAdminHandlers.Snapshot [ChatScenario.erased]] ChatScenario.dialog))
       ChatScenario.erased = true
  /\ ChatAdminHandlers.calls
       (snd (ChatAdminHandlers.perform ChatScenario.upload
               [ChatAdminHandlers.StartEditing ChatScenario.note;
                ChatAdminHandlers.Delete "m1";
                ChatAdminHandlers.Snapshot [ChatScenario.erased];
                ChatAdminHandlers.TypeEdit "Pedido recusado";
                ChatAdminHandlers.SaveEdit "m1"] ChatScenario.dialog))
     = [ChatAdminHandlers.CallDeleteMessage "req-1" "purchases" "m1" "u-ana";
        ChatAdminHandlers.CallEditMessage "req-1" "purchases" "m1" "Pedido recusado" "u-ana"].
Proof.
  pose proof (edit_offered_on_deleted_message ChatScenario.upload ChatScenario.dialog
                (ChatAdminHandlers.mkRequest "req-1" "purchases") Scenario.ana
                ChatScenario.note ChatScenario.erased [ChatScenario.erased]
                "Pedido recusado" eq_refl eq_refl eq_refl
                ltac:(discriminate) (or_introl eq_refl) eq_refl eq_refl eq_refl)
    as (_ & Hmenu & Hgone & _ & Hed & Hcalls).
  split; [exact Hmenu |]. split; [exact Hgone |]. split; [exact Hed | exact Hcalls].
Defined.

(** * Further properties of the pages *)

(** ** The added definitions on sample inputs *)

Example autoCompleteTime_samples :
  map NovaReservaFields.autoCompleteTime
      ["7"; "07"; "073"; "0730"; "07:30"; "ab12cd"; "1a"; "07301545"; ""]%string
  = ["7"; "07:"; "07:3"; "07:30"; "07:30"; "12"; "1"; "07:30"; ""]%string.
Proof. vm_compute. reflexivity. Qed.

Example trim_samples :
  map JSString.trim ["  oi  "; "oi"; "   "; ""; " a b "]%string
  = ["oi"; "oi"; ""; ""; "a b"]%string.
Proof. vm_compute. reflexivity. Qed.

Example toLowerCase_sample : JSString.toLowerCase "Projetor HDMI-2" = "projetor hdmi-2"%string.
Proof. vm_compute. reflexivity. Qed.

Example includes_samples :
  map (JSString.includes "projetor hdmi") ["hdmi"; ""; "tor h"; "hdmi2"; "Projetor"]%string
  = [true; true; true; false; false].
Proof. vm_compute. reflexivity. Qed.

Example numberToString_samples :
  map JSString.numberToString [0; 7; 1741600000000; -5]
  = ["0"; "7"; "1741600000000"; "-5"]%string.
Proof. vm_compute. reflexivity. Qed.

Example viewedKey_sample :
  ComprasFinanceiroList.viewedKey "req-1" (ComprasFinanceiroList.mkMessage false 1741600000000)
  = "req-1-1741600000000"%string.
Proof. vm_compute. reflexivity. Qed.

Example textToSend_samples :
  (ChatAdminHandlers.textToSend "Segue a nota" None,
   ChatAdminHandlers.textToSend "" (Some (ChatAdminHandlers.mkFile "nota.pdf" "application/pdf" 2048)),
   ChatAdminHandlers.textToSend "  " (Some (ChatAdminHandlers.mkFile "nota.pdf" "application/pdf" 2048)))
  = ("Segue a nota", "Arquivo enviado: nota.pdf", "  ")%string.
Proof. vm_compute. reflexivity. Qed.

(** ** Typing a time *)

Section AutoCompleteFacts.

Import JS JSString NovaReserva NovaReservaFields.

Lemma replaceNonDigits_allDigits (s : string) :
  allChars isDigit (replaceNonDigits s) = true.
Proof.
  induction s as [| c s IH]; simpl; [reflexivity |].
  destruct (isDigit c) eqn:Hc; simpl; [rewrite Hc |]; exact IH.
Qed.

Lemma replaceNonDigits_id (s : string) :
  allChars isDigit s = true -> replaceNonDigits s = s.
Proof.
  induction s as [| c s IH]; simpl; [reflexivity |].
  intros H. apply andb_true_iff in H as [Hc Hs]. rewrite Hc, IH by exact Hs. reflexivity.
Qed.

Lemma digit_not_colon (c : ascii) : isDigit c = true -> Ascii.eqb c ":" = false.
Proof.
  intros H. apply in_range_bounds in H. change (code "9") with 57 in H.
  apply not_colon. lia.
Qed.

(** The six shapes [autoCompleteTime] can return, by the digits typed. *)
Lemma autoCompleteTime_cases (value : string) :
  let digits := replaceNonDigits value in
  allChars isDigit digits = true
  /\ match digits with
     | EmptyString => autoCompleteTime value = EmptyString
     | String a EmptyString => autoCompleteTime value = String a EmptyString
     | String a (String b EmptyString) =>
         autoCompleteTime value
         = if (String.length value =? 2)%nat
           then String a (String b (String ":" EmptyString))
           else String a (String b EmptyString)
     | String a (String b (String c EmptyString)) =>
         autoCompleteTime value = String a (String b (String ":" (String c EmptyString)))
     | String a (String b (String c (String d _))) =>
         autoCompleteTime value = timeText a b c d
     end.
Proof.
  intros digits. split; [apply replaceNonDigits_allDigits |].
  unfold autoCompleteTime. fold digits.
  destruct digits as [| a [| b [| c [| d rest]]]]; try reflexivity.
  all: simpl String.length; simpl Nat.leb; simpl Nat.eqb; simpl andb.
  - destruct (String.length value =? 2)%nat; reflexivity.
  - destruct rest; reflexivity.
Qed.

End AutoCompleteFacts.

Section AutoCompleteShape.

Import JS JSString NovaReserva NovaReservaFields.

Lemma test_timePrefix_upto (a b c d : ascii) :
  isDigit a = true -> isDigit b = true -> isDigit c = true -> isDigit d = true ->
  test timePrefix EmptyString = true
  /\ test timePrefix (String a EmptyString) = true
  /\ test timePrefix (String a (String b EmptyString)) = true
  /\ test timePrefix (String a (String b (String ":" EmptyString))) = true
  /\ test timePrefix (String a (String b (String ":" (String c EmptyString)))) = true
  /\ test timePrefix (timeText a b c d) = true.
Proof.
  intros Ha Hb Hc Hd.
  pose proof (digit_not_colon _ Ha) as Na. pose proof (digit_not_colon _ Hb) as Nb.
  pose proof (digit_not_colon _ Hc) as Nc. pose proof (digit_not_colon _ Hd) as Nd.
  unfold isDigit in Ha, Hb, Hc, Hd.
  unfold timePrefix, timeText, digit.
  repeat split; simpl; rewrite ?Ha; simpl; rewrite ?Hb, ?Nb; simpl;
    rewrite ?Hc, ?Nc; simpl; rewrite ?Hd, ?Nd; reflexivity.
Qed.

End AutoCompleteShape.

Import NovaReservaFields.

(** Whatever is typed in a time field, [autoCompleteTime] returns the
    beginning of a time text: at most five characters, digits everywhere
    but at the third place, which can only hold the colon. *)
Theorem autoCompleteTime_is_time_prefix (value : string) :
  JS.test timePrefix (autoCompleteTime value) = true
  /\ (String.length (autoCompleteTime value) <= 5)%nat
  /\ (forall i x, String.get i (autoCompleteTime value) = Some x ->
        if (i =? 2)%nat then x = ":"%char else JS.isDigit x = true).
Proof.
  destruct (autoCompleteTime_cases value) as [Hall Hcase].
  destruct (JSString.replaceNonDigits value) as [| a [| b [| c [| d rest]]]];
    simpl in Hall; rewrite ?andb_true_iff in Hall.
  - rewrite Hcase. repeat split; [simpl; lia |]. intros i x. destruct i; discriminate.
  - destruct Hall as [Ha _]. rewrite Hcase.
    split; [apply (test_timePrefix_upto a a a a); assumption |].
    split; [simpl; lia |].
    intros [| i] x; simpl; [intros [= <-]; exact Ha | destruct i; discriminate].
  - destruct Hall as (Ha & Hb & _). rewrite Hcase.
    destruct (String.length value =? 2)%nat.
    + split; [apply (test_timePrefix_upto a b a a); assumption |].
      split; [simpl; lia |].
      intros [| [| [| i]]] x; simpl; try (intros [= <-]; auto); destruct i; discriminate.
    + split; [apply (test_timePrefix_upto a b a a); assumption |].
      split; [simpl; lia |].
      intros [| [| i]] x; simpl; try (intros [= <-]; auto); destruct i; discriminate.
  - destruct Hall as (Ha & Hb & Hc & _). rewrite Hcase.
    split; [apply (test_timePrefix_upto a b c a); assumption |].
    split; [simpl; lia |].
    intros [| [| [| [| i]]]] x; simpl; try (intros [= <-]; auto); destruct i; discriminate.
  - destruct Hall as (Ha & Hb & Hc & Hd & _). rewrite Hcase.
    split; [apply (test_timePrefix_upto a b c d); assumption |].
    split; [simpl; lia |].
    intros [| [| [| [| [| i]]]]] x; simpl; try (intros [= <-]; auto);
      destruct i; discriminate.
Qed.

Section AutoCompleteDigits.

Import JS JSString NovaReserva.

Lemma replaceNonDigits_timeText (a b c d : ascii) :
  isDigit a = true -> isDigit b = true -> isDigit c = true -> isDigit d = true ->
  replaceNonDigits (timeText a b c d)
  = String a (String b (String c (String d EmptyString))).
Proof.
  intros Ha Hb Hc Hd. unfold timeText. simpl.
  rewrite Ha, Hb, Hc, Hd. reflexivity.
Qed.

Lemma autoCompleteTime_timeText (a b c d : ascii) :
  isDigit a = true -> isDigit b = true -> isDigit c = true -> isDigit d = true ->
  autoCompleteTime (timeText a b c d) = timeText a b c d.
Proof.
  intros Ha Hb Hc Hd.
  destruct (autoCompleteTime_cases (timeText a b c d)) as [_ Hcase].
  rewrite replaceNonDigits_timeText in Hcase by assumption. exact Hcase.
Qed.

End AutoCompleteDigits.

(** A text the schema accepts as a time passes through [autoCompleteTime]
    unchanged: what the field shows is what is validated. *)
Theorem autoCompleteTime_keeps_accepted_time (t : string) :
  JS.test NovaReserva.timePattern t = true ->
  autoCompleteTime t = t.
Proof.
  intros Ht.
  apply timePattern_inv in Ht as (h1 & h2 & m1 & m2 & -> & Hh & Hm1 & Hm2).
  apply autoCompleteTime_timeText; apply isDigit_bounds; lia.
Qed.

Lemma autoCompleteTime_keeps_accepted_time_witness :
  autoCompleteTime "18:45" = "18:45"%string.
Proof. apply autoCompleteTime_keeps_accepted_time. reflexivity. Defined.

(** Typing digits: after two characters, both digits, the colon is put in;
    processing that text again (as when the colon is erased and retyped)
    drops the colon; four digits come out as [dd:dd], whatever is typed
    after them. *)
Theorem autoCompleteTime_inserts_colon (a b c d : ascii) (more : string) :
  JS.isDigit a = true -> JS.isDigit b = true ->
  JS.isDigit c = true -> JS.isDigit d = true ->
  autoCompleteTime (String a (String b EmptyString))
  = String a (String b (String ":" EmptyString))
  /\ autoCompleteTime (String a (String b (String ":" EmptyString)))
     = String a (String b EmptyString)
  /\ autoCompleteTime (String a (String b (String c (String d more))))
     = NovaReserva.timeText a b c d.
Proof.
  intros Ha Hb Hc Hd. split; [| split].
  - destruct (autoCompleteTime_cases (String a (String b EmptyString))) as [_ Hcase].
    simpl in Hcase. rewrite Ha, Hb in Hcase. exact Hcase.
  - destruct (autoCompleteTime_cases (String a (String b (String ":" EmptyString))))
      as [_ Hcase].
    simpl in Hcase. rewrite Ha, Hb in Hcase. exact Hcase.
  - destruct (autoCompleteTime_cases (String a (String b (String c (String d more)))))
      as [_ Hcase].
    simpl in Hcase. rewrite Ha, Hb, Hc, Hd in Hcase. exact Hcase.
Qed.

Lemma autoCompleteTime_inserts_colon_witness :
  autoCompleteTime "07" = "07:"%string
  /\ autoCompleteTime "07:" = "07"%string
  /\ autoCompleteTime "073015" = "07:30"%string.
Proof.
  apply (autoCompleteTime_inserts_colon "0" "7" "3" "0" "15"); reflexivity.
Defined.

(** [autoCompleteTime] keeps the first four digits typed, in their order,
    and nothing else but the colon. *)
Theorem autoCompleteTime_keeps_first_digits (value : string) :
  JSString.replaceNonDigits (autoCompleteTime value)
  = JSString.substring 0 4 (JSString.replaceNonDigits value).
Proof.
  destruct (autoCompleteTime_cases value) as [Hall Hcase].
  destruct (JSString.replaceNonDigits value) as [| a [| b [| c [| d rest]]]];
    simpl in Hall; rewrite ?andb_true_iff in Hall.
  - rewrite Hcase. reflexivity.
  - destruct Hall as [Ha _]. rewrite Hcase. simpl. rewrite Ha. reflexivity.
  - destruct Hall as (Ha & Hb & _). rewrite Hcase.
    destruct (String.length value =? 2)%nat; simpl; rewrite Ha, Hb; reflexivity.
  - destruct Hall as (Ha & Hb & Hc & _). rewrite Hcase. simpl.
    rewrite Ha, Hb, Hc. reflexivity.
  - destruct Hall as (Ha & Hb & Hc & Hd & _). rewrite Hcase.
    rewrite replaceNonDigits_timeText by assumption.
    unfold JSString.substring. simpl. destruct rest; reflexivity.
Qed.

(** ** Selecting equipment *)

Section SelectionFacts.

Import NovaReserva.

Lemma isChecked_In (value : list string) (x : string) :
  isChecked value x = true <-> In x value.
Proof.
  unfold isChecked. rewrite existsb_exists. split.
  - intros (y & Hy & Heq). apply String.eqb_eq in Heq. subst. exact Hy.
  - intros H. exists x. split; [exact H | apply String.eqb_refl].
Qed.

Lemma filter_other_id (value : list string) (x : string) :
  ~ In x value -> List.filter (fun y => negb (String.eqb y x)) value = value.
Proof.
  induction value as [| y l IH]; simpl; intros Hn; [reflexivity |].
  destruct (String.eqb_spec y x) as [-> | Hne]; simpl.
  - exfalso. apply Hn. auto.
  - rewrite IH; [reflexivity | intros H; apply Hn; auto].
Qed.






End SelectionFacts.


(** Ticking and unticking an equipment box: a ticked box shows as ticked;
    unticking removes the equipment however often it was listed, so the
    box shows as unticked; the other boxes keep their state; and unticking
    right after ticking gives back the selection as it was. *)
Theorem onCheckedChange_toggles (value : list string) (itemId other : string) :
  isChecked (onCheckedChange value itemId true) itemId = true
  /\ isChecked (onCheckedChange value itemId false) itemId = false
  /\ (other <> itemId ->
      forall checked,
        isChecked (onCheckedChange value itemId checked) other = isChecked value other)
  /\ (isChecked value itemId = false ->
      onCheckedChange (onCheckedChange value itemId true) itemId false = value).
Proof.
  unfold onCheckedChange. repeat split.
  - apply isChecked_In, in_or_app. right. left. reflexivity.
  - apply not_true_is_false. rewrite isChecked_In, filter_In.
    intros [_ H]. rewrite String.eqb_refl in H. discriminate.
  - intros Hne checked. apply eq_true_iff_eq. rewrite !isChecked_In.
    destruct checked.
    + rewrite in_app_iff. simpl. split; [intros [H | [H | []]] | auto]; congruence.
    + rewrite filter_In. split; [tauto |]. intros H. split; [exact H |].
      apply negb_true_iff, String.eqb_neq. exact Hne.
  - intros Hun.
    assert (Hn : ~ In itemId value)
      by (rewrite <- isChecked_In; rewrite Hun; discriminate).
    rewrite List.filter_app. simpl. rewrite String.eqb_refl. simpl.
    rewrite app_nil_r. apply filter_other_id. exact Hn.
Qed.

Lemma onCheckedChange_toggles_witness :
  onCheckedChange (onCheckedChange ["projector1"; "tablet2"]%string "camera3" true)
    "camera3" false
  = ["projector1"; "tablet2"]%string.
Proof.
  apply (onCheckedChange_toggles ["projector1"; "tablet2"]%string "camera3" "camera3").
  reflexivity.
Defined.

(** ** The submission handler under failures *)

Section SubmissionFacts.

Import NovaReserva.

Variable label : string -> string.

Ltac run_no_conflict Hc :=
  rewrite <- (checkConflicts_isSubmitting label _ true _) in Hc;
  unfold onSubmit, try_catch_finally, bind, modify; cbv beta;
  rewrite checkConflicts_run, Hc;
  unfold addReservation, sendAdminNotification, call, toast, bind, modify, get, ret, throw;
  simpl; rewrite ?length_app; simpl; rewrite ?Nat.add_1_r.

(** No conflict, but [addReservation] is rejected. *)
Lemma onSubmit_add_rejected (p : Page) (v : FormValues) (w : World) :
  fst (checkConflicts label (argsOf v) w) = inr [] ->
  faults w (S (List.length (calls w))) = true ->
  onSubmit label p v w
  = (inr tt,
     set_isSubmitting false
       (set_toasts (fun ts => ts ++ [ToastError "Erro ao processar reserva"])
          (set_calls (fun cs => cs ++ [CallAddReservation (newReservation p v)])
             (set_calls (fun cs => cs ++ [CallCheckConflicts (argsOf v)])
                (set_isSubmitting true w))))).
Proof.
  intros Hc Hf. run_no_conflict Hc. rewrite Hf. reflexivity.
Qed.

(** The document is stored, then [sendAdminNotification] is rejected. *)
Lemma onSubmit_notify_rejected (p : Page) (v : FormValues) (w : World) :
  fst (checkConflicts label (argsOf v) w) = inr [] ->
  faults w (S (List.length (calls w))) = false ->
  faults w (S (S (List.length (calls w)))) = true ->
  onSubmit label p v w
  = (inr tt,
     set_isSubmitting false
       (set_toasts (fun ts => ts ++ [ToastError "Erro ao processar reserva"])
          (set_calls (fun cs => cs ++ [CallSendAdminNotification "Reserva"
                                         (userName p "Usuário")])
             (set_formResets S
                (set_toasts
                   (fun ts => ts ++ [ToastSuccess
                                       (if autoApproved p v
                                        then "Reserva aprovada automaticamente!"
                                        else "Solicitação enviada para aprovação")])
                   (set_store (fun rs => rs ++ [newReservation p v])
                      (set_calls (fun cs => cs ++ [CallAddReservation (newReservation p v)])
                         (set_calls (fun cs => cs ++ [CallCheckConflicts (argsOf v)])
                            (set_isSubmitting true w))))))))).
Proof.
  intros Hc Hf1 Hf2. run_no_conflict Hc. rewrite Hf1. simpl.
  rewrite ?length_app. simpl. rewrite ?Nat.add_1_r, Hf2. reflexivity.
Qed.

(** Every call goes through. *)
Lemma onSubmit_completed (p : Page) (v : FormValues) (w : World) :
  fst (checkConflicts label (argsOf v) w) = inr [] ->
  faults w (S (List.length (calls w))) = false ->
  faults w (S (S (List.length (calls w)))) = false ->
  onSubmit label p v w
  = (inr tt,
     set_isSubmitting false
       (set_outbox (fun ms => ms ++ [("Reserva", userName p "Usuário")])
          (set_calls (fun cs => cs ++ [CallSendAdminNotification "Reserva"
                                         (userName p "Usuário")])
             (set_formResets S
                (set_toasts
                   (fun ts => ts ++ [ToastSuccess
                                       (if autoApproved p v
                                        then "Reserva aprovada automaticamente!"
                                        else "Solicitação enviada para aprovação")])
                   (set_store (fun rs => rs ++ [newReservation p v])
                      (set_calls (fun cs => cs ++ [CallAddReservation (newReservation p v)])
                         (set_calls (fun cs => cs ++ [CallCheckConflicts (argsOf v)])
                            (set_isSubmitting true w))))))))).
Proof.
  intros Hc Hf1 Hf2. run_no_conflict Hc. rewrite Hf1. simpl.
  rewrite ?length_app. simpl. rewrite ?Nat.add_1_r, Hf2. reflexivity.
Qed.

End SubmissionFacts.

Section ResubmissionFacts.

Import NovaReserva.

Variable label : string -> string.

Lemma candidate_valid (i : FormInput) (v : FormValues) :
  formSchema i = Some v ->
  startMinute (windowOfArgs (argsOf v)) < endMinute (windowOfArgs (argsOf v))
  /\ resourceIds (windowOfArgs (argsOf v)) <> ∅.
Proof.
  intros Hv.
  pose proof (formSchema_inv i v Hv) as (_ & _ & _ & _ & _ & _ & Hsel & _ & _).
  pose proof (formSchema_times i v Hv)
    as (sh & sm & eh & em & Hsh & Heh & _ & _ & _ & _ & Hlt & _ & _).
  pose proof (minutes_of_hm _ _ _ Hsh) as [_ Hms].
  pose proof (minutes_of_hm _ _ _ Heh) as [_ Hme].
  split; [simpl; lia |].
  simpl. destruct (v_selectedEquipment v) as [| x l]; [contradiction |].
  simpl. intros Hempty.
  apply (not_elem_of_empty (C := gset string) x). rewrite <- Hempty.
  apply elem_of_union_l, elem_of_singleton. reflexivity.
Qed.

(** A stored reservation made from the same form values is found by the
    check. *)
Lemma check_finds_same_values (p : Page) (i : FormInput) (v : FormValues) (w : World)
    (cs : list Conflict) :
  formSchema i = Some v ->
  In (newReservation p v) (store w) ->
  fst (checkConflicts label (argsOf v) w) = inr cs ->
  cs <> [].
Proof.
  intros Hv Hin Hc Hnil. subst cs.
  destruct (candidate_valid i v Hv) as [Hdur Hres].
  unfold checkConflicts, call, listWindowsForDate, bind, modify, get, ret, throw in Hc.
  simpl in Hc. destruct (faults w (List.length (calls w))); [discriminate |].
  rewrite (findConflicts_valid label _ _ _ Hdur Hres) in Hc. simpl in Hc.
  injection Hc as Hc.
  set (C := windowOfArgs (argsOf v)) in *.
  set (W := windowOfReservation (newReservation p v)).
  assert (Hshared : shared C W = resourceIds C).
  { unfold shared, C, W. simpl. apply set_eq. intros x.
    rewrite elem_of_intersection. tauto. }
  assert (Hrel : relevant C W = true).
  { unfold relevant. rewrite Hshared.
    rewrite (bool_decide_eq_false_2 _ Hres). simpl.
    rewrite andb_true_r. apply andb_true_iff. split.
    - apply Z.eqb_refl.
    - unfold W. simpl. destruct (autoApproved p v); reflexivity. }
  assert (Hov : overlaps C W = true).
  { unfold overlaps, C, W in *. simpl in *. apply andb_true_iff.
    split; apply Z.ltb_lt; exact Hdur. }
  assert (HW : In W (List.filter (overlaps C)
                       (List.filter (relevant C)
                          (List.filter (fun o => date o =? toDateString (v_date v))
                             (map windowOfReservation (store w)))))).
  { apply filter_In. split; [| exact Hov].
    apply filter_In. split; [| exact Hrel].
    apply filter_In. split; [apply in_map; exact Hin | apply Z.eqb_refl]. }
  pose proof (flat_map_nil_inv _ _ Hc W HW) as Hemit.
  apply emit_nil in Hemit. rewrite Hshared in Hemit. contradiction.
Qed.

(** What a submission adds to the store: nothing, or the new document. *)
Lemma onSubmit_store (p : Page) (v : FormValues) (w : World) :
  store (snd (onSubmit label p v w)) = store w
  \/ store (snd (onSubmit label p v w)) = store w ++ [newReservation p v].
Proof.
  destruct (fst (checkConflicts label (argsOf v) w)) as [e | [| c cs]] eqn:Hc.
  - left. rewrite (onSubmit_check_failed label p v w e Hc). reflexivity.
  - destruct (onSubmit_no_conflict label p v w Hc) as (_ & _ & Hstore & _).
    rewrite Hstore. destruct (faults w (S (List.length (calls w)))); [left | right];
      rewrite ?app_nil_r; reflexivity.
  - left. rewrite (onSubmit_conflicts label p v w (c :: cs) Hc ltac:(discriminate)).
    reflexivity.
Qed.

End ResubmissionFacts.

(** [onSubmit] never rejects and never leaves the form busy: whatever the
    collaborators do, it returns normally with [isSubmitting] false, and
    it has shown at least one toast. *)
Theorem onSubmit_always_settles
    (label : string -> string) (p : Page) (v : FormValues) (w : World) :
  fst (onSubmit label p v w) = inr tt
  /\ isSubmitting (snd (onSubmit label p v w)) = false
  /\ exists shown, shown <> []
       /\ toasts (snd (onSubmit label p v w)) = toasts w ++ shown.
Proof.
  destruct (fst (checkConflicts label (argsOf v) w)) as [e | [| c cs]] eqn:Hc.
  - rewrite (onSubmit_check_failed label p v w e Hc). simpl.
    repeat split. eexists. split; [| reflexivity]. discriminate.
  - destruct (faults w (S (List.length (calls w)))) eqn:Hf1;
      [| destruct (faults w (S (S (List.length (calls w))))) eqn:Hf2].
    + rewrite (onSubmit_add_rejected label p v w Hc Hf1). simpl.
      repeat split. eexists. split; [| reflexivity]. discriminate.
    + rewrite (onSubmit_notify_rejected label p v w Hc Hf1 Hf2). simpl.
      repeat split. eexists. split; [| rewrite <- app_assoc; reflexivity]. discriminate.
    + rewrite (onSubmit_completed label p v w Hc Hf1 Hf2). simpl.
      repeat split. eexists. split; [| reflexivity]. discriminate.
  - rewrite (onSubmit_conflicts label p v w (c :: cs) Hc ltac:(discriminate)). simpl.
    repeat split. eexists. split; [| reflexivity]. discriminate.
Qed.

(** When the reservation has been stored and the notification to the
    administrators is then rejected, the reservation stays stored and the
    form stays cleared, no mail is recorded, and the user sees the success
    toast followed by the error toast of the handler. *)
Theorem onSubmit_notification_failure
    (label : string -> string) (p : Page) (v : FormValues) (w : World) :
  fst (checkConflicts label (argsOf v) w) = inr [] ->
  faults w (S (List.length (calls w))) = false ->
  faults w (S (S (List.length (calls w)))) = true ->
  let w' := snd (onSubmit label p v w) in
  store w' = store w ++ [newReservation p v]
  /\ formResets w' = S (formResets w)
  /\ outbox w' = outbox w
  /\ toasts w'
     = toasts w ++ [ToastSuccess (if autoApproved p v
                                  then "Reserva aprovada automaticamente!"
                                  else "Solicitação enviada para aprovação");
                    ToastError "Erro ao processar reserva"].
Proof.
  intros Hc Hf1 Hf2 w'. subst w'.
  rewrite (onSubmit_notify_rejected label p v w Hc Hf1 Hf2). simpl.
  repeat split. rewrite <- app_assoc. reflexivity.
Qed.

Lemma onSubmit_notification_failure_witness :
  let w := mkWorld [Scenario.booked] [] (fun n => Nat.eqb n 2) [] [] false 0 in
  let v := Scenario.valuesOf Scenario.touching in
  store (snd (onSubmit Scenario.names Scenario.page v w))
  = [Scenario.booked; newReservation Scenario.page v].
Proof.
  intros w v.
  apply (onSubmit_notification_failure Scenario.names Scenario.page v w); reflexivity.
Defined.

(** The form is cleared exactly when the reservation was stored: the
    number of resets grows by the number of documents added, which is at
    most one; and mail to the administrators is recorded only after a
    document was added. *)
Theorem onSubmit_resets_iff_stored
    (label : string -> string) (p : Page) (v : FormValues) (w : World) :
  let w' := snd (onSubmit label p v w) in
  exists added,
    store w' = store w ++ added
    /\ (added = [] \/ added = [newReservation p v])
    /\ formResets w' = (formResets w + List.length added)%nat
    /\ (outbox w' = outbox w
        \/ (added <> [] /\ outbox w' = outbox w ++ [("Reserva", userName p "Usuário")])).
Proof.
  intros w'. subst w'.
  destruct (fst (checkConflicts label (argsOf v) w)) as [e | [| c cs]] eqn:Hc.
  - rewrite (onSubmit_check_failed label p v w e Hc). simpl.
    exists []. rewrite app_nil_r, Nat.add_0_r. auto.
  - destruct (faults w (S (List.length (calls w)))) eqn:Hf1;
      [| destruct (faults w (S (S (List.length (calls w))))) eqn:Hf2].
    + rewrite (onSubmit_add_rejected label p v w Hc Hf1). simpl.
      exists []. rewrite app_nil_r, Nat.add_0_r. auto.
    + rewrite (onSubmit_notify_rejected label p v w Hc Hf1 Hf2). simpl.
      exists [newReservation p v]. simpl. rewrite Nat.add_1_r. auto.
    + rewrite (onSubmit_completed label p v w Hc Hf1 Hf2). simpl.
      exists [newReservation p v]. simpl. rewrite Nat.add_1_r.
      split; [reflexivity |]. split; [auto |]. split; [reflexivity |].
      right. split; [discriminate | reflexivity].
  - rewrite (onSubmit_conflicts label p v w (c :: cs) Hc ltac:(discriminate)). simpl.
    exists []. rewrite app_nil_r, Nat.add_0_r. auto.
Qed.

(** Submitting the same accepted values again right after they were stored
    stores nothing more: the second run either has its check rejected or
    finds the first reservation in conflict, and never reaches
    [addReservation]. *)
Theorem resubmission_stores_nothing
    (label : string -> string) (p : Page) (i : FormInput) (v : FormValues) (w : World) :
  formSchema i = Some v ->
  let w1 := snd (onSubmit label p v w) in
  store w1 <> store w ->
  store (snd (onSubmit label p v w1)) = store w1
  /\ callsDuring (onSubmit label p v) w1 = [CallCheckConflicts (argsOf v)].
Proof.
  intros Hv w1 Hstored.
  assert (Hin : In (newReservation p v) (store w1)).
  { destruct (onSubmit_store label p v w) as [Hsame | Hadd]; [contradiction |].
    unfold w1. rewrite Hadd. apply in_or_app. right. left. reflexivity. }
  destruct (fst (checkConflicts label (argsOf v) w1)) as [e | cs] eqn:Hc.
  - rewrite (callsDuring_check_failed label p v w1 e Hc).
    rewrite (onSubmit_check_failed label p v w1 e Hc). auto.
  - pose proof (check_finds_same_values label p i v w1 cs Hv Hin Hc) as Hne.
    rewrite (callsDuring_conflicts label p v w1 cs Hc Hne).
    rewrite (onSubmit_conflicts label p v w1 cs Hc Hne). auto.
Qed.

Lemma resubmission_stores_nothing_witness :
  let v := Scenario.valuesOf Scenario.touching in
  let w1 := snd (onSubmit Scenario.names Scenario.page v Scenario.world) in
  store (snd (onSubmit Scenario.names Scenario.page v w1)) = store w1.
Proof.
  intros v w1.
  apply (resubmission_stores_nothing Scenario.names Scenario.page Scenario.touching v
           Scenario.world eq_refl).
  intros H. apply (f_equal (@List.length _)) in H. vm_compute in H. discriminate.
Defined.

(** A day the calendar lets the user pick is an open date; so for values
    the schema accepted with such a day, the reservation is approved
    automatically exactly when it ends at or before 19:00 (minute 1140),
    and waits for approval otherwise. *)
Theorem pickable_day_is_approved_until_close
    (isDateInPast : Date -> bool) (p : Page) (i : FormInput) (v : FormValues) :
  formSchema i = Some v ->
  disabled isDateInPast p (v_date v) = false ->
  isDateAvailable p (v_date v) = true
  /\ (r_status (newReservation p v) = approved <-> minutes (v_endTime v) <= 1140)
  /\ (r_status (newReservation p v) = pending <-> 1140 < minutes (v_endTime v)).
Proof.
  intros Hv Hdis. unfold disabled in Hdis.
  apply orb_false_iff in Hdis as [_ Hav]. apply negb_false_iff in Hav.
  destruct (autoApproved_minutes p i v Hv) as [_ Hauto].
  split; [exact Hav |]. simpl. rewrite Hauto, Hav. simpl.
  destruct (Z.leb_spec (minutes (v_endTime v)) 1140); split; split;
    intros; try lia; try discriminate; reflexivity.
Qed.

Lemma pickable_day_is_approved_until_close_witness :
  r_status (newReservation Scenario.page (Scenario.valuesOf Scenario.touching)) = approved.
Proof.
  apply (pickable_day_is_approved_until_close (fun _ => false) Scenario.page
           Scenario.touching (Scenario.valuesOf Scenario.touching) eq_refl eq_refl).
  vm_compute. discriminate.
Defined.

(** ** The status change under failures *)

Section StatusChangeFacts.

Import ComprasFinanceiro ComprasFinanceiroList.

Ltac run_change :=
  unfold handleStatusChange, try_catch, try_catch_finally, updateDoc, createNotification,
    available, bind, modify, get, ret, throw.

Lemma handleStatusChange_idle (w : World) :
  selectedRequest w = None -> handleStatusChange w = (inr tt, w).
Proof. intros Hsel. run_change. rewrite Hsel. reflexivity. Qed.

(** The write is rejected: the database is down or the document is gone. *)
Lemma handleStatusChange_write_rejected (w : World) (selected : RequestData) :
  selectedRequest w = Some selected ->
  down w SvcFirestore = true
  \/ docs w !! (collectionName selected, id selected) = None ->
  handleStatusChange w = (inr tt, errorShown w).
Proof.
  intros Hsel Hbad. run_change. rewrite Hsel.
  destruct (down w SvcFirestore) eqn:Hdown; [reflexivity |].
  destruct Hbad as [Hd | Hnone]; [discriminate |].
  rewrite Hnone. reflexivity.
Qed.

(** The write goes through and the notification is rejected. *)
Lemma handleStatusChange_notice_rejected (w : World) (selected d : RequestData) :
  selectedRequest w = Some selected ->
  down w SvcFirestore = false ->
  docs w !! (collectionName selected, id selected) = Some d ->
  down w SvcNotifications = true ->
  handleStatusChange w
  = (inr tt,
     errorShown
       (set_docs (fun ds => <[(collectionName selected, id selected)
                              := with_status d (newStatus w)]> ds) w)).
Proof.
  intros Hsel Hup Hdoc Hn. run_change. rewrite Hsel, Hup, Hdoc. simpl.
  rewrite Hn. reflexivity.
Qed.

(** Both the write and the notification go through. *)
Lemma handleStatusChange_done (w : World) (selected d : RequestData) :
  selectedRequest w = Some selected ->
  down w SvcFirestore = false ->
  docs w !! (collectionName selected, id selected) = Some d ->
  down w SvcNotifications = false ->
  handleStatusChange w
  = (inr tt,
     setSelectedRequest (Some (with_status selected (newStatus w)))
       (set_invalidations S
          (set_toasts (fun ts => ts ++ [(true, "Status atualizado"%string)])
             (set_notifications (fun ns => ns ++ [statusNotice selected (newStatus w)])
                (set_docs (fun ds => <[(collectionName selected, id selected)
                                       := with_status d (newStatus w)]> ds) w))))).
Proof.
  intros Hsel Hup Hdoc Hn. run_change. rewrite Hsel, Hup, Hdoc. simpl.
  rewrite Hn. reflexivity.
Qed.

(** The four ways a press of "Atualizar" can end. *)
Lemma handleStatusChange_outcomes (w : World) :
  handleStatusChange w = (inr tt, w)
  \/ handleStatusChange w = (inr tt, errorShown w)
  \/ exists selected d,
       selectedRequest w = Some selected
       /\ docs w !! (collectionName selected, id selected) = Some d
       /\ (handleStatusChange w
           = (inr tt,
              errorShown
                (set_docs (fun ds => <[(collectionName selected, id selected)
                                       := with_status d (newStatus w)]> ds) w))
           \/ handleStatusChange w
              = (inr tt,
                 setSelectedRequest (Some (with_status selected (newStatus w)))
                   (set_invalidations S
                      (set_toasts (fun ts => ts ++ [(true, "Status atualizado"%string)])
                         (set_notifications
                            (fun ns => ns ++ [statusNotice selected (newStatus w)])
                            (set_docs
                               (fun ds => <[(collectionName selected, id selected)
                                            := with_status d (newStatus w)]> ds) w)))))).
Proof.
  destruct (selectedRequest w) as [selected |] eqn:Hsel;
    [| left; apply handleStatusChange_idle; exact Hsel].
  destruct (down w SvcFirestore) eqn:Hup;
    [right; left; apply (handleStatusChange_write_rejected w selected); auto |].
  destruct (docs w !! (collectionName selected, id selected)) as [d |] eqn:Hdoc;
    [| right; left; apply (handleStatusChange_write_rejected w selected); auto].
  right. right. exists selected, d. split; [reflexivity |]. split; [exact Hdoc |].
  destruct (down w SvcNotifications) eqn:Hn.
  - left. apply handleStatusChange_notice_rejected; assumption.
  - right. apply handleStatusChange_done; assumption.
Qed.

End StatusChangeFacts.

(** Pressing "Atualizar" never rejects, and it neither creates nor removes
    a document: every document other than the selected request's is left
    as it was, and the selected one can only change in its status. *)
Theorem status_change_touches_only_selected
    (w : ComprasFinanceiro.World) (k : string * string) :
  let w' := snd (ComprasFinanceiro.handleStatusChange w) in
  fst (ComprasFinanceiro.handleStatusChange w) = inr tt
  /\ (forall selected,
        ComprasFinanceiro.selectedRequest w = Some selected ->
        k <> (ComprasFinanceiro.collectionName selected, ComprasFinanceiro.id selected) ->
        ComprasFinanceiro.docs w' !! k = ComprasFinanceiro.docs w !! k)
  /\ (ComprasFinanceiro.selectedRequest w = None ->
      ComprasFinanceiro.docs w' !! k = ComprasFinanceiro.docs w !! k)
  /\ (ComprasFinanceiro.docs w !! k = None -> ComprasFinanceiro.docs w' !! k = None)
  /\ (forall d, ComprasFinanceiro.docs w !! k = Some d ->
        exists s, ComprasFinanceiro.docs w' !! k = Some (ComprasFinanceiro.with_status d s)).
Proof.
  intros w'. subst w'.
  assert (Hsame : forall d, ComprasFinanceiro.docs w !! k = Some d ->
            exists s, ComprasFinanceiro.docs w !! k
                      = Some (ComprasFinanceiro.with_status d s)).
  { intros d Hd. exists (ComprasFinanceiro.status d). rewrite Hd. destruct d; reflexivity. }
  destruct (handleStatusChange_outcomes w)
    as [Hrun | [Hrun | (selected & d0 & Hsel & Hdoc & [Hrun | Hrun])]];
    rewrite Hrun; simpl; (split; [reflexivity |]).
  1, 2: repeat split; auto.
  all: split;
    [intros s Hs Hk; rewrite Hsel in Hs; injection Hs as <-;
     apply lookup_insert_ne; congruence |].
  all: split; [rewrite Hsel; discriminate |].
  all: split.
  all: try (intros Hnone; rewrite lookup_insert_ne; [exact Hnone | congruence]).
  all: intros d Hd;
    destruct (decide ((ComprasFinanceiro.collectionName selected,
                       ComprasFinanceiro.id selected) = k)) as [<- | Hne];
    [rewrite lookup_insert_eq; rewrite Hdoc in Hd; injection Hd as <-; eauto
    | rewrite lookup_insert_ne by exact Hne; apply Hsame; exact Hd].
Qed.

Lemma status_change_touches_only_selected_witness :
  let request := ComprasFinanceiro.mkRequest "req-1" "purchases" "ana@eccos.example" pending in
  let other := ComprasFinanceiro.mkRequest "req-2" "purchases" "bia@eccos.example" completed in
  let w := ComprasFinanceiro.mkWorld
             {[("purchases", "req-1") := request; ("purchases", "req-2") := other]}%string []
             (fun _ => false) [] 0 (Some request) true approved in
  ComprasFinanceiro.docs (snd (ComprasFinanceiro.handleStatusChange w))
    !! ("purchases", "req-2")%string
  = Some other.
Proof.
  intros request other w.
  destruct (status_change_touches_only_selected w ("purchases", "req-2")%string)
    as (_ & Hother & _).
  rewrite (Hother request); [vm_compute; reflexivity | reflexivity | discriminate].
Defined.

(** When the write of the status is rejected (the database is down, or the
    selected request has no document any more), nothing is changed or
    sent: documents, notifications, the selected request and the query
    cache stay as they were, and one error toast is shown. *)
Theorem status_change_write_failure
    (w : ComprasFinanceiro.World) (selected : ComprasFinanceiro.RequestData) :
  ComprasFinanceiro.selectedRequest w = Some selected ->
  ComprasFinanceiro.down w SvcFirestore = true
  \/ ComprasFinanceiro.docs w
       !! (ComprasFinanceiro.collectionName selected, ComprasFinanceiro.id selected) = None ->
  let w' := snd (ComprasFinanceiro.handleStatusChange w) in
  ComprasFinanceiro.docs w' = ComprasFinanceiro.docs w
  /\ ComprasFinanceiro.notifications w' = ComprasFinanceiro.notifications w
  /\ ComprasFinanceiro.selectedRequest w' = ComprasFinanceiro.selectedRequest w
  /\ ComprasFinanceiro.invalidations w' = ComprasFinanceiro.invalidations w
  /\ ComprasFinanceiro.toasts w'
     = ComprasFinanceiro.toasts w ++ [(false, "Erro ao atualizar"%string)].
Proof.
  intros Hsel Hbad w'. subst w'.
  rewrite (handleStatusChange_write_rejected w selected Hsel Hbad). simpl. auto.
Qed.

Lemma status_change_write_failure_witness :
  let request := ComprasFinanceiro.mkRequest "req-1" "purchases" "ana@eccos.example" pending in
  let w := ComprasFinanceiro.mkWorld ∅ [] (fun _ => false) [] 0 (Some request) true approved in
  ComprasFinanceiro.notifications (snd (ComprasFinanceiro.handleStatusChange w)) = [].
Proof.
  intros request w.
  apply (status_change_write_failure w request eq_refl). right. reflexivity.
Defined.

(** When the status has been written and the notification is then
    rejected, the new status stays stored although the page shows its
    error toast; the selected request is not refreshed (the select keeps
    displaying the old status) and the query cache is not invalidated. *)
Theorem status_change_notification_failure
    (w : ComprasFinanceiro.World) (selected d : ComprasFinanceiro.RequestData) :
  ComprasFinanceiro.selectedRequest w = Some selected ->
  ComprasFinanceiro.down w SvcFirestore = false ->
  ComprasFinanceiro.docs w
    !! (ComprasFinanceiro.collectionName selected, ComprasFinanceiro.id selected) = Some d ->
  ComprasFinanceiro.down w SvcNotifications = true ->
  let w' := snd (ComprasFinanceiro.handleStatusChange w) in
  ComprasFinanceiro.storedStatus w'
    (ComprasFinanceiro.collectionName selected) (ComprasFinanceiro.id selected)
  = Some (ComprasFinanceiro.newStatus w)
  /\ ComprasFinanceiroList.selectShows w' = Some (ComprasFinanceiro.status selected)
  /\ ComprasFinanceiro.notifications w' = ComprasFinanceiro.notifications w
  /\ ComprasFinanceiro.invalidations w' = ComprasFinanceiro.invalidations w
  /\ ComprasFinanceiro.toasts w'
     = ComprasFinanceiro.toasts w ++ [(false, "Erro ao atualizar"%string)].
Proof.
  intros Hsel Hup Hdoc Hn w'. subst w'.
  rewrite (handleStatusChange_notice_rejected w selected d Hsel Hup Hdoc Hn).
  unfold ComprasFinanceiro.storedStatus, ComprasFinanceiroList.selectShows. simpl.
  rewrite lookup_insert_eq, Hsel. simpl. auto.
Qed.

Lemma status_change_notification_failure_witness :
  let request := ComprasFinanceiro.mkRequest "req-1" "purchases" "ana@eccos.example" pending in
  let w := ComprasFinanceiro.mkWorld {[("purchases", "req-1")%string := request]} []
             (fun s => match s with SvcNotifications => true | _ => false end)
             [] 0 (Some request) true approved in
  ComprasFinanceiro.storedStatus (snd (ComprasFinanceiro.handleStatusChange w))
    "purchases" "req-1"
  = Some approved.
Proof.
  intros request w.
  apply (status_change_notification_failure w request request eq_refl eq_refl);
    [vm_compute; reflexivity | reflexivity].
Defined.

(** The requester is never told of a change that was not stored: a press
    of "Atualizar" adds at most one notification, and when it adds one it
    is the notice of the new status, addressed to the selected request's
    [userEmail] alone, and that status is the one now stored. *)
Theorem status_change_notifies_only_stored_changes (w : ComprasFinanceiro.World) :
  let w' := snd (ComprasFinanceiro.handleStatusChange w) in
  ComprasFinanceiro.notifications w' = ComprasFinanceiro.notifications w
  \/ exists selected,
       ComprasFinanceiro.selectedRequest w = Some selected
       /\ ComprasFinanceiro.notifications w'
          = ComprasFinanceiro.notifications w
            ++ [ComprasFinanceiroList.statusNotice selected (ComprasFinanceiro.newStatus w)]
       /\ ComprasFinanceiro.recipients
            (ComprasFinanceiroList.statusNotice selected (ComprasFinanceiro.newStatus w))
          = [ComprasFinanceiro.userEmail selected]
       /\ ComprasFinanceiro.storedStatus w'
            (ComprasFinanceiro.collectionName selected) (ComprasFinanceiro.id selected)
          = Some (ComprasFinanceiro.newStatus w)
       /\ ComprasFinanceiroList.selectShows w' = Some (ComprasFinanceiro.newStatus w).
Proof.
  intros w'. subst w'.
  destruct (handleStatusChange_outcomes w)
    as [Hrun | [Hrun | (selected & d0 & Hsel & Hdoc & [Hrun | Hrun])]];
    rewrite Hrun; simpl; auto.
  right. exists selected. split; [exact Hsel |].
  unfold ComprasFinanceiro.storedStatus, ComprasFinanceiroList.selectShows. simpl.
  rewrite lookup_insert_eq. simpl. auto.
Qed.

(** The select displays the status of the opened request, but "Atualizar"
    writes [newStatus], which opening the details does not touch: pressed
    without picking an item, it stores the choice left from before
    (pending on a fresh page), whatever the request's status is. *)
Theorem update_without_choice_writes_previous_choice
    (w : ComprasFinanceiro.World) (request d : ComprasFinanceiro.RequestData) :
  ComprasFinanceiro.docs w
    !! (ComprasFinanceiro.collectionName request, ComprasFinanceiro.id request) = Some d ->
  ComprasFinanceiro.down w SvcFirestore = false ->
  let opened := snd (ComprasFinanceiro.perform [ComprasFinanceiro.OpenDetails request] w) in
  let w' := snd (ComprasFinanceiro.perform
                   [ComprasFinanceiro.OpenDetails request; ComprasFinanceiro.PressUpdate] w) in
  ComprasFinanceiroList.selectShows opened = Some (ComprasFinanceiro.status request)
  /\ ComprasFinanceiro.newStatus opened = ComprasFinanceiro.newStatus w
  /\ ComprasFinanceiro.storedStatus w'
       (ComprasFinanceiro.collectionName request) (ComprasFinanceiro.id request)
     = Some (ComprasFinanceiro.newStatus w).
Proof.
  intros Hdoc Hup opened w'. subst opened w'.
  split; [reflexivity |]. split; [reflexivity |].
  assert (Hrun : snd (ComprasFinanceiro.perform
                        [ComprasFinanceiro.OpenDetails request;
                         ComprasFinanceiro.PressUpdate] w)
                 = snd (ComprasFinanceiro.handleStatusChange
                          (ComprasFinanceiro.setIsDetailsOpen true
                             (ComprasFinanceiro.setSelectedRequest (Some request) w)))).
  { unfold ComprasFinanceiro.perform, ComprasFinanceiro.act, bind, modify, ret. simpl.
    destruct (ComprasFinanceiro.handleStatusChange _) as [[e | []] w1]; reflexivity. }
  rewrite Hrun. unfold ComprasFinanceiro.storedStatus.
  rewrite (handleStatusChange_writes _ request d); try assumption; try reflexivity.
  simpl. rewrite lookup_insert_eq. reflexivity.
Qed.

Lemma update_without_choice_writes_previous_choice_witness :
  let request := ComprasFinanceiro.mkRequest "req-1" "purchases" "ana@eccos.example" approved in
  let w := ComprasFinanceiro.mkWorld {[("purchases", "req-1")%string := request]} []
             (fun _ => false) [] 0 None false pending in
  ComprasFinanceiro.storedStatus
    (snd (ComprasFinanceiro.perform
            [ComprasFinanceiro.OpenDetails request; ComprasFinanceiro.PressUpdate] w))
    "purchases" "req-1"
  = Some pending.
Proof.
  intros request w.
  apply (update_without_choice_writes_previous_choice w request request);
    [vm_compute; reflexivity | reflexivity].
Defined.

(** ** Keys of viewed messages *)

Section KeyFacts.

Import JS JSString ComprasFinanceiroList.

Lemma string_of_uint_digits (d : Decimal.uint) :
  allChars isDigit (NilEmpty.string_of_uint d) = true.
Proof. induction d; simpl; try rewrite IHd; reflexivity. Qed.

Lemma numberToString_digits (z : Z) :
  0 <= z -> allChars isDigit (numberToString z) = true.
Proof.
  intros Hz. unfold numberToString. destruct z as [| p | p]; [reflexivity | | lia].
  simpl. unfold NilZero.string_of_uint.
  pose proof (string_of_uint_digits (Pos.to_uint p)) as Hd.
  destruct (Pos.to_uint p); [reflexivity | exact Hd ..].
Qed.

Lemma numberToString_inj (a b : Z) :
  numberToString a = numberToString b -> a = b.
Proof.
  unfold numberToString. intros H.
  assert (Hnn : forall z, Z.to_int z <> Decimal.Pos Decimal.Nil
                          /\ Z.to_int z <> Decimal.Neg Decimal.Nil).
  { intros [| p | p]; simpl; split; try discriminate;
      intros [= Hp]; exact (Unsigned.to_uint_nonnil p Hp). }
  apply DecimalZ.to_int_inj.
  assert (Hs : Some (Z.to_int a) = Some (Z.to_int b)).
  { rewrite <- (NilZero.isi (Z.to_int a)), <- (NilZero.isi (Z.to_int b)) by apply Hnn.
    rewrite H. reflexivity. }
  injection Hs as Hs. exact Hs.
Qed.

(** Two texts [a-x] and [b-y] whose tails [x] and [y] are digits are equal
    only if [a = b] and [x = y]: the last dash separates. *)
Lemma dash_split (a : string) :
  forall b x y,
    allChars isDigit x = true -> allChars isDigit y = true ->
    (a ++ String "-" x)%string = (b ++ String "-" y)%string -> a = b /\ x = y.
Proof.
  assert (Hclash : forall u x y,
            allChars isDigit x = true -> x <> (u ++ String "-" y)%string).
  { intros u x y Hx Heq. subst x. induction u as [| c u IH].
    - rewrite append_nil_l in Hx. simpl in Hx. discriminate.
    - rewrite append_cons in Hx. simpl in Hx.
      apply andb_true_iff in Hx as [_ Hx]. exact (IH Hx). }
  induction a as [| c a IH]; intros b x y Hx Hy.
  - rewrite append_nil_l. destruct b as [| d b].
    + rewrite append_nil_l. intros [= ->]. auto.
    + rewrite append_cons. intros [= <- Heq]. exfalso.
      exact (Hclash b x y Hx Heq).
  - rewrite append_cons. destruct b as [| d b].
    + rewrite append_nil_l. intros [= -> Heq]. exfalso.
      exact (Hclash a y x Hy (eq_sym Heq)).
    + rewrite append_cons. intros [= -> Heq].
      destruct (IH b x y Hx Hy Heq) as [-> ->]. auto.
Qed.

Lemma viewedKey_unfold (reqId : string) (m : Message) :
  viewedKey reqId m = (reqId ++ String "-" (numberToString (millis m)))%string.
Proof. reflexivity. Qed.

Lemma viewedKey_inj (id1 id2 : string) (m1 m2 : Message) :
  0 <= millis m1 -> 0 <= millis m2 ->
  viewedKey id1 m1 = viewedKey id2 m2 -> id1 = id2 /\ millis m1 = millis m2.
Proof.
  intros H1 H2 Heq. rewrite !viewedKey_unfold in Heq.
  apply dash_split in Heq as [Hid Hn]; try (apply numberToString_digits; assumption).
  split; [exact Hid | apply numberToString_inj; exact Hn].
Qed.

End KeyFacts.

(** ** Unread messages *)

Section UnreadFacts.

Import ComprasFinanceiroList.

Lemma markViewed_elem (full : Row) (k : string) :
  forall prev : gset string,
    k ∈ markViewed prev full
    <-> k ∈ prev
        \/ exists m, In m (messagesOf full) /\ isAdmin m = false
                     /\ k = viewedKey (row_id full) m.
Proof.
  unfold markViewed. induction (messagesOf full) as [| m l IH]; intros prev; simpl.
  - split; [auto | intros [H | (m & [] & _)]; exact H].
  - rewrite IH. destruct (isAdmin m) eqn:Hadm; simpl.
    + split.
      * intros [H | (m' & Hin & Hm')]; [auto | right; exists m'; auto].
      * intros [H | (m' & [<- | Hin] & Ha & Hk)]; [auto | congruence |].
        right. exists m'. auto.
    + rewrite elem_of_union, elem_of_singleton. split.
      * intros [[H | ->] | (m' & Hin & Hm')]; [auto | | right; exists m'; auto].
        right. exists m. auto.
      * intros [H | (m' & [<- | Hin] & Ha & Hk)]; [auto | auto |].
        right. exists m'. auto.
Qed.

Lemma checkUnread_entry (viewed : gset string) (all : list Row) (k : string) (n : Z) :
  forall acc : gmap string Z,
    fold_left
      (fun newUnread req =>
         if 0 <? unreadCount viewed req
         then <[row_id req := unreadCount viewed req]> newUnread else newUnread)
      all acc !! k = Some n ->
    acc !! k = Some n
    \/ exists req, In req all /\ row_id req = k /\ n = unreadCount viewed req /\ 0 < n.
Proof.
  induction all as [| r l IH]; intros acc; simpl; [auto |].
  intros H. apply IH in H as [H | (req & Hin & Hreq)]; [| right; exists req; tauto].
  destruct (Z.ltb_spec 0 (unreadCount viewed r)) as [Hpos | _]; [| auto].
  destruct (decide (row_id r = k)) as [Hk | Hk].
  - rewrite <- Hk, lookup_insert_eq in H. injection H as <-.
    right. exists r. auto.
  - rewrite lookup_insert_ne in H by exact Hk. auto.
Qed.

Lemma checkUnread_absent (viewed : gset string) (all : list Row) (k : string) :
  forall acc : gmap string Z,
    ~ In k (map row_id all) ->
    fold_left
      (fun newUnread req =>
         if 0 <? unreadCount viewed req
         then <[row_id req := unreadCount viewed req]> newUnread else newUnread)
      all acc !! k = acc !! k.
Proof.
  induction all as [| r l IH]; intros acc Hk; simpl; [reflexivity |].
  simpl in Hk. rewrite IH by tauto.
  destruct (0 <? unreadCount viewed r); [| reflexivity].
  apply lookup_insert_ne. tauto.
Qed.

Lemma checkUnread_present (viewed : gset string) (all : list Row) (req : Row) :
  forall acc : gmap string Z,
    NoDup (map row_id all) -> In req all ->
    fold_left
      (fun newUnread r =>
         if 0 <? unreadCount viewed r
         then <[row_id r := unreadCount viewed r]> newUnread else newUnread)
      all acc !! row_id req
    = if 0 <? unreadCount viewed req then Some (unreadCount viewed req)
      else acc !! row_id req.
Proof.
  induction all as [| r l IH]; intros acc Hnd Hin; [destruct Hin |].
  simpl in Hnd. apply NoDup_cons in Hnd as [Hr Hnd]. simpl.
  destruct Hin as [-> | Hin].
  - rewrite checkUnread_absent by (rewrite <- list_elem_of_In; exact Hr).
    destruct (0 <? unreadCount viewed req); [apply lookup_insert_eq | reflexivity].
  - rewrite (IH _ Hnd Hin).
    destruct (0 <? unreadCount viewed req); [reflexivity |].
    destruct (0 <? unreadCount viewed r); [| reflexivity].
    apply lookup_insert_ne. intros Heq. apply Hr.
    rewrite list_elem_of_In, Heq. apply in_map. exact Hin.
Qed.

Lemma unreadCount_zero (viewed : gset string) (req : Row) :
  (forall m, In m (messagesOf req) -> isAdmin m = false ->
             viewedKey (row_id req) m ∈ viewed) ->
  unreadCount viewed req = 0.
Proof.
  unfold unreadCount. induction (messagesOf req) as [| m l IH]; intros H; [reflexivity |].
  simpl. destruct (isAdmin m) eqn:Ha; simpl.
  - apply IH. intros m' Hin. apply H. right. exact Hin.
  - rewrite bool_decide_eq_true_2 by (apply H; [left; reflexivity | exact Ha]). simpl.
    apply IH. intros m' Hin. apply H. right. exact Hin.
Qed.

Lemma unreadCount_ext (viewed viewed' : gset string) (req : Row) :
  (forall m, In m (messagesOf req) ->
             viewedKey (row_id req) m ∈ viewed' <-> viewedKey (row_id req) m ∈ viewed) ->
  unreadCount viewed' req = unreadCount viewed req.
Proof.
  unfold unreadCount. intros H. f_equal. f_equal.
  apply filter_ext_in. intros m Hm. f_equal. f_equal.
  apply bool_decide_ext. apply H. exact Hm.
Qed.

End UnreadFacts.

(** The unread badges: an entry of the map computed by
    [checkUnreadMessages] is always positive and is the unread count of a
    listed request with that id; and when the ids of the listed requests
    are distinct, a request has an entry exactly when it has unread
    messages, the entry being their number. *)
Theorem checkUnreadMessages_badges
    (allRequests : list ComprasFinanceiroList.Row) (viewed : gset string) :
  (forall k n,
     ComprasFinanceiroList.checkUnreadMessages allRequests viewed !! k = Some n ->
     0 < n /\ exists req, In req allRequests /\ ComprasFinanceiroList.row_id req = k
                          /\ n = ComprasFinanceiroList.unreadCount viewed req)
  /\ (NoDup (map ComprasFinanceiroList.row_id allRequests) ->
      forall req, In req allRequests ->
        ComprasFinanceiroList.checkUnreadMessages allRequests viewed
          !! ComprasFinanceiroList.row_id req
        = if 0 <? ComprasFinanceiroList.unreadCount viewed req
          then Some (ComprasFinanceiroList.unreadCount viewed req) else None).
Proof.
  unfold ComprasFinanceiroList.checkUnreadMessages. split.
  - intros k n H. apply checkUnread_entry in H as [H | (req & Hin & Hk & Hn & Hpos)].
    + rewrite lookup_empty in H. discriminate.
    + split; [exact Hpos | exists req; auto].
  - intros Hnd req Hin. rewrite (checkUnread_present viewed allRequests req ∅ Hnd Hin).
    rewrite lookup_empty. reflexivity.
Qed.

Lemma checkUnreadMessages_badges_witness :
  let user := ComprasFinanceiroList.mkMessage false 1741600000000 in
  let admin := ComprasFinanceiroList.mkMessage true 1741600050000 in
  let req := ComprasFinanceiroList.mkRow "req-1" "purchase" (Some "Compra Pedagógica"%string)
               (Some "Ana"%string) None (Some "Projetor"%string) pending
               (Some [user; admin; user]) in
  ComprasFinanceiroList.checkUnreadMessages [req] ∅ !! "req-1"%string = Some 2.
Proof.
  intros user admin req.
  destruct (checkUnreadMessages_badges [req] ∅) as [_ H].
  assert (Hnd : NoDup (map ComprasFinanceiroList.row_id [req])).
  { repeat constructor. rewrite list_elem_of_In. simpl. tauto. }
  etransitivity; [exact (H Hnd req (or_introl eq_refl)) | vm_compute; reflexivity].
Defined.

(** Opening the chat of a request clears its badge, and the badge does not
    come back when the counts are computed again: every message of that
    request that was fetched now counts as viewed, so a listed request
    with the same id whose messages are among the fetched ones has no
    unread message and no entry. *)
Theorem handleOpenChat_clears_badge
    (full : ComprasFinanceiroList.Row) (s : ComprasFinanceiroList.ChatState)
    (allRequests : list ComprasFinanceiroList.Row) :
  let s' := ComprasFinanceiroList.handleOpenChat (Some full) s in
  ComprasFinanceiroList.unreadMessages s' !! ComprasFinanceiroList.row_id full = None
  /\ ComprasFinanceiroList.isChatOpen s' = true
  /\ ((forall req, In req allRequests ->
         ComprasFinanceiroList.row_id req = ComprasFinanceiroList.row_id full ->
         incl (ComprasFinanceiroList.messagesOf req) (ComprasFinanceiroList.messagesOf full)) ->
      ComprasFinanceiroList.checkUnreadMessages allRequests
        (ComprasFinanceiroList.viewedRequests s')
        !! ComprasFinanceiroList.row_id full = None).
Proof.
  intros s'. subst s'. simpl. split; [apply lookup_delete_eq |]. split; [reflexivity |].
  intros Hmsgs.
  destruct (ComprasFinanceiroList.checkUnreadMessages allRequests _ !! _) as [n |] eqn:Hn;
    [| reflexivity].
  exfalso. unfold ComprasFinanceiroList.checkUnreadMessages in Hn.
  apply checkUnread_entry in Hn as [Hn | (req & Hin & Hid & Hcount & Hpos)];
    [rewrite lookup_empty in Hn; discriminate |].
  rewrite unreadCount_zero in Hcount; [lia |].
  intros m Hm Ha. apply markViewed_elem. right. exists m.
  split; [apply (Hmsgs req Hin Hid); exact Hm |]. split; [exact Ha |].
  rewrite Hid. reflexivity.
Qed.

Lemma handleOpenChat_clears_badge_witness :
  let user := ComprasFinanceiroList.mkMessage false 1741600000000 in
  let req := ComprasFinanceiroList.mkRow "req-1" "purchase" (Some "Compra Pedagógica"%string)
               (Some "Ana"%string) None (Some "Projetor"%string) pending (Some [user]) in
  let s := ComprasFinanceiroList.mkChatState None ∅ {["req-1"%string := 1]} false [] in
  ComprasFinanceiroList.checkUnreadMessages [req]
    (ComprasFinanceiroList.viewedRequests (ComprasFinanceiroList.handleOpenChat (Some req) s))
    !! "req-1"%string = None.
Proof.
  intros user req s.
  apply (handleOpenChat_clears_badge req s [req]).
  intros r [<- | []] _. apply incl_refl.
Defined.

(** Opening the chat of one request leaves the unread count of every
    request with another id as it was, provided the timestamps involved
    are not negative: then the keys [id-millis] of two requests cannot
    coincide. *)
Theorem handleOpenChat_keeps_other_counts
    (full req : ComprasFinanceiroList.Row) (s : ComprasFinanceiroList.ChatState) :
  ComprasFinanceiroList.row_id req <> ComprasFinanceiroList.row_id full ->
  (forall m, In m (ComprasFinanceiroList.messagesOf full) ->
             0 <= ComprasFinanceiroList.millis m) ->
  (forall m, In m (ComprasFinanceiroList.messagesOf req) ->
             0 <= ComprasFinanceiroList.millis m) ->
  ComprasFinanceiroList.unreadCount
    (ComprasFinanceiroList.viewedRequests (ComprasFinanceiroList.handleOpenChat (Some full) s))
    req
  = ComprasFinanceiroList.unreadCount (ComprasFinanceiroList.viewedRequests s) req.
Proof.
  intros Hid Hfull Hreq. simpl. apply unreadCount_ext. intros m Hm.
  rewrite markViewed_elem. split; [| auto].
  intros [H | (m' & Hin' & _ & Hk)]; [exact H |]. exfalso.
  apply viewedKey_inj in Hk as [Hk _]; auto.
Qed.

Lemma handleOpenChat_keeps_other_counts_witness :
  let user := ComprasFinanceiroList.mkMessage false 1741600000000 in
  let opened := ComprasFinanceiroList.mkRow "req-1" "purchase" None None None None pending
                  (Some [user]) in
  let other := ComprasFinanceiroList.mkRow "req-2" "purchase" None None None None pending
                 (Some [user]) in
  let s := ComprasFinanceiroList.mkChatState None ∅ ∅ false [] in
  ComprasFinanceiroList.unreadCount
    (ComprasFinanceiroList.viewedRequests
       (ComprasFinanceiroList.handleOpenChat (Some opened) s)) other
  = 1.
Proof.
  intros user opened other s.
  rewrite (handleOpenChat_keeps_other_counts opened other s).
  - vm_compute. reflexivity.
  - discriminate.
  - intros m [<- | []]. vm_compute. discriminate.
  - intros m [<- | []]. vm_compute. discriminate.
Defined.

(** With a negative timestamp two requests can share a key: the message
    at -5 of request [a] and the message at 5 of request [a-] are both
    recorded as [a--5]. *)
Example viewedKey_clash :
  ComprasFinanceiroList.viewedKey "a" (ComprasFinanceiroList.mkMessage false (-5))
  = ComprasFinanceiroList.viewedKey "a-" (ComprasFinanceiroList.mkMessage false 5).
Proof. reflexivity. Qed.

(** ** The list of purchase requests *)

Section ListFacts.

Import JSString ComprasFinanceiroList.

Lemma includes_empty (s : string) : includes s EmptyString = true.
Proof. destruct s; simpl; reflexivity. Qed.

Lemma typeSelected_In (selectedTypes : list string) (tipo : option string) :
  typeSelected selectedTypes tipo = true
  <-> exists t, tipo = Some t /\ In t selectedTypes.
Proof.
  unfold typeSelected. destruct tipo as [t |].
  - rewrite existsb_exists. split.
    + intros (x & Hx & Heq). apply String.eqb_eq in Heq. subst. eauto.
    + intros (x & [= <-] & Hx). exists t. split; [exact Hx | apply String.eqb_refl].
  - split; [discriminate | intros (t & Ht & _); discriminate].
Qed.

(** The three searched fields, as one condition. *)
Lemma holds_fields (req : Row) (search : string) :
  holds (orValue (orValue (fieldIncludes (row_userName req) search)
                          (fieldIncludes (row_userEmail req) search))
                 (fieldIncludes (row_itemName req) search)) = true
  <-> exists f, (row_userName req = Some f \/ row_userEmail req = Some f
                 \/ row_itemName req = Some f)
                /\ includes (toLowerCase f) search = true.
Proof.
  unfold fieldIncludes.
  destruct (row_userName req) as [a |], (row_userEmail req) as [b |],
    (row_itemName req) as [c |]; simpl;
    repeat match goal with
           | |- context [includes (toLowerCase ?f) search] =>
               let H := fresh "Hinc" in
               destruct (includes (toLowerCase f) search) eqn:H; simpl
           end;
    (split;
     [ try discriminate; intros _; eauto 6
     | try reflexivity; intros (f & [Hf | [Hf | Hf]] & Hi); try discriminate;
       injection Hf as <-; congruence ]).
Qed.

Lemma matchesSearch_iff (searchTerm : string) (selectedTypes : list string) (req : Row) :
  matchesSearch searchTerm selectedTypes req = true
  <-> (exists f, (row_userName req = Some f \/ row_userEmail req = Some f
                  \/ row_itemName req = Some f)
                 /\ includes (toLowerCase f) (toLowerCase searchTerm) = true)
      /\ exists t, row_tipo req = Some t /\ In t selectedTypes.
Proof.
  unfold matchesSearch. rewrite <- holds_fields, <- typeSelected_In.
  destruct (holds _); split; try tauto; try discriminate.
Qed.

Lemma filteredRequests_In (allRequests : list Row) (searchTerm : string)
    (selectedTypes : list string) (req : Row) :
  In req (filteredRequests allRequests searchTerm selectedTypes)
  <-> In req allRequests /\ row_type req = "purchase"%string
      /\ matchesSearch searchTerm selectedTypes req = true.
Proof.
  unfold filteredRequests. rewrite !filter_In, String.eqb_eq. tauto.
Qed.

Lemma selectedAfter_subset (events : list (string * bool)) :
  Forall (fun ev => In (fst ev) purchaseTypes) events ->
  forall start,
    (forall t, In t start -> In t purchaseTypes) ->
    forall t,
      In t (fold_left (fun sel ev => onTypeCheckedChange sel (fst ev) (snd ev)) events start) ->
      In t purchaseTypes.
Proof.
  induction 1 as [| [type checked] events Hev _ IH]; intros start Hstart t; simpl;
    [apply Hstart |].
  apply IH. intros u. unfold onTypeCheckedChange. simpl in Hev. destruct checked.
  - rewrite in_app_iff. intros [Hu | [<- | []]]; [apply Hstart; exact Hu | exact Hev].
  - rewrite filter_In. intros [Hu _]. apply Hstart. exact Hu.
Qed.

End ListFacts.

(** Whatever is typed in the search box, the list never shows a request
    that is not a purchase, nor one whose [tipo] is absent or not ticked
    in the type filter, nor one that has neither a user name, nor a user
    e-mail, nor an item name; and it shows listed requests only. *)
Theorem filteredRequests_never_lists
    (allRequests : list ComprasFinanceiroList.Row) (searchTerm : string)
    (selectedTypes : list string) (req : ComprasFinanceiroList.Row) :
  In req (ComprasFinanceiroList.filteredRequests allRequests searchTerm selectedTypes) ->
  In req allRequests
  /\ ComprasFinanceiroList.row_type req = "purchase"%string
  /\ (exists t, ComprasFinanceiroList.row_tipo req = Some t /\ In t selectedTypes)
  /\ (ComprasFinanceiroList.row_userName req <> None
      \/ ComprasFinanceiroList.row_userEmail req <> None
      \/ ComprasFinanceiroList.row_itemName req <> None).
Proof.
  intros H. apply filteredRequests_In in H as (Hin & Hty & Hm).
  apply matchesSearch_iff in Hm as [(f & Hf & _) Htipo].
  repeat split; try assumption.
  destruct Hf as [Hf | [Hf | Hf]]; rewrite Hf; [left | right; left | right; right];
    discriminate.
Qed.

Lemma filteredRequests_never_lists_witness :
  let nameless := ComprasFinanceiroList.mkRow "req-9" "purchase"
                    (Some "Compra Pedagógica"%string) None None None pending None in
  ComprasFinanceiroList.filteredRequests [nameless] "" ComprasFinanceiroList.purchaseTypes
  = [].
Proof.
  intros nameless.
  destruct (ComprasFinanceiroList.filteredRequests [nameless] ""
              ComprasFinanceiroList.purchaseTypes) as [| r l] eqn:Hlist; [reflexivity |].
  exfalso.
  destruct (filteredRequests_never_lists [nameless] "" ComprasFinanceiroList.purchaseTypes r)
    as (Hin & _ & _ & Hfield).
  - rewrite Hlist. left. reflexivity.
  - destruct Hin as [<- | []]. destruct Hfield as [H | [H | H]]; apply H; reflexivity.
Defined.

(** With an empty search box the list shows exactly the purchases whose
    [tipo] is ticked and that have a user name, a user e-mail or an item
    name. *)
Theorem filteredRequests_empty_search
    (allRequests : list ComprasFinanceiroList.Row) (selectedTypes : list string)
    (req : ComprasFinanceiroList.Row) :
  In req (ComprasFinanceiroList.filteredRequests allRequests "" selectedTypes)
  <-> In req allRequests
      /\ ComprasFinanceiroList.row_type req = "purchase"%string
      /\ (exists t, ComprasFinanceiroList.row_tipo req = Some t /\ In t selectedTypes)
      /\ (ComprasFinanceiroList.row_userName req <> None
          \/ ComprasFinanceiroList.row_userEmail req <> None
          \/ ComprasFinanceiroList.row_itemName req <> None).
Proof.
  rewrite filteredRequests_In, matchesSearch_iff. simpl.
  split.
  - intros (Hin & Hty & (f & Hf & _) & Htipo). repeat split; try assumption.
    destruct Hf as [Hf | [Hf | Hf]]; rewrite Hf; [left | right; left | right; right];
      discriminate.
  - intros (Hin & Hty & Htipo & Hf). repeat split; try assumption.
    destruct (ComprasFinanceiroList.row_userName req) as [a |] eqn:Ha;
      [exists a; split; [auto | apply includes_empty] |].
    destruct (ComprasFinanceiroList.row_userEmail req) as [b |] eqn:Hb;
      [exists b; split; [auto | apply includes_empty] |].
    destruct (ComprasFinanceiroList.row_itemName req) as [c |] eqn:Hc;
      [exists c; split; [auto | apply includes_empty] |].
    destruct Hf as [H | [H | H]]; contradiction.
Qed.

(** Ticking and unticking items of the type filter never selects anything
    but the three purchase types; so a purchase whose [tipo] is not one of
    them is never listed, whatever is ticked and typed. *)
Theorem type_filter_stays_within_purchaseTypes
    (events : list (string * bool)) (allRequests : list ComprasFinanceiroList.Row)
    (searchTerm : string) (req : ComprasFinanceiroList.Row) :
  Forall (fun ev => In (fst ev) ComprasFinanceiroList.purchaseTypes) events ->
  (forall t, In t (ComprasFinanceiroList.selectedAfter events) ->
             In t ComprasFinanceiroList.purchaseTypes)
  /\ (In req (ComprasFinanceiroList.filteredRequests allRequests searchTerm
                (ComprasFinanceiroList.selectedAfter events)) ->
      exists t, ComprasFinanceiroList.row_tipo req = Some t
                /\ In t ComprasFinanceiroList.purchaseTypes).
Proof.
  intros Hev.
  assert (Hsub : forall t, In t (ComprasFinanceiroList.selectedAfter events) ->
                           In t ComprasFinanceiroList.purchaseTypes).
  { intros t. unfold ComprasFinanceiroList.selectedAfter.
    apply (selectedAfter_subset events Hev). auto. }
  split; [exact Hsub |].
  intros Hin. apply filteredRequests_In in Hin as (_ & _ & Hm).
  apply matchesSearch_iff in Hm as [_ (t & Ht & Hsel)].
  exists t. split; [exact Ht | apply Hsub; exact Hsel].
Qed.

Lemma type_filter_stays_within_purchaseTypes_witness :
  In "Compra Administrativa"%string ComprasFinanceiroList.purchaseTypes.
Proof.
  apply (proj1 (type_filter_stays_within_purchaseTypes
                  [("Compra Administrativa"%string, false);
                   ("Compra Administrativa"%string, true)]
                  [] "" (ComprasFinanceiroList.mkRow "" "" None None None None pending None)
                  ltac:(repeat constructor; simpl; tauto))).
  vm_compute. tauto.
Defined.

(** The figures above the list: the pending and the approved requests are
    counted apart and together never exceed the total, which is at most
    the number of purchases among all requests. *)
Theorem purchase_statistics_bounds
    (allRequests : list ComprasFinanceiroList.Row) (searchTerm : string)
    (selectedTypes : list string) :
  let filtered := ComprasFinanceiroList.filteredRequests allRequests searchTerm selectedTypes in
  (ComprasFinanceiroList.pendingRequests filtered
   + ComprasFinanceiroList.approvedRequests filtered
   <= ComprasFinanceiroList.totalRequests filtered)%nat
  /\ (ComprasFinanceiroList.totalRequests filtered
      <= List.length
           (List.filter (fun req => String.eqb (ComprasFinanceiroList.row_type req) "purchase")
              allRequests))%nat.
Proof.
  intros filtered. split.
  - unfold ComprasFinanceiroList.pendingRequests, ComprasFinanceiroList.approvedRequests,
      ComprasFinanceiroList.totalRequests.
    induction filtered as [| r l IH]; simpl; [lia |].
    destruct (ComprasFinanceiroList.row_status r); simpl; lia.
  - unfold ComprasFinanceiroList.totalRequests, filtered,
      ComprasFinanceiroList.filteredRequests.
    apply filter_length_le.
Qed.

(** ** Sending a chat message *)

Section SendFacts.

Import ChatAdminHandlers.

Variable uploaded : File -> string -> FileAttachment.

Ltac run_send :=
  unfold handleSendMessage, uploadFile, call, try_catch_finally, bind, modify, get, ret, throw.

(** The guard of [handleSendMessage] stops it. *)
Lemma handleSendMessage_idle (s : State) :
  request s = None \/ currentUser s = None
  \/ (blank (newMessage s) = true /\ selectedFile s = None) ->
  handleSendMessage uploaded s = (inr tt, s).
Proof.
  intros H. run_send.
  destruct (request s) as [req |]; [| reflexivity].
  destruct (currentUser s) as [user |]; [| reflexivity].
  destruct H as [H | [H | [Hb Hf]]]; try discriminate.
  rewrite Hb, Hf. reflexivity.
Qed.

(** A draft without a file. *)
Lemma handleSendMessage_text (s : State) (req : Request) (user : User) :
  request s = Some req -> currentUser s = Some user ->
  blank (newMessage s) = false -> selectedFile s = None ->
  handleSendMessage uploaded s
  = (inr tt,
     if faults s (List.length (calls s))
     then setIsLoading false
            (toast false "Erro ao enviar mensagem"
               (set_calls (fun cs => cs ++ [sendCall req user s None]) (setIsLoading true s)))
     else setIsLoading false
            (onMessageSent
               (toast true "Mensagem enviada"
                  (setUploadProgress 0
                     (setSelectedFile None
                        (setNewMessage EmptyString
                           (set_calls (fun cs => cs ++ [sendCall req user s None])
                              (setIsLoading true s)))))))).
Proof.
  intros Hreq Huser Hb Hf. run_send. rewrite Hreq, Huser, Hb, Hf. simpl.
  unfold sendCall. rewrite Hf.
  destruct (faults s (List.length (calls s))); reflexivity.
Qed.

(** A file is selected. *)
Lemma handleSendMessage_file (s : State) (req : Request) (user : User) (f : File) :
  request s = Some req -> currentUser s = Some user -> selectedFile s = Some f ->
  let n := List.length (calls s) in
  let a := uploaded f (requestId req) in
  let s1 := set_calls (fun cs => cs ++ [CallUploadFile f (requestId req)])
              (setUploadProgress 0 (setIsLoading true s)) in
  let s2 := set_calls (fun cs => cs ++ [sendCall req user s (Some a)])
              (setUploadProgress 100 s1) in
  handleSendMessage uploaded s
  = (inr tt,
     if faults s n
     then setIsLoading false (toast false "Erro ao enviar mensagem" s1)
     else if faults s (S n)
          then setIsLoading false (toast false "Erro ao enviar mensagem" s2)
          else setIsLoading false
                 (onMessageSent
                    (toast true "Mensagem enviada"
                       (setUploadProgress 0
                          (setSelectedFile None (setNewMessage EmptyString s2)))))).
Proof.
  intros Hreq Huser Hf n a s1 s2. subst n a s1 s2. run_send.
  rewrite Hreq, Huser, Hf. rewrite andb_false_r. simpl.
  unfold sendCall. rewrite Hf.
  destruct (faults s (List.length (calls s))); [reflexivity |]. simpl.
  rewrite length_app. simpl. rewrite Nat.add_1_r.
  destruct (faults s (S (List.length (calls s)))); reflexivity.
Qed.

End SendFacts.

Section ChatInvariant.

Import ChatAdminHandlers.

Variable uploaded : File -> string -> FileAttachment.

Lemma uploadsWithinLimit_app (cs new : list Call) :
  uploadsWithinLimit cs -> uploadsWithinLimit new -> uploadsWithinLimit (cs ++ new).
Proof.
  intros H1 H2 f r Hin. apply in_app_or in Hin as [Hin | Hin]; eauto.
Qed.

(** The outcome of [handleSendMessage], as far as files are concerned:
    the file is kept or dropped, and the only upload requested is that of
    the selected file. *)
Lemma handleSendMessage_files (s : State) :
  let s' := snd (handleSendMessage uploaded s) in
  (selectedFile s' = selectedFile s \/ selectedFile s' = None)
  /\ exists new,
       calls s' = calls s ++ new
       /\ forall f r, In (CallUploadFile f r) new -> selectedFile s = Some f.
Proof.
  intros s'. subst s'.
  destruct (request s) as [req |] eqn:Hreq;
    [| rewrite handleSendMessage_idle by auto; simpl; split; [auto |];
       exists []; rewrite app_nil_r; split; [reflexivity | intros f r []]].
  destruct (currentUser s) as [user |] eqn:Huser;
    [| rewrite handleSendMessage_idle by auto; simpl; split; [auto |];
       exists []; rewrite app_nil_r; split; [reflexivity | intros f r []]].
  destruct (selectedFile s) as [f |] eqn:Hf.
  - rewrite (handleSendMessage_file uploaded s req user f Hreq Huser Hf).
    cbv zeta. simpl.
    destruct (faults s (List.length (calls s)));
      [| destruct (faults s (S (List.length (calls s))))]; simpl; rewrite ?Hf.
    + split; [auto |]. eexists. split; [reflexivity |].
      intros f0 r [[= <- _] | []]. reflexivity.
    + split; [auto |]. eexists. split; [rewrite <- app_assoc; reflexivity |].
      intros f0 r [[= <- _] | [H | []]]; [reflexivity | discriminate].
    + split; [auto |]. eexists. split; [rewrite <- app_assoc; reflexivity |].
      intros f0 r [[= <- _] | [H | []]]; [reflexivity | discriminate].
  - destruct (blank (newMessage s)) eqn:Hb.
    + rewrite handleSendMessage_idle by auto. simpl. split; [auto |].
      exists []. rewrite app_nil_r. split; [reflexivity | intros f r []].
    + rewrite (handleSendMessage_text uploaded s req user Hreq Huser Hb Hf).
      destruct (faults s (List.length (calls s))); simpl; rewrite ?Hf;
        (split; [auto |]); eexists; (split; [reflexivity |]);
        intros f0 r [H | []]; discriminate.
Qed.

Lemma handleEditMessage_files (s : State) (messageId : string) :
  let s' := snd (handleEditMessage messageId s) in
  selectedFile s' = selectedFile s
  /\ exists new, calls s' = calls s ++ new
                 /\ forall f r, ~ In (CallUploadFile f r) new.
Proof.
  intros s'. subst s'.
  unfold handleEditMessage, call, try_catch, try_catch_finally, bind, modify, get, ret, throw.
  destruct (request s) as [req |]; simpl;
    [| split; [reflexivity |]; exists []; rewrite app_nil_r; split; [reflexivity | intros f r []]].
  destruct (blank (editingText s)); simpl;
    [split; [reflexivity |]; exists []; rewrite app_nil_r; split; [reflexivity | intros f r []] |].
  destruct (faults s (List.length (calls s))); simpl;
    (split; [reflexivity |]); eexists; (split; [reflexivity |]);
    intros f r [H | []]; discriminate.
Qed.

Lemma handleDeleteMessage_files (s : State) (messageId : string) :
  let s' := snd (handleDeleteMessage messageId s) in
  selectedFile s' = selectedFile s
  /\ exists new, calls s' = calls s ++ new
                 /\ forall f r, ~ In (CallUploadFile f r) new.
Proof.
  intros s'. subst s'.
  unfold handleDeleteMessage, call, try_catch, try_catch_finally, bind, modify, get, ret, throw.
  destruct (request s) as [req |]; simpl;
    [| split; [reflexivity |]; exists []; rewrite app_nil_r; split; [reflexivity | intros f r []]].
  destruct (faults s (List.length (calls s))); simpl;
    (split; [reflexivity |]); eexists; (split; [reflexivity |]);
    intros f r [H | []]; discriminate.
Qed.

Lemma act_keeps_limit (a : Action) (s : State) :
  fileWithinLimit s -> uploadsWithinLimit (calls s) ->
  fileWithinLimit (snd (act uploaded a s))
  /\ uploadsWithinLimit (calls (snd (act uploaded a s))).
Proof.
  intros Hfile Hcalls. destruct a as [file | | text | | m | text | | mid | mid | received];
    simpl.
  - unfold handleFileSelect. destruct file as [f |]; [| auto].
    destruct (Z.ltb_spec maxFileSize (f_size f)); simpl; [auto |].
    split; [unfold fileWithinLimit; simpl; lia | exact Hcalls].
  - split; [exact I | exact Hcalls].
  - auto.
  - destruct (handleSendMessage_files s) as [Hsel (new & Hnew & Hup)].
    split.
    + unfold fileWithinLimit. destruct Hsel as [-> | ->]; [exact Hfile | exact I].
    + rewrite Hnew. apply uploadsWithinLimit_app; [exact Hcalls |].
      intros f r Hin. apply Hup in Hin. unfold fileWithinLimit in Hfile.
      rewrite Hin in Hfile. exact Hfile.
  - auto.
  - auto.
  - auto.
  - destruct (handleEditMessage_files s mid) as [Hsel (new & Hnew & Hup)].
    split; [unfold fileWithinLimit; rewrite Hsel; exact Hfile |].
    rewrite Hnew. apply uploadsWithinLimit_app; [exact Hcalls |].
    intros f r Hin. destruct (Hup f r Hin).
  - destruct (handleDeleteMessage_files s mid) as [Hsel (new & Hnew & Hup)].
    split; [unfold fileWithinLimit; rewrite Hsel; exact Hfile |].
    rewrite Hnew. apply uploadsWithinLimit_app; [exact Hcalls |].
    intros f r Hin. destruct (Hup f r Hin).
  - auto.
Qed.

Lemma perform_keeps_limit (actions : list Action) :
  forall s,
    fileWithinLimit s -> uploadsWithinLimit (calls s) ->
    fileWithinLimit (snd (perform uploaded actions s))
    /\ uploadsWithinLimit (calls (snd (perform uploaded actions s))).
Proof.
  induction actions as [| a rest IH]; intros s Hfile Hcalls; simpl; [auto |].
  unfold bind. destruct (act_keeps_limit a s Hfile Hcalls) as [Hf1 Hc1].
  destruct (act uploaded a s) as [[e | []] s1]; simpl in *; [auto |].
  apply IH; assumption.
Qed.

End ChatInvariant.

(** No file over 10 MB is ever selected or uploaded: starting with no
    file selected (or one within the limit), whatever the user does in the
    dialog, the selected file stays within [10 * 1024 * 1024] bytes and so
    does every file handed to [uploadFile]. *)
Theorem chat_never_uploads_oversized_file
    (uploaded : ChatAdminHandlers.File -> string -> ChatAdminHandlers.FileAttachment)
    (actions : list ChatAdminHandlers.Action) (s : ChatAdminHandlers.State) :
  ChatAdminHandlers.fileWithinLimit s ->
  ChatAdminHandlers.uploadsWithinLimit (ChatAdminHandlers.calls s) ->
  let s' := snd (ChatAdminHandlers.perform uploaded actions s) in
  ChatAdminHandlers.fileWithinLimit s'
  /\ ChatAdminHandlers.uploadsWithinLimit (ChatAdminHandlers.calls s').
Proof. intros Hfile Hcalls s'. apply perform_keeps_limit; assumption. Qed.

Lemma chat_never_uploads_oversized_file_witness :
  10485760 <= ChatAdminHandlers.maxFileSize.
Proof.
  pose (big := ChatAdminHandlers.mkFile "video.mp4" "video/mp4" 10485761).
  pose (ok := ChatAdminHandlers.mkFile "nota.pdf" "application/pdf" 10485760).
  exact (proj1 (chat_never_uploads_oversized_file ChatScenario.upload
                  [ChatAdminHandlers.PickFile (Some ok); ChatAdminHandlers.PickFile (Some big)]
                  ChatScenario.dialog I (fun f r (H : In _ []) => match H with end))).
Defined.

(** What [handleSendMessage] sends: nothing at all without a request, a
    signed-in user, or a draft that is not blank or a file; otherwise one
    message whose text is never empty (the draft, or "Arquivo enviado:"
    and the file name when the draft is empty), always flagged as sent by
    an administrator under the current user's [uid], with an attachment
    exactly when a file was selected, and preceded by the upload of that
    file and of no other. *)
Theorem handleSendMessage_sends
    (uploaded : ChatAdminHandlers.File -> string -> ChatAdminHandlers.FileAttachment)
    (s : ChatAdminHandlers.State) (c : ChatAdminHandlers.Call) :
  In c (ChatAdminHandlers.callsDuring (ChatAdminHandlers.handleSendMessage uploaded) s) ->
  (exists req user,
     ChatAdminHandlers.request s = Some req /\ ChatAdminHandlers.currentUser s = Some user
     /\ (ChatAdminHandlers.blank (ChatAdminHandlers.newMessage s) = false
         \/ ChatAdminHandlers.selectedFile s <> None))
  /\ match c with
     | ChatAdminHandlers.CallUploadFile f r =>
         ChatAdminHandlers.selectedFile s = Some f
     | ChatAdminHandlers.CallAddMessage r text asAdmin coll name user attached =>
         text <> EmptyString
         /\ (ChatAdminHandlers.newMessage s <> EmptyString ->
             text = ChatAdminHandlers.newMessage s)
         /\ asAdmin = true
         /\ (exists u, ChatAdminHandlers.currentUser s = Some u /\ user = uid u)
         /\ (attached = None <-> ChatAdminHandlers.selectedFile s = None)
     | _ => False
     end.
Proof.
  unfold ChatAdminHandlers.callsDuring. intros Hin.
  assert (Htext : forall file,
            ChatAdminHandlers.blank (ChatAdminHandlers.newMessage s) = false
            \/ file <> None ->
            ChatAdminHandlers.textToSend (ChatAdminHandlers.newMessage s) file <> EmptyString
            /\ (ChatAdminHandlers.newMessage s <> EmptyString ->
                ChatAdminHandlers.textToSend (ChatAdminHandlers.newMessage s) file
                = ChatAdminHandlers.newMessage s)).
  { intros file Hok. unfold ChatAdminHandlers.textToSend, JSString.or, JSString.truthy.
    destruct (String.eqb_spec (ChatAdminHandlers.newMessage s) EmptyString) as [He | Hne];
      simpl.
    - split; [| contradiction]. destruct file as [f |]; [discriminate |].
      destruct Hok as [Hb | Hf]; [| contradiction].
      rewrite He in Hb. discriminate.
    - auto. }
  destruct (ChatAdminHandlers.request s) as [req |] eqn:Hreq;
    [| rewrite handleSendMessage_idle, skipn_all in Hin by auto; destruct Hin].
  destruct (ChatAdminHandlers.currentUser s) as [user |] eqn:Huser;
    [| rewrite handleSendMessage_idle, skipn_all in Hin by auto; destruct Hin].
  destruct (ChatAdminHandlers.selectedFile s) as [f |] eqn:Hf.
  - split; [exists req, user; repeat split; right; discriminate |].
    rewrite (handleSendMessage_file uploaded s req user f Hreq Huser Hf) in Hin.
    cbv zeta in Hin. simpl in Hin.
    destruct (Htext (Some f)) as [Hne Hdraft]; [right; discriminate |].
    destruct (ChatAdminHandlers.faults s (List.length (ChatAdminHandlers.calls s)));
      [| destruct (ChatAdminHandlers.faults s (S (List.length (ChatAdminHandlers.calls s))))];
      simpl in Hin; rewrite <- ?app_assoc, skipn_length_app in Hin; simpl in Hin.
    + destruct Hin as [<- | []]. reflexivity.
    + destruct Hin as [<- | [<- | []]]; [reflexivity |].
      unfold ChatAdminHandlers.sendCall. rewrite Hf.
      repeat split; eauto; discriminate.
    + destruct Hin as [<- | [<- | []]]; [reflexivity |].
      unfold ChatAdminHandlers.sendCall. rewrite Hf.
      repeat split; eauto; discriminate.
  - destruct (ChatAdminHandlers.blank (ChatAdminHandlers.newMessage s)) eqn:Hb;
      [rewrite handleSendMessage_idle, skipn_all in Hin by auto; destruct Hin |].
    split; [exists req, user; auto |].
    rewrite (handleSendMessage_text uploaded s req user Hreq Huser Hb Hf) in Hin.
    destruct (Htext None) as [Hne Hdraft]; [left; reflexivity |].
    destruct (ChatAdminHandlers.faults s (List.length (ChatAdminHandlers.calls s)));
      simpl in Hin; rewrite skipn_length_app in Hin; destruct Hin as [<- | []];
      unfold ChatAdminHandlers.sendCall; rewrite Hf; repeat split; eauto.
Qed.

Lemma handleSendMessage_sends_witness :
  let file := ChatAdminHandlers.mkFile "nota.pdf" "application/pdf" 2048 in
  let s := ChatAdminHandlers.setSelectedFile (Some file) ChatScenario.dialog in
  ChatAdminHandlers.selectedFile s = Some file.
Proof.
  intros file s.
  apply (handleSendMessage_sends ChatScenario.upload s
           (ChatAdminHandlers.CallUploadFile file "req-1")).
  vm_compute. left. reflexivity.
Defined.

(** A send that fails keeps the draft: after [handleSendMessage] either
    nothing happened (the guard stopped it), or loading has ended and the
    message went through (draft and file cleared, [onMessageSent] called
    once, success toast), or loading has ended and a call was rejected
    (draft and file as they were, [onMessageSent] not called, error
    toast). *)
Theorem handleSendMessage_keeps_draft_on_failure
    (uploaded : ChatAdminHandlers.File -> string -> ChatAdminHandlers.FileAttachment)
    (s : ChatAdminHandlers.State) :
  let s' := snd (ChatAdminHandlers.handleSendMessage uploaded s) in
  fst (ChatAdminHandlers.handleSendMessage uploaded s) = inr tt
  /\ (s' = s
      \/ (ChatAdminHandlers.isLoading s' = false
          /\ ChatAdminHandlers.newMessage s' = EmptyString
          /\ ChatAdminHandlers.selectedFile s' = None
          /\ ChatAdminHandlers.messagesSent s' = S (ChatAdminHandlers.messagesSent s)
          /\ ChatAdminHandlers.toasts s'
             = ChatAdminHandlers.toasts s ++ [(true, "Mensagem enviada"%string)])
      \/ (ChatAdminHandlers.isLoading s' = false
          /\ ChatAdminHandlers.newMessage s' = ChatAdminHandlers.newMessage s
          /\ ChatAdminHandlers.selectedFile s' = ChatAdminHandlers.selectedFile s
          /\ ChatAdminHandlers.messagesSent s' = ChatAdminHandlers.messagesSent s
          /\ ChatAdminHandlers.toasts s'
             = ChatAdminHandlers.toasts s ++ [(false, "Erro ao enviar mensagem"%string)])).
Proof.
  intros s'. subst s'.
  destruct (ChatAdminHandlers.request s) as [req |] eqn:Hreq;
    [| rewrite handleSendMessage_idle by auto; auto].
  destruct (ChatAdminHandlers.currentUser s) as [user |] eqn:Huser;
    [| rewrite handleSendMessage_idle by auto; auto].
  destruct (ChatAdminHandlers.selectedFile s) as [f |] eqn:Hf.
  - rewrite (handleSendMessage_file uploaded s req user f Hreq Huser Hf). cbv zeta.
    destruct (ChatAdminHandlers.faults s (List.length (ChatAdminHandlers.calls s)));
      [| destruct (ChatAdminHandlers.faults s (S (List.length (ChatAdminHandlers.calls s))))];
      simpl; rewrite ?Hf; split; auto 10.
  - destruct (ChatAdminHandlers.blank (ChatAdminHandlers.newMessage s)) eqn:Hb;
      [rewrite handleSendMessage_idle by auto; auto |].
    rewrite (handleSendMessage_text uploaded s req user Hreq Huser Hb Hf).
    destruct (ChatAdminHandlers.faults s (List.length (ChatAdminHandlers.calls s)));
      simpl; rewrite ?Hf; split; auto 10.
Qed.

(** ** Editing a chat message *)

Section EditFacts.

Import ChatAdminHandlers.

Variable uploaded : File -> string -> FileAttachment.

Lemma perform_start_save (s : State) (m : Message) :
  snd (perform uploaded [StartEditing m; SaveEdit (id m)] s)
  = snd (handleEditMessage (id m)
           (setEditingText (message m) (setEditingMessageId (Some (id m)) s))).
Proof.
  unfold perform, act, startEditing, bind, modify, ret. simpl.
  destruct (handleEditMessage _ _) as [[e | []] s1]; reflexivity.
Qed.

End EditFacts.

(** Editing a message: "Editar" opens the editor on that message with its
    current text; "Salvar" pressed on a blank text sends nothing and
    leaves the editor open; on any other text it sends exactly one
    [editMessage] for that message with that text and the current user,
    and closes the editor if the call is accepted, or keeps it open with
    the text for another try (and shows the error toast) if the call is
    rejected. *)
Theorem edit_saves_the_edited_text
    (uploaded : ChatAdminHandlers.File -> string -> ChatAdminHandlers.FileAttachment)
    (s : ChatAdminHandlers.State) (req : ChatAdminHandlers.Request)
    (m : ChatAdminHandlers.Message) :
  ChatAdminHandlers.request s = Some req ->
  let opened := snd (ChatAdminHandlers.perform uploaded [ChatAdminHandlers.StartEditing m] s) in
  let saved := snd (ChatAdminHandlers.perform uploaded
                      [ChatAdminHandlers.StartEditing m;
                       ChatAdminHandlers.SaveEdit (ChatAdminHandlers.id m)] s) in
  let edit := ChatAdminHandlers.CallEditMessage (ChatAdminHandlers.requestId req)
                (ChatAdminHandlers.collectionName req) (ChatAdminHandlers.id m)
                (ChatAdminHandlers.message m) (ChatAdminHandlers.uidOrEmpty s) in
  ChatAdminHandlers.editorShown opened m = true
  /\ ChatAdminHandlers.editingText opened = ChatAdminHandlers.message m
  /\ (if ChatAdminHandlers.blank (ChatAdminHandlers.message m)
      then saved = opened
      else ChatAdminHandlers.calls saved = ChatAdminHandlers.calls s ++ [edit]
           /\ if ChatAdminHandlers.faults s (List.length (ChatAdminHandlers.calls s))
              then ChatAdminHandlers.editorShown saved m = true
                   /\ ChatAdminHandlers.editingText saved = ChatAdminHandlers.message m
                   /\ ChatAdminHandlers.toasts saved
                      = ChatAdminHandlers.toasts s ++ [(false, "Erro ao editar mensagem"%string)]
              else ChatAdminHandlers.editingMessageId saved = None
                   /\ ChatAdminHandlers.editingText saved = EmptyString
                   /\ ChatAdminHandlers.toasts saved
                      = ChatAdminHandlers.toasts s ++ [(true, "Mensagem editada"%string)]).
Proof.
  intros Hreq opened saved edit. subst opened saved edit.
  split; [unfold ChatAdminHandlers.editorShown; simpl; apply String.eqb_refl |].
  split; [reflexivity |].
  rewrite perform_start_save.
  unfold ChatAdminHandlers.handleEditMessage, ChatAdminHandlers.call, try_catch,
    try_catch_finally, bind, modify, get, ret, throw.
  simpl. rewrite Hreq.
  destruct (ChatAdminHandlers.blank (ChatAdminHandlers.message m)); [reflexivity |].
  unfold ChatAdminHandlers.editorShown, ChatAdminHandlers.uidOrEmpty. simpl.
  destruct (ChatAdminHandlers.faults s (List.length (ChatAdminHandlers.calls s))) eqn:Hf;
    simpl; rewrite ?Hf; simpl; rewrite ?String.eqb_refl; auto.
Qed.

Lemma edit_saves_the_edited_text_witness :
  ChatAdminHandlers.editorShown
    (snd (ChatAdminHandlers.perform ChatScenario.upload
            [ChatAdminHandlers.StartEditing ChatScenario.note] ChatScenario.dialog))
    ChatScenario.note
  = true.
Proof.
  apply (edit_saves_the_edited_text ChatScenario.upload ChatScenario.dialog
           (ChatAdminHandlers.mkRequest "req-1" "purchases") ChatScenario.note).
  reflexivity.
Defined.

(** A deleted message shows neither the menu with "Editar" and "Apagar",
    nor its attachment, nor the "(Editada)" tag.  But the editor is tied
    to the id alone: if "Editar" was pressed on a message and a snapshot
    then delivers that message as deleted, the editor with "Salvar" is
    still shown on it, holding the text from before. *)
Theorem deleted_message_keeps_open_editor
    (uploaded : ChatAdminHandlers.File -> string -> ChatAdminHandlers.FileAttachment)
    (s : ChatAdminHandlers.State) (m deleted : ChatAdminHandlers.Message)
    (received : list ChatAdminHandlers.Message) :
  ChatAdminHandlers.isDeleted deleted = Some true ->
  ChatAdminHandlers.id deleted = ChatAdminHandlers.id m ->
  let s' := snd (ChatAdminHandlers.perform uploaded
                   [ChatAdminHandlers.StartEditing m; ChatAdminHandlers.Snapshot received] s) in
  ChatAdminHandlers.menuShown s' deleted = false
  /\ ChatAdminHandlers.attachmentShown deleted = false
  /\ ChatAdminHandlers.editedTagShown deleted = false
  /\ ChatAdminHandlers.messages s' = received
  /\ ChatAdminHandlers.editorShown s' deleted = true
  /\ ChatAdminHandlers.editingText s' = ChatAdminHandlers.message m.
Proof.
  intros Hdel Hid s'. subst s'.
  unfold ChatAdminHandlers.menuShown, ChatAdminHandlers.attachmentShown,
    ChatAdminHandlers.editedTagShown, ChatAdminHandlers.editorShown,
    ChatAdmin.controlsOffered, ChatAdmin.canEditOrDelete.
  simpl. rewrite Hdel, Hid, String.eqb_refl. simpl.
  rewrite !andb_false_r.
  repeat split.
  destruct (ChatAdminHandlers.currentUser s) as [u |]; [| reflexivity].
  unfold ChatAdmin.js_and. simpl.
  destruct (ChatAdmin.strict_eq (ChatAdminHandlers.userId deleted) (uid u)); reflexivity.
Qed.

Lemma deleted_message_keeps_open_editor_witness :
  let gone := ChatAdminHandlers.mkMessage "m1" (Some "u-ana"%string)
                "Esta mensagem foi apagada" true (Some true) None None in
  ChatAdminHandlers.editorShown
    (snd (ChatAdminHandlers.perform ChatScenario.upload
            [ChatAdminHandlers.StartEditing ChatScenario.note;
             ChatAdminHandlers.Snapshot [gone]] ChatScenario.dialog)) gone
  = true.
Proof.
  intros gone.
  apply (deleted_message_keeps_open_editor ChatScenario.upload ChatScenario.dialog
           ChatScenario.note gone [gone]); reflexivity.
Defined.

(** ** After the login *)

Section LoginFacts.

Import Login.

Lemma or_else_nonempty (x : option string) (fallback : string) :
  fallback <> EmptyString -> or_else x fallback <> EmptyString.
Proof.
  intros Hf. unfold or_else. destruct x as [t |]; [| exact Hf].
  destruct (String.eqb_spec t EmptyString); assumption.
Qed.

Lemma handlePostLogin_accepted (s : State) (user : User) :
  currentUser s = Some user -> isRedirecting s = false ->
  offline s = false -> uid user ∈ users s ->
  handlePostLogin s
  = (inr tt,
     setIsRedirecting false
       (toast "Login bem-sucedido"
          ("Bem-vindo, " ++ or_else (displayName user) "usuário" ++ "!")%string
          (navigate (redirectPath s) true
             (set_sessionStorage (delete "redirectPath"%string) (wrote (uid user) s))))).
Proof.
  intros Hu Hr Ho Hdoc.
  unfold handlePostLogin, touchUser, try_catch_finally, bind, modify, get, ret, throw.
  rewrite Hu, Hr, Ho. rewrite (bool_decide_eq_true_2 _ Hdoc). reflexivity.
Qed.

Lemma handlePostLogin_rejected (s : State) (user : User) :
  currentUser s = Some user -> isRedirecting s = false ->
  offline s = true \/ uid user ∉ users s ->
  handlePostLogin s
  = (inr tt,
     setIsRedirecting false
       (navigate "/" true (toast "Erro" "Ocorreu um problema durante o login" s))).
Proof.
  intros Hu Hr Hbad.
  unfold handlePostLogin, touchUser, try_catch_finally, bind, modify, get, ret, throw.
  rewrite Hu, Hr. destruct (offline s); [reflexivity |].
  destruct Hbad as [Hd | Hn]; [discriminate |].
  rewrite (bool_decide_eq_false_2 _ Hn). reflexivity.
Qed.

End LoginFacts.

(** After a login, [handlePostLogin] asks for exactly one navigation, with
    [replace], to a path that is never empty: when the user's document
    takes the [lastActive] write, the path kept in the session storage if
    it is not empty, else the path the router came from if it is not
    empty, else the root, and the stored path is removed; when the write
    is rejected, the root, the stored path staying where it is. *)
Theorem handlePostLogin_navigates_once (s : Login.State) (user : User) :
  Login.currentUser s = Some user ->
  Login.isRedirecting s = false ->
  let s' := snd (Login.handlePostLogin s) in
  fst (Login.handlePostLogin s) = inr tt
  /\ Login.isRedirecting s' = false
  /\ exists path,
       Login.navigations s' = Login.navigations s ++ [(path, true)]
       /\ path <> EmptyString
       /\ if negb (Login.offline s) && bool_decide (uid user ∈ Login.users s)
          then path = or_else (Login.sessionStorage s !! "redirectPath"%string)
                        (or_else (Login.fromPathname s) "/")
               /\ Login.sessionStorage s' !! "redirectPath"%string = None
          else path = "/"%string
               /\ Login.sessionStorage s' = Login.sessionStorage s.
Proof.
  intros Hu Hr s'. subst s'.
  destruct (Login.offline s) eqn:Ho; simpl.
  - rewrite (handlePostLogin_rejected s user Hu Hr) by auto. simpl.
    repeat split. exists "/"%string. repeat split. discriminate.
  - destruct (decide (uid user ∈ Login.users s)) as [Hin | Hnin].
    + rewrite (handlePostLogin_accepted s user Hu Hr Ho Hin). simpl.
      rewrite (bool_decide_eq_true_2 _ Hin).
      repeat split. eexists. split; [reflexivity |].
      split; [unfold Login.redirectPath; repeat apply or_else_nonempty; discriminate |].
      split; [reflexivity | apply lookup_delete_eq].
    + rewrite (handlePostLogin_rejected s user Hu Hr) by auto. simpl.
      rewrite (bool_decide_eq_false_2 _ Hnin).
      repeat split. exists "/"%string. repeat split. discriminate.
Qed.

Lemma handlePostLogin_navigates_once_witness :
  let s := Login.mkState (Some Scenario.ana) false {["redirectPath"%string := ""%string]}
             (Some "/admin/compras"%string) {["u-ana"%string]} false [] [] [] in
  Login.navigations (snd (Login.handlePostLogin s)) = [("/admin/compras"%string, true)].
Proof.
  intros s.
  destruct (handlePostLogin_navigates_once s Scenario.ana eq_refl eq_refl)
    as (_ & _ & path & Hnav & _ & Hpath).
  rewrite Hnav. vm_compute in Hpath. destruct Hpath as [-> _]. reflexivity.
Defined.

(** A path kept in the session storage redirects once: when two runs of
    the effect both get their write accepted, the second one no longer
    sees the stored path and goes where the router came from, or to the
    root. *)
Theorem stored_redirect_is_used_once (s : Login.State) (user : User) :
  Login.currentUser s = Some user ->
  Login.isRedirecting s = false ->
  Login.offline s = false ->
  uid user ∈ Login.users s ->
  let s1 := snd (Login.handlePostLogin s) in
  let s2 := snd (Login.handlePostLogin s1) in
  Login.navigations s2
  = Login.navigations s
    ++ [(or_else (Login.sessionStorage s !! "redirectPath"%string)
           (or_else (Login.fromPathname s) "/"), true);
        (or_else (Login.fromPathname s) "/", true)].
Proof.
  intros Hu Hr Ho Hin s1 s2. subst s2 s1.
  rewrite (handlePostLogin_accepted s user Hu Hr Ho Hin). simpl.
  rewrite (handlePostLogin_accepted _ user); try assumption; try reflexivity.
  simpl. unfold Login.redirectPath. simpl.
  rewrite lookup_delete_eq, <- app_assoc. reflexivity.
Qed.

Lemma stored_redirect_is_used_once_witness :
  let s := Login.mkState (Some Scenario.ana) false
             {["redirectPath"%string := "/reservas/nova"%string]}
             None {["u-ana"%string]} false [] [] [] in
  Login.navigations (snd (Login.handlePostLogin (snd (Login.handlePostLogin s))))
  = [("/reservas/nova"%string, true); ("/"%string, true)].
Proof.
  intros s.
  rewrite (stored_redirect_is_used_once s Scenario.ana eq_refl eq_refl eq_refl).
  - vm_compute. reflexivity.
  - vm_compute. reflexivity.
Defined.
